(** * terraform-provider-vsphere: network interface sub-resource and clone workflow

    A shallow embedding of
      - vsphere/internal/virtualdevice/virtual_machine_network_interface_subresource.go
      - the vmworkflow clone file (ValidateVirtualMachineClone,
        validateCloneSnapshots, ExpandVirtualMachineCloneSpec)
    together with the properties the design document states about them.

    Go values that live behind pointers (the device structs of a
    VirtualDeviceList) are kept in an explicit heap, so that a write through
    one reference is seen through every alias.  Fallible functions return
    [Result]: a value, a Go [error], or a run-time panic. *)

From stdpp Require Import gmap strings list fin_maps.
From Stdlib Require Import ZArith Lia.

Local Open Scope string_scope.
Local Open Scope Z_scope.

(** ** Outcomes of a Go call *)

Inductive Result (E A : Type) : Type :=
| Ok (a : A)          (* the call returned with a nil error *)
| Err (e : E)         (* the call returned a non-nil error *)
| Panic (msg : string). (* the goroutine panicked *)

Arguments Ok {E A} a.
Arguments Err {E A} e.
Arguments Panic {E A} msg.

#[global] Instance Result_ret {E} : MRet (Result E) := λ A a, Ok a.

#[global] Instance Result_bind {E} : MBind (Result E) := λ A B k m,
  match m with
  | Ok a => k a
  | Err e => Err e
  | Panic msg => Panic msg
  end.

Definition is_Err {E A} (m : Result E A) : bool :=
  match m with Err _ => true | _ => false end.

(** ** Machine integers *)

(** Go's [int32] arithmetic wraps around in two's complement. *)
Definition wrap32 (z : Z) : Z := (z + 2 ^ 31) mod 2 ^ 32 - 2 ^ 31.

Definition in_int32 (z : Z) : Prop := - 2 ^ 31 ≤ z < 2 ^ 31.

(** * Package virtualdevice *)

Module virtualdevice.

(** ** The govmomi types the file works on *)

(** types.ManagedObjectReference *)
Record ManagedObjectReference := {
  Type_ : string;
  Value : string;
}.

(** The dynamic type of the value behind a [types.BaseVirtualDeviceBackingInfo]
    interface; the three kinds [Read] knows carry the fields it reads. *)
Inductive BaseVirtualDeviceBackingInfo :=
| VirtualEthernetCardNetworkBackingInfo (Network : option ManagedObjectReference)
| VirtualEthernetCardOpaqueNetworkBackingInfo (OpaqueNetworkId : string)
| VirtualEthernetCardDistributedVirtualPortBackingInfo
    (SwitchUuid PortgroupKey : string)
| OtherBackingInfo (gotype : string).

(** types.SharesInfo *)
Record SharesInfo := {
  Shares : Z;
  Level : string;
}.

(** types.VirtualEthernetCardResourceAllocation; [Reservation] and [Limit]
    are [*int64]. *)
Record VirtualEthernetCardResourceAllocation := {
  Reservation : option Z;
  Share : SharesInfo;
  Limit : option Z;
}.

(** types.VirtualDevice, the struct every device embeds.  [UnitNumber] is
    [*int32]; the file never shares the pointed-to cell between two devices
    (it always stores the address of a fresh local), so it is kept by value.
    [Backing] is an interface and may be nil; the file hands backings on but
    never writes through one, so they are kept by value too. *)
Record VirtualDevice := {
  Key : Z;
  Backing : option BaseVirtualDeviceBackingInfo;
  ControllerKey : Z;
  UnitNumber : option Z;
}.

(** types.VirtualEthernetCard: the embedded [VirtualDevice] (field [base])
    and the fields of the card itself.  Structs of other device kinds (controllers, disks) are
    represented by the same cell with the card fields at their zero value;
    nothing in this file reads them there. *)
Record VirtualEthernetCard := {
  base : VirtualDevice;
  AddressType : string;
  MacAddress : string;
  ResourceAllocation : option VirtualEthernetCardResourceAllocation;
}.

(** The dynamic type of a device: the six ethernet cards the file's type
    switches name, the two remaining govmomi structs that implement
    [BaseVirtualEthernetCard] ([VirtualEthernetCard] itself and
    [VirtualVmxnet]), and any other device struct by its Go name. *)
Inductive DeviceType :=
| VirtualE1000
| VirtualE1000e
| VirtualPCNet32
| VirtualSriovEthernetCard
| VirtualVmxnet2
| VirtualVmxnet3
| VirtualVmxnet
| VirtualEthernetCardBase
| OtherDevice (gotype : string).

#[global] Instance DeviceType_eq_dec : EqDecision DeviceType.
Proof. solve_decision. Defined.

(** Go's [%T] of a device value. *)
Definition typeName (t : DeviceType) : string :=
  match t with
  | VirtualE1000 => "*types.VirtualE1000"
  | VirtualE1000e => "*types.VirtualE1000e"
  | VirtualPCNet32 => "*types.VirtualPCNet32"
  | VirtualSriovEthernetCard => "*types.VirtualSriovEthernetCard"
  | VirtualVmxnet2 => "*types.VirtualVmxnet2"
  | VirtualVmxnet3 => "*types.VirtualVmxnet3"
  | VirtualVmxnet => "*types.VirtualVmxnet"
  | VirtualEthernetCardBase => "*types.VirtualEthernetCard"
  | OtherDevice gotype => gotype
  end.

(** An address on the Go heap. *)
Definition loc := nat.

(** A non-nil interface value holding a pointer to a device struct: its
    dynamic type and the address.  [types.BaseVirtualDevice],
    [types.BaseVirtualEthernetCard] and [types.BaseVirtualController] differ
    only in their method set, so converting between them keeps the value. *)
Record iface := {
  dyntype : DeviceType;
  ptr : loc;
}.

#[global] Instance iface_eq_dec : EqDecision iface.
Proof. solve_decision. Defined.

Definition BaseVirtualDevice := iface.
Definition BaseVirtualEthernetCard := iface.
Definition BaseVirtualController := iface.

(** object.VirtualDeviceList *)
Definition VirtualDeviceList := list BaseVirtualDevice.

(** The heap: the struct stored at each allocated address. *)
Abbreviation Heap := (gmap loc VirtualEthernetCard).

(** ** Errors *)

(** One constructor per error the file builds, with the values its message
    formats; [External] is an error handed up unchanged from a collaborator. *)
Inductive error :=
| External (msg : string)
| NoMoreSlots
    (* "there are no more available slots on the PCI bus" *)
| NotNetworkDevice (gotype : string)
    (* "device is not a network device (%T)" *)
| CannotFindNetworkDevice (cause : error)
    (* "cannot find network device: %s" *)
| NoNetworkInformation
    (* "could not determine network information from NIC backing" *)
| UnknownBacking (gotype : string).
    (* "unknown network interface backing %T" *)

Abbreviation R := (Result error).

(** ** Reading and writing through a pointer *)

Definition load (h : Heap) (p : loc) : R VirtualEthernetCard :=
  match h !! p with
  | Some o => Ok o
  | None => Panic "invalid memory address or nil pointer dereference"
  end.

(** [device.GetVirtualDevice()] followed by a read of its fields. *)
Definition GetVirtualDevice (h : Heap) (d : iface) : R VirtualDevice :=
  o ← load h (ptr d); Ok (base o).

Definition set_ControllerKey (k : Z) (o : VirtualEthernetCard) : VirtualEthernetCard :=
  {| base := {| Key := Key (base o); Backing := Backing (base o);
                  ControllerKey := k; UnitNumber := UnitNumber (base o) |};
     AddressType := AddressType o; MacAddress := MacAddress o;
     ResourceAllocation := ResourceAllocation o |}.

Definition set_UnitNumber (u : option Z) (o : VirtualEthernetCard) : VirtualEthernetCard :=
  {| base := {| Key := Key (base o); Backing := Backing (base o);
                  ControllerKey := ControllerKey (base o); UnitNumber := u |};
     AddressType := AddressType o; MacAddress := MacAddress o;
     ResourceAllocation := ResourceAllocation o |}.

Definition set_Key (k : Z) (o : VirtualEthernetCard) : VirtualEthernetCard :=
  {| base := {| Key := k; Backing := Backing (base o);
                  ControllerKey := ControllerKey (base o);
                  UnitNumber := UnitNumber (base o) |};
     AddressType := AddressType o; MacAddress := MacAddress o;
     ResourceAllocation := ResourceAllocation o |}.

Definition set_Backing (b : option BaseVirtualDeviceBackingInfo)
    (o : VirtualEthernetCard) : VirtualEthernetCard :=
  {| base := {| Key := Key (base o); Backing := b;
                  ControllerKey := ControllerKey (base o);
                  UnitNumber := UnitNumber (base o) |};
     AddressType := AddressType o; MacAddress := MacAddress o;
     ResourceAllocation := ResourceAllocation o |}.

Definition set_AddressType (s : string) (o : VirtualEthernetCard) : VirtualEthernetCard :=
  {| base := base o; AddressType := s; MacAddress := MacAddress o;
     ResourceAllocation := ResourceAllocation o |}.

Definition set_MacAddress (s : string) (o : VirtualEthernetCard) : VirtualEthernetCard :=
  {| base := base o; AddressType := AddressType o; MacAddress := s;
     ResourceAllocation := ResourceAllocation o |}.

Definition set_ResourceAllocation (a : option VirtualEthernetCardResourceAllocation)
    (o : VirtualEthernetCard) : VirtualEthernetCard :=
  {| base := base o; AddressType := AddressType o; MacAddress := MacAddress o;
     ResourceAllocation := a |}.

(** [p.field = v]: a write through the pointer [p]. *)
Definition store (h : Heap) (p : loc) (f : VirtualEthernetCard → VirtualEthernetCard)
    : R Heap :=
  o ← load h p; Ok (<[p := f o]> h).

(** ** baseVirtualEthernetCardToBaseVirtualDevice,
       baseVirtualDeviceToBaseVirtualEthernetCard *)

Definition baseVirtualEthernetCardToBaseVirtualDevice (v : BaseVirtualEthernetCard)
    : R BaseVirtualDevice :=
  match dyntype v with
  | VirtualE1000 => Ok v
  | VirtualE1000e => Ok v
  | VirtualPCNet32 => Ok v
  | VirtualSriovEthernetCard => Ok v
  | VirtualVmxnet2 => Ok v
  | VirtualVmxnet3 => Ok v
  | t => Panic ("unknown ethernet card type " +:+ typeName t)
  end.

Definition baseVirtualDeviceToBaseVirtualEthernetCard (v : BaseVirtualDevice)
    : R BaseVirtualEthernetCard :=
  match dyntype v with
  | VirtualE1000 => Ok v
  | VirtualE1000e => Ok v
  | VirtualPCNet32 => Ok v
  | VirtualSriovEthernetCard => Ok v
  | VirtualVmxnet2 => Ok v
  | VirtualVmxnet3 => Ok v
  | t => Err (NotNetworkDevice (typeName t))
  end.

(** The six types both switches list. *)
Definition supportedEthernetCard (t : DeviceType) : bool :=
  match t with
  | VirtualE1000 | VirtualE1000e | VirtualPCNet32
  | VirtualSriovEthernetCard | VirtualVmxnet2 | VirtualVmxnet3 => true
  | _ => false
  end.

(** ** assignEthernetCard *)

Definition pciDeviceOffset : Z := 7.

(** [units\[i\] = true]; an index outside the slice panics. *)
Definition setUnit (units : list bool) (i : Z) : R (list bool) :=
  if (0 <=? i) && (i <? Z.of_nat (length units))
  then Ok (<[Z.to_nat i := true]> units)
  else Panic "index out of range".

(** The first loop: mark the units taken on the controller [ckey]. *)
Fixpoint markUnits (h : Heap) (ckey : Z) (l : VirtualDeviceList) (units : list bool)
    : R (list bool) :=
  match l with
  | [] => Ok units
  | device :: rest =>
      d ← GetVirtualDevice h device;
      if negb (ControllerKey d =? ckey) then markUnits h ckey rest units else
      match UnitNumber d with
      | None => markUnits h ckey rest units
      | Some u =>
          if (u <? pciDeviceOffset) || (wrap32 (pciDeviceOffset + 10) <=? u)
          then markUnits h ckey rest units
          else
            units' ← setUnit units (wrap32 (u - pciDeviceOffset));
            markUnits h ckey rest units'
      end
  end.

(** The second loop: [newUnit] stays as it is unless a unit is free, and the
    first free one wins ([break]). *)
Fixpoint pickUnit (units : list bool) (unit : Z) (newUnit : Z) : Z :=
  match units with
  | [] => newUnit
  | used :: rest =>
      if negb used then wrap32 (wrap32 unit + pciDeviceOffset)
      else pickUnit rest (unit + 1) newUnit
  end.

(** On success the result is the heap after the three writes to the device;
    when an error is returned nothing has been written.
    [c.GetVirtualController().Key] is the key of the [VirtualDevice] that the
    controller's struct embeds. *)
Definition assignEthernetCard (h : Heap) (l : VirtualDeviceList)
    (device : BaseVirtualDevice) (c : BaseVirtualController) : R Heap :=
  let units := replicate 10 false in
  ctl ← GetVirtualDevice h c;
  let ckey := Key ctl in
  units ← markUnits h ckey l units;
  let newUnit := pickUnit units 0 (-1) in
  if newUnit <? 0 then Err NoMoreSlots else
  let d := ptr device in
  ctl ← GetVirtualDevice h c;
  h ← store h d (set_ControllerKey (Key ctl));
  h ← store h d (set_UnitNumber (Some newUnit));
  o ← load h d;
  if Key (base o) =? 0 then store h d (set_Key (-1)) else Ok h.

(** ** The sub-resource *)

Definition networkInterfaceSubresourceTypeE1000 : string := "e1000".
Definition networkInterfaceSubresourceTypeVmxnet3 : string := "vmxnet3".
Definition networkInterfaceSubresourceTypeUnknown : string := "unknown".

Definition networkInterfaceSubresourceTypeAllowedValues : list string :=
  [networkInterfaceSubresourceTypeE1000; networkInterfaceSubresourceTypeVmxnet3].

(** Constants of govmomi's [types] package the file refers to. *)
Definition VirtualEthernetCardMacTypeManual : string := "manual".
Definition VirtualEthernetCardMacTypeGenerated : string := "generated".
Definition VirtualEthernetCardMacTypeAssigned : string := "assigned".
Definition SharesLevelNormal : string := "normal".

Definition networkInterfaceSubresourceMACAddressTypeAllowedValues : list string :=
  [VirtualEthernetCardMacTypeManual].

(** schema.ValueType, as far as the file uses it. *)
Inductive ValueType := TypeBool | TypeInt | TypeString.

(** A value held for an attribute ([interface{}] in Go). *)
Inductive AttrValue :=
| VBool (b : bool)
| VInt (z : Z)
| VString (s : string)
| VInt64Ptr (p : option Z).

#[global] Instance AttrValue_eq_dec : EqDecision AttrValue.
Proof. solve_decision. Defined.

(** schema.Schema without its description and validation function. *)
Record Schema := {
  Type' : ValueType;
  Optional : bool;
  Required : bool;
  Computed : bool;
  Default : option AttrValue;
}.

Definition networkInterfaceSubresourceSchema : gmap string Schema :=
  list_to_map [
    ("bandwidth_limit",
     {| Type' := TypeInt; Optional := true; Required := false; Computed := false;
        Default := Some (VInt (-1)) |});
    ("bandwidth_reservation",
     {| Type' := TypeInt; Optional := true; Required := false; Computed := false;
        Default := Some (VInt 0) |});
    ("bandwidth_share_level",
     {| Type' := TypeString; Optional := true; Required := false; Computed := false;
        Default := Some (VString SharesLevelNormal) |});
    ("bandwidth_share_count",
     {| Type' := TypeInt; Optional := true; Required := false; Computed := true;
        Default := None |});
    ("network_id",
     {| Type' := TypeString; Optional := false; Required := true; Computed := false;
        Default := None |});
    ("adapter_type",
     {| Type' := TypeString; Optional := true; Required := false; Computed := false;
        Default := Some (VString networkInterfaceSubresourceTypeE1000) |});
    ("use_static_mac",
     {| Type' := TypeBool; Optional := true; Required := false; Computed := false;
        Default := None |});
    ("mac_address",
     {| Type' := TypeString; Optional := true; Required := false; Computed := true;
        Default := None |});
    ("key",
     {| Type' := TypeInt; Optional := false; Required := false; Computed := true;
        Default := None |})
  ].

(** What the remote end answers to the two look-ups [Read] makes through
    the client: [nsx.OpaqueNetworkFromNetworkID] followed by [Reference()],
    and [dvportgroup.FromKey] followed by [Reference()]; a failed look-up
    answers with the message of its error.  [ApiType] is
    [ServiceContent.About.ApiType]. *)
Record Client := {
  ApiType : string;
  OpaqueNetworkFromNetworkID : string → Result string ManagedObjectReference;
  DVPortgroupFromKey : string → string → Result string ManagedObjectReference;
}.

(** An error of a collaborator, handed up as it is. *)
Definition external {A} (m : Result string A) : R A :=
  match m with
  | Ok a => Ok a
  | Err msg => Err (External msg)
  | Panic msg => Panic msg
  end.

(** Modelled from the spec: the [Subresource] struct and its accessors
    [Get], [Set] and [HasChange] live in a file of the package that is not
    among the sources embedded here.  The spec describes a
    declared configuration entry as the attribute set of one device of the
    declared list together with the previously persisted attribute snapshot
    used for drift comparison: [data_old] is that snapshot, [data_new] the
    declared attributes, both keyed by the attribute names of [schema].  The
    fields [schema], [client], [srtype] and [index] are those
    [NewNetworkInterfaceSubresource] fills in. *)
Record Subresource := {
  schema : gmap string Schema;
  client : Client;
  srtype : string;
  index : Z;
  data_old : gmap string AttrValue;
  data_new : gmap string AttrValue;
}.

Definition subresourceTypeNetworkInterface : string := "network_interface".

Definition NewNetworkInterfaceSubresource (c : Client) (index : Z)
    (old new : gmap string AttrValue) : Subresource :=
  {| schema := networkInterfaceSubresourceSchema;
     client := c;
     srtype := subresourceTypeNetworkInterface;
     index := index;
     data_old := old;
     data_new := new |}.

Definition zeroValue (t : ValueType) : AttrValue :=
  match t with
  | TypeBool => VBool false
  | TypeInt => VInt 0
  | TypeString => VString ""
  end.

(** The value of attribute [key] in [m]: nil for a name the schema does not
    declare, otherwise the stored value, the schema's default or the zero
    value of the attribute's type. *)
Definition attribute (sch : gmap string Schema) (m : gmap string AttrValue)
    (key : string) : option AttrValue :=
  s ← sch !! key;
  Some (default (default (zeroValue (Type' s)) (Default s)) (m !! key)).

Definition Get (r : Subresource) (key : string) : option AttrValue :=
  attribute (schema r) (data_new r) key.

Definition GetOld (r : Subresource) (key : string) : option AttrValue :=
  attribute (schema r) (data_old r) key.

(** Old and new value differ ([reflect.DeepEqual] is false). *)
Definition HasChange (r : Subresource) (key : string) : bool :=
  bool_decide (GetOld r key ≠ Get r key).

Definition Set' (key : string) (value : AttrValue) (r : Subresource) : Subresource :=
  {| schema := schema r; client := client r; srtype := srtype r; index := index r;
     data_old := data_old r;
     data_new := <[key := value]> (data_new r) |}.

(** The type assertions [.(string)], [.(bool)] and [.(int)]. *)
Definition asString (v : option AttrValue) : R string :=
  match v with
  | Some (VString s) => Ok s
  | _ => Panic "interface conversion: interface {} is not string"
  end.

Definition asBool (v : option AttrValue) : R bool :=
  match v with
  | Some (VBool b) => Ok b
  | _ => Panic "interface conversion: interface {} is not bool"
  end.

Definition asInt (v : option AttrValue) : R Z :=
  match v with
  | Some (VInt z) => Ok z
  | _ => Panic "interface conversion: interface {} is not int"
  end.

(** ** Change specifications *)

Inductive VirtualDeviceConfigSpecOperation :=
| VirtualDeviceConfigSpecOperationAdd
| VirtualDeviceConfigSpecOperationRemove
| VirtualDeviceConfigSpecOperationEdit.

(** types.VirtualDeviceConfigSpec *)
Record VirtualDeviceConfigSpec := {
  Operation : VirtualDeviceConfigSpecOperation;
  FileOperation : string;
  Device : BaseVirtualDevice;
}.

(** ** Code that mutates the heap and may fail half-way *)

(** A computation on the heap: the heap it leaves and its outcome.  A heap
    write made before an error or a panic stays made. *)
Definition St (A : Type) : Type := Heap → Heap * R A.

#[global] Instance St_ret : MRet St := λ A a h, (h, Ok a).

#[global] Instance St_bind : MBind St := λ A B k m h,
  match m h with
  | (h', Ok a) => k a h'
  | (h', Err e) => (h', Err e)
  | (h', Panic msg) => (h', Panic msg)
  end.

(** A step that does not touch the heap. *)
Definition pure {A} (m : R A) : St A := λ h, (h, m).

(** A step that reads the heap. *)
Definition reading {A} (f : Heap → R A) : St A := λ h, (h, f h).

Definition loadSt (p : loc) : St VirtualEthernetCard := reading (λ h, load h p).

Definition storeSt (p : loc) (f : VirtualEthernetCard → VirtualEthernetCard) : St unit :=
  λ h, match load h p with
       | Ok o => (<[p := f o]> h, Ok tt)
       | Err e => (h, Err e)
       | Panic msg => (h, Panic msg)
       end.

(** A new struct, at an address no struct occupies yet. *)
Definition allocSt (o : VirtualEthernetCard) : St loc :=
  λ h, let p := fresh (dom h) in (<[p := o]> h, Ok p).

(** The structs that satisfy [types.BaseVirtualEthernetCard]: the type
    assertion [newDevice.(types.BaseVirtualEthernetCard)] panics on any other. *)
Definition implementsBaseVirtualEthernetCard (t : DeviceType) : bool :=
  match t with
  | VirtualVmxnet | VirtualEthernetCardBase => true
  | t => supportedEthernetCard t
  end.

Section Collaborators.

(** [Subresource.FindVirtualDevice] is defined next to [Subresource], in the
    file that is not embedded here; the three others are methods of govmomi's
    [object.VirtualDeviceList].  They are parameters of [Read] and [Update].
    [CreateEthernetCard] hands back a struct that did not exist before: its
    type and its initial fields, which [Update] places at a fresh address. *)
Variable FindVirtualDevice :
  Subresource → Heap → VirtualDeviceList → R BaseVirtualDevice.
Variable CreateEthernetCard :
  VirtualDeviceList → string → option BaseVirtualDeviceBackingInfo →
  R (DeviceType * VirtualEthernetCard).
Variable NewKey : Heap → VirtualDeviceList → Z.
Variable ConfigSpec :
  VirtualDeviceList → VirtualDeviceConfigSpecOperation → R (list VirtualDeviceConfigSpec).

(** ** Read *)

(** The switch of [Read] on the card's backing. *)
Definition readNetworkID (c : Client) (backing : option BaseVirtualDeviceBackingInfo)
    : R string :=
  match backing with
  | Some (VirtualEthernetCardNetworkBackingInfo network) =>
      match network with
      | None => Err NoNetworkInformation
      | Some n => Ok (Value n)
      end
  | Some (VirtualEthernetCardOpaqueNetworkBackingInfo id) =>
      onet ← external (OpaqueNetworkFromNetworkID c id); Ok (Value onet)
  | Some (VirtualEthernetCardDistributedVirtualPortBackingInfo switchUuid portgroupKey) =>
      pg ← external (DVPortgroupFromKey c switchUuid portgroupKey); Ok (Value pg)
  | Some (OtherBackingInfo gotype) => Err (UnknownBacking gotype)
  | None => Err (UnknownBacking "<nil>")
  end.

(** The switch of [Read] on the card's type. *)
Definition readAdapterType (t : DeviceType) : string :=
  match t with
  | VirtualVmxnet3 => networkInterfaceSubresourceTypeVmxnet3
  | VirtualE1000 => networkInterfaceSubresourceTypeE1000
  | _ => networkInterfaceSubresourceTypeUnknown
  end.

(** [Read] writes into the sub-resource as it goes: the result is the
    sub-resource it leaves behind, also when it stops with an error. *)
Definition Read (r : Subresource) (h : Heap) (l : VirtualDeviceList)
    : Subresource * R unit :=
  match FindVirtualDevice r h l with
  | Err e => (r, Err (CannotFindNetworkDevice e))
  | Panic msg => (r, Panic msg)
  | Ok vd =>
  match baseVirtualDeviceToBaseVirtualEthernetCard vd with
  | Err e => (r, Err e)
  | Panic msg => (r, Panic msg)
  | Ok device =>
  let r := Set' "adapter_type" (VString (readAdapterType (dyntype device))) r in
  match load h (ptr device) with
  | Err e => (r, Err e)
  | Panic msg => (r, Panic msg)
  | Ok card =>
  match readNetworkID (client r) (Backing (base card)) with
  | Err e => (r, Err e)
  | Panic msg => (r, Panic msg)
  | Ok netID =>
  let r := Set' "network_id" (VString netID) r in
  let r :=
    if String.eqb (AddressType card) VirtualEthernetCardMacTypeManual
    then Set' "use_static_mac" (VBool true) r
    else Set' "use_static_mac" (VBool false) r in
  let r := Set' "mac_address" (VString (MacAddress card)) r in
  let r :=
    match ResourceAllocation card with
    | Some a =>
        let r := Set' "bandwidth_limit" (VInt64Ptr (Limit a)) r in
        let r := Set' "bandwidth_reservation" (VInt64Ptr (Reservation a)) r in
        let r := Set' "bandwidth_share_count" (VInt (Shares (Share a))) r in
        Set' "bandwidth_share_level" (VString (Level (Share a))) r
    | None => r
    end in
  (Set' "key" (VInt (Key (base card))) r, Ok tt)
  end end end end.

(** ** Update *)

(** The body of [if r.HasChange("device_type")]: fabricate the new card,
    copy controller key and unit number, give it a new key, push the removal
    of the old device.  The result is the device [Update] goes on with and
    the change specifications so far. *)
Definition replaceDevice (r : Subresource) (l : VirtualDeviceList)
    (device : BaseVirtualEthernetCard) (spec : list VirtualDeviceConfigSpec)
    : St (BaseVirtualEthernetCard * list VirtualDeviceConfigSpec) :=
  let card := ptr device in
  name ← pure (asString (Get r "adapter_type"));
  o ← loadSt card;
  '(t, created) ← pure (CreateEthernetCard l name (Backing (base o)));
  p ← allocSt created;
  let newDevice := {| dyntype := t; ptr := p |} in
  newCard ← pure (if implementsBaseVirtualEthernetCard t then Ok p
                   else Panic "interface conversion: not a BaseVirtualEthernetCard");
  o ← loadSt card;
  _ ← storeSt newCard (set_ControllerKey (ControllerKey (base o)));
  o ← loadSt card;
  _ ← match UnitNumber (base o) with
      | Some un => storeSt newCard (set_UnitNumber (Some un))
      | None => mret tt
      end;
  key ← reading (λ h, Ok (NewKey h l));
  _ ← storeSt newCard (set_Key key);
  bvd ← pure (baseVirtualEthernetCardToBaseVirtualDevice device);
  dspec ← pure (ConfigSpec [bvd] VirtualDeviceConfigSpecOperationRemove);
  let spec := (spec ++ dspec)%list in
  device ← pure (baseVirtualDeviceToBaseVirtualEthernetCard newDevice);
  mret (device, spec).

(** The rest of [Update], from [card := device.GetVirtualEthernetCard()]
    on: the MAC address settings, the resource allocation, and the final
    change specification.  [int64(x)] of an [int] keeps the value, [int32(x)]
    wraps it. *)
Definition applyChanges (r : Subresource) (device : BaseVirtualEthernetCard)
    (spec : list VirtualDeviceConfigSpec) : St (list VirtualDeviceConfigSpec) :=
  let card := ptr device in
  _ ← (if HasChange r "use_static_mac" then
         static ← pure (asBool (Get r "use_static_mac"));
         if static : bool then
           _ ← storeSt card (set_AddressType VirtualEthernetCardMacTypeManual);
           mac ← pure (asString (Get r "mac_address"));
           storeSt card (set_MacAddress mac)
         else
           _ ← (if negb (String.eqb (ApiType (client r)) "VirtualCenter")
                then storeSt card (set_AddressType VirtualEthernetCardMacTypeGenerated)
                else storeSt card (set_AddressType VirtualEthernetCardMacTypeAssigned));
           storeSt card (set_MacAddress "")
       else mret tt);
  limit ← pure (asInt (Get r "bandwidth_limit"));
  reservation ← pure (asInt (Get r "bandwidth_reservation"));
  count ← pure (asInt (Get r "bandwidth_share_count"));
  level ← pure (asString (Get r "bandwidth_share_level"));
  let alloc :=
    {| Limit := Some limit;
       Reservation := Some reservation;
       Share := {| Shares := wrap32 count; Level := level |} |} in
  _ ← storeSt card (set_ResourceAllocation (Some alloc));
  o ← loadSt card;
  let op :=
    if Key (base o) <? 0 then VirtualDeviceConfigSpecOperationAdd
    else VirtualDeviceConfigSpecOperationEdit in
  bvd ← pure (baseVirtualEthernetCardToBaseVirtualDevice device);
  uspec ← pure (ConfigSpec [bvd] op);
  mret (spec ++ uspec)%list.

Definition Update (r : Subresource) (l : VirtualDeviceList)
    : St (list VirtualDeviceConfigSpec) :=
  vd ← reading (λ h,
          match FindVirtualDevice r h l with
          | Err e => Err (CannotFindNetworkDevice e)
          | found => found
          end);
  device ← pure (baseVirtualDeviceToBaseVirtualEthernetCard vd);
  let spec : list VirtualDeviceConfigSpec := [] in
  '(device, spec) ←
    (if HasChange r "device_type" then replaceDevice r l device spec
     else mret (device, spec));
  applyChanges r device spec.

End Collaborators.

Section CreateDelete.

(** The collaborators of [Create] and [Delete].  The first four are those
    of [Update].  [ControllerForCreateUpdate] and [SaveID] are methods of
    [Subresource], defined in the file that is not embedded here: the first
    may put a new controller on the heap, and returns the controller to use
    with the change specifications that create it; the second records the
    device's identity in the sub-resource.  [SubresourceControllerTypePCI] is
    a constant of that file.  [EthernetCardBackingInfo] is what the remote
    end answers to [network.FromID] followed by [net.EthernetCardBackingInfo].
    [Connect] is govmomi's; it writes the device's [Connectable] field, which
    the structs of this model do not carry, and its result is ignored by the
    caller. *)
Variable FindVirtualDevice :
  Subresource → Heap → VirtualDeviceList → R BaseVirtualDevice.
Variable CreateEthernetCard :
  VirtualDeviceList → string → option BaseVirtualDeviceBackingInfo →
  R (DeviceType * VirtualEthernetCard).
Variable NewKey : Heap → VirtualDeviceList → Z.
Variable ConfigSpec :
  VirtualDeviceList → VirtualDeviceConfigSpecOperation → R (list VirtualDeviceConfigSpec).
Variable SubresourceControllerTypePCI : string.
Variable ControllerForCreateUpdate :
  Subresource → VirtualDeviceList → string →
  St (BaseVirtualController * list VirtualDeviceConfigSpec).
Variable EthernetCardBackingInfo :
  Client → string → Result string BaseVirtualDeviceBackingInfo.
Variable Connect : VirtualDeviceList → BaseVirtualDevice → Heap → Heap.
Variable SaveID :
  Subresource → Heap → BaseVirtualDevice → BaseVirtualController → Subresource.

(** ** Create *)

(** [assignEthernetCard] as a step: its writes on success, nothing on an
    error. *)
Definition assignSt (l : VirtualDeviceList) (device : BaseVirtualDevice)
    (c : BaseVirtualController) : St unit :=
  λ h, match assignEthernetCard h l device c with
       | Ok h' => (h', Ok tt)
       | Err e => (h, Err e)
       | Panic msg => (h, Panic msg)
       end.

(** [Create] up to and including [card.ResourceAllocation = alloc]: the
    device it built, the controller, and the change specifications so far. *)
Definition createDevice (r : Subresource) (l : VirtualDeviceList)
    : St (BaseVirtualDevice * BaseVirtualController * list VirtualDeviceConfigSpec) :=
  let spec : list VirtualDeviceConfigSpec := [] in
  '(ctlr, cspec) ← ControllerForCreateUpdate r l SubresourceControllerTypePCI;
  let '(l, spec) :=
    match cspec with
    | first :: _ => ((l ++ [Device first])%list, (spec ++ cspec)%list)
    | [] => (l, spec)
    end in
  netID ← pure (asString (Get r "network_id"));
  backing ← pure (external (EthernetCardBackingInfo (client r) netID));
  name ← pure (asString (Get r "adapter_type"));
  '(t, created) ← pure (CreateEthernetCard l name (Some backing));
  p ← allocSt created;
  let device := {| dyntype := t; ptr := p |} in
  _ ← assignSt l device ctlr;
  _ ← (λ h, (Connect l device h, Ok tt));
  card ← pure (if implementsBaseVirtualEthernetCard t then Ok p
                else Panic "interface conversion: not a BaseVirtualEthernetCard");
  key ← reading (λ h, Ok (NewKey h l));
  _ ← storeSt card (set_Key key);
  static ← pure (asBool (Get r "use_static_mac"));
  _ ← (if static : bool then
         _ ← storeSt card (set_AddressType VirtualEthernetCardMacTypeManual);
         mac ← pure (asString (Get r "mac_address"));
         storeSt card (set_MacAddress mac)
       else mret tt);
  limit ← pure (asInt (Get r "bandwidth_limit"));
  reservation ← pure (asInt (Get r "bandwidth_reservation"));
  count ← pure (asInt (Get r "bandwidth_share_count"));
  level ← pure (asString (Get r "bandwidth_share_level"));
  let alloc :=
    {| Limit := Some limit;
       Reservation := Some reservation;
       Share := {| Shares := wrap32 count; Level := level |} |} in
  _ ← storeSt card (set_ResourceAllocation (Some alloc));
  mret (device, ctlr, spec).

(** The heap and the sub-resource [Create] leaves, and what it returns.
    [SaveID] is its only write to the sub-resource. *)
Definition Create (r : Subresource) (l : VirtualDeviceList) (h : Heap)
    : Heap * Subresource * R (list VirtualDeviceConfigSpec) :=
  match createDevice r l h with
  | (h, Ok (device, ctlr, spec)) =>
      let r := SaveID r h device ctlr in
      match ConfigSpec [device] VirtualDeviceConfigSpecOperationAdd with
      | Ok dspec => (h, r, Ok (spec ++ dspec)%list)
      | Err e => (h, r, Err e)
      | Panic msg => (h, r, Panic msg)
      end
  | (h, Err e) => (h, r, Err e)
  | (h, Panic msg) => (h, r, Panic msg)
  end.

(** ** Delete *)

Definition Delete (r : Subresource) (l : VirtualDeviceList)
    : St (list VirtualDeviceConfigSpec) :=
  vd ← reading (λ h,
          match FindVirtualDevice r h l with
          | Err e => Err (CannotFindNetworkDevice e)
          | found => found
          end);
  device ← pure (baseVirtualDeviceToBaseVirtualEthernetCard vd);
  bvd ← pure (baseVirtualEthernetCardToBaseVirtualDevice device);
  pure (ConfigSpec [bvd] VirtualDeviceConfigSpecOperationRemove).

End CreateDelete.

End virtualdevice.

(** * Package vmworkflow *)

Module vmworkflow.

Export virtualdevice (ManagedObjectReference, Type_, Value).

(** ** The govmomi types the file works on *)

(** types.VirtualMachineSnapshotTree: the snapshot's reference and its
    children. *)
#[local] Unset Elimination Schemes.
Inductive VirtualMachineSnapshotTree :=
| SnapshotTree (Snapshot : ManagedObjectReference)
               (ChildSnapshotList : list VirtualMachineSnapshotTree).

#[local] Set Elimination Schemes.

Definition Snapshot (t : VirtualMachineSnapshotTree) : ManagedObjectReference :=
  match t with SnapshotTree s _ => s end.

Definition ChildSnapshotList (t : VirtualMachineSnapshotTree)
    : list VirtualMachineSnapshotTree :=
  match t with SnapshotTree _ c => c end.

(** types.VirtualMachineSnapshotInfo; [CurrentSnapshot] is a pointer. *)
Record VirtualMachineSnapshotInfo := {
  CurrentSnapshot : option ManagedObjectReference;
  RootSnapshotList : list VirtualMachineSnapshotTree;
}.

(** types.VirtualMachineConfigInfo: [Uuid] and [Hardware.Device]. *)
Record VirtualMachineConfigInfo := {
  Uuid : string;
  Hardware_Device : list virtualdevice.BaseVirtualDevice;
}.

Definition VirtualMachinePowerStatePoweredOff : string := "poweredOff".

(** mo.VirtualMachine: [Config] and [Snapshot] are pointers, [PowerState] is
    [Runtime.PowerState]. *)
Record VirtualMachine := {
  vm_Config : option VirtualMachineConfigInfo;
  vm_PowerState : string;
  vm_Snapshot : option VirtualMachineSnapshotInfo;
}.

(** types.VirtualMachineRelocateSpecDiskLocator *)
Record VirtualMachineRelocateSpecDiskLocator := {
  DiskId : Z;
  disk_Datastore : ManagedObjectReference;
}.

(** types.VirtualMachineRelocateSpec: the fields the file sets. *)
Record VirtualMachineRelocateSpec := {
  Datastore : option ManagedObjectReference;
  DiskMoveType : string;
  Disk : list VirtualMachineRelocateSpecDiskLocator;
}.

(** types.VirtualMachineCloneSpec: the fields the file sets. *)
Record VirtualMachineCloneSpec := {
  Location : VirtualMachineRelocateSpec;
  spec_Snapshot : option ManagedObjectReference;
}.

Definition VirtualMachineRelocateDiskMoveOptionsCreateNewChildDiskBacking : string :=
  "createNewChildDiskBacking".

(** ** Errors *)

(** One constructor per error the file builds, with the values its message
    formats; [External] is the error of a collaborator handed up unchanged. *)
Inductive error :=
| External (msg : string)
| CannotLocateVirtualMachine (uuid cause : string)
    (* "cannot locate virtual machine or template with UUID %q: %s" *)
| ErrorFetchingProperties (cause : string)
    (* "error fetching virtual machine or template properties: %s" *)
| MustBePoweredOff (uuid : string)
    (* "virtual machine %s must be powered off to be used as a source for cloning" *)
| MustHaveSnapshot (uuid : string)
    (* "virtual machine or template %s must have a snapshot to be used as a linked clone" *)
| MustHaveOneRootSnapshot (uuid : string) (has : nat)
    (* "virtual machine or template %s must have exactly one root snapshot (has: %d)" *)
| RootSnapshotHasChildren (uuid : string)
    (* "virtual machine or template %s's root snapshot must not have children" *)
| CurrentSnapshotMismatch (uuid : string)
    (* "virtual machine or template %s's current snapshot must match root snapshot" *)
| ErrorLocatingDatastore (cause : string).
    (* "error locating datastore for VM: %s" *)

Abbreviation R := (Result error).

(** ** The collaborators *)

(** What the remote end answers: [virtualmachine.FromUUID] yields a handle,
    [virtualmachine.Properties] the property set of a handle, and
    [datastore.FromID] followed by [Reference()] a datastore reference; a
    failed call answers with the message of its error. *)
Record Client := {
  FromUUID : string → Result string ManagedObjectReference;
  Properties : ManagedObjectReference → Result string VirtualMachine;
  DatastoreFromID : string → Result string ManagedObjectReference;
}.

(** The attributes the file reads with [d.Get], at the types their schema
    gives them. *)
Record ResourceData := {
  datastore_id : string;
  template_uuid : string;    (* clone.0.template_uuid *)
  linked_clone : bool;       (* clone.0.linked_clone *)
}.

(** ** Logging *)

(** A computation that writes lines to the log: the lines written, in
    order, and the outcome. *)
Definition Logged (A : Type) : Type := list string * R A.

#[global] Instance Logged_ret : MRet Logged := λ A a, ([], Ok a).

#[global] Instance Logged_bind : MBind Logged := λ A B k m,
  match m with
  | (lines, Ok a) => let '(lines', b) := k a in ((lines ++ lines')%list, b)
  | (lines, Err e) => (lines, Err e)
  | (lines, Panic msg) => (lines, Panic msg)
  end.

(** [log.Printf] *)
Definition Printf (line : string) : Logged unit := ([line], Ok tt).

Definition quiet {A} (m : R A) : Logged A := ([], m).

(** ** validateCloneSnapshots *)

(** [props.Config.Uuid] *)
Definition configUuid (props : VirtualMachine) : R string :=
  match vm_Config props with
  | Some config => Ok (Uuid config)
  | None => Panic "invalid memory address or nil pointer dereference"
  end.

Definition validateCloneSnapshots (props : VirtualMachine) : R unit :=
  match vm_Snapshot props with
  | None => uuid ← configUuid props; Err (MustHaveSnapshot uuid)
  | Some snapshot =>
      if negb (length (RootSnapshotList snapshot) =? 1)%nat then
        uuid ← configUuid props;
        Err (MustHaveOneRootSnapshot uuid (length (RootSnapshotList snapshot)))
      else
        match RootSnapshotList snapshot with
        | [] => Panic "index out of range"
        | root :: _ =>
            if (0 <? length (ChildSnapshotList root))%nat then
              uuid ← configUuid props; Err (RootSnapshotHasChildren uuid)
            else
              match CurrentSnapshot snapshot with
              | None => Panic "invalid memory address or nil pointer dereference"
              | Some current =>
                  if negb (String.eqb (Value current) (Value (Snapshot root))) then
                    uuid ← configUuid props; Err (CurrentSnapshotMismatch uuid)
                  else Ok tt
              end
        end
  end.

Section Disks.

(** [virtualdevice.DiskCloneValidateOperation] and
    [virtualdevice.DiskCloneRelocateOperation] belong to the disk
    sub-resource, which is not embedded here: they are parameters. *)
Variable DiskCloneValidateOperation :
  ResourceData → Client → list virtualdevice.BaseVirtualDevice → Result string unit.
Variable DiskCloneRelocateOperation :
  ResourceData → Client → list virtualdevice.BaseVirtualDevice →
  Result string (list VirtualMachineRelocateSpecDiskLocator).

Definition external {A} (m : Result string A) : R A :=
  match m with
  | Ok a => Ok a
  | Err msg => Err (External msg)
  | Panic msg => Panic msg
  end.

(** [vprops.Config.Hardware.Device] *)
Definition hardwareDevices (vprops : VirtualMachine)
    : R (list virtualdevice.BaseVirtualDevice) :=
  match vm_Config vprops with
  | Some config => Ok (Hardware_Device config)
  | None => Panic "invalid memory address or nil pointer dereference"
  end.

(** ** ValidateVirtualMachineClone *)

Definition ValidateVirtualMachineClone (d : ResourceData) (c : Client) : Logged unit :=
  let tUUID := template_uuid d in
  _ ← Printf ("[DEBUG] ValidateVirtualMachineClone: Validating fitness of source VM/template "
              +:+ tUUID);
  vm ← quiet match FromUUID c tUUID with
             | Ok vm => Ok vm
             | Err cause => Err (CannotLocateVirtualMachine tUUID cause)
             | Panic msg => Panic msg
             end;
  vprops ← quiet match Properties c vm with
                 | Ok vprops => Ok vprops
                 | Err cause => Err (ErrorFetchingProperties cause)
                 | Panic msg => Panic msg
                 end;
  if negb (String.eqb (vm_PowerState vprops) VirtualMachinePowerStatePoweredOff)
  then quiet (Err (MustBePoweredOff tUUID)) else
  _ ← (if linked_clone d then
         _ ← Printf ("[DEBUG] ValidateVirtualMachineClone: Checking snapshots on "
                     +:+ tUUID +:+ " for linked clone eligibility");
         quiet (validateCloneSnapshots vprops)
       else mret tt);
  l ← quiet (hardwareDevices vprops);
  _ ← quiet (external (DiskCloneValidateOperation d c l));
  Printf ("[DEBUG] ValidateVirtualMachineClone: Source VM/template " +:+ tUUID
          +:+ " is a suitable source for cloning").

(** ** ExpandVirtualMachineCloneSpec *)

(** The zero value of the clone spec ([var spec]). *)
Definition emptyCloneSpec : VirtualMachineCloneSpec :=
  {| Location := {| Datastore := None; DiskMoveType := ""; Disk := [] |};
     spec_Snapshot := None |}.

Definition set_Datastore (ref : option ManagedObjectReference)
    (spec : VirtualMachineCloneSpec) : VirtualMachineCloneSpec :=
  {| Location := {| Datastore := ref;
                    DiskMoveType := DiskMoveType (Location spec);
                    Disk := Disk (Location spec) |};
     spec_Snapshot := spec_Snapshot spec |}.

Definition set_DiskMoveType (mode : string)
    (spec : VirtualMachineCloneSpec) : VirtualMachineCloneSpec :=
  {| Location := {| Datastore := Datastore (Location spec);
                    DiskMoveType := mode;
                    Disk := Disk (Location spec) |};
     spec_Snapshot := spec_Snapshot spec |}.

Definition set_Disk (disks : list VirtualMachineRelocateSpecDiskLocator)
    (spec : VirtualMachineCloneSpec) : VirtualMachineCloneSpec :=
  {| Location := {| Datastore := Datastore (Location spec);
                    DiskMoveType := DiskMoveType (Location spec);
                    Disk := disks |};
     spec_Snapshot := spec_Snapshot spec |}.

Definition set_Snapshot (ref : option ManagedObjectReference)
    (spec : VirtualMachineCloneSpec) : VirtualMachineCloneSpec :=
  {| Location := Location spec; spec_Snapshot := ref |}.

(** [vprops.Snapshot.CurrentSnapshot], and the [.Value] the last log line
    of the linked-clone branch formats. *)
Definition currentSnapshot (vprops : VirtualMachine) : R (option ManagedObjectReference) :=
  match vm_Snapshot vprops with
  | Some snapshot => Ok (CurrentSnapshot snapshot)
  | None => Panic "invalid memory address or nil pointer dereference"
  end.

Definition referenceValue (ref : option ManagedObjectReference) : R string :=
  match ref with
  | Some ref => Ok (Value ref)
  | None => Panic "invalid memory address or nil pointer dereference"
  end.

(** On an error Go returns the partly filled spec next to it; the callers
    discard it, and so does [Err]. *)
Definition ExpandVirtualMachineCloneSpec (d : ResourceData) (c : Client)
    : Logged VirtualMachineCloneSpec :=
  let spec := emptyCloneSpec in
  _ ← Printf "[DEBUG] ExpandVirtualMachineCloneSpec: Preparing clone spec for VM";
  dsRef ← quiet match DatastoreFromID c (datastore_id d) with
                | Ok ds => Ok ds
                | Err cause => Err (ErrorLocatingDatastore cause)
                | Panic msg => Panic msg
                end;
  let spec := set_Datastore (Some dsRef) spec in
  let tUUID := template_uuid d in
  _ ← Printf ("[DEBUG] ExpandVirtualMachineCloneSpec: Cloning from UUID: " +:+ tUUID);
  vm ← quiet match FromUUID c tUUID with
             | Ok vm => Ok vm
             | Err cause => Err (CannotLocateVirtualMachine tUUID cause)
             | Panic msg => Panic msg
             end;
  vprops ← quiet match Properties c vm with
                 | Ok vprops => Ok vprops
                 | Err cause => Err (ErrorFetchingProperties cause)
                 | Panic msg => Panic msg
                 end;
  spec ← (if linked_clone d then
            _ ← Printf "[DEBUG] ExpandVirtualMachineCloneSpec: Clone type is a linked clone";
            _ ← Printf ("[DEBUG] ExpandVirtualMachineCloneSpec: Fetching snapshot for VM/template UUID "
                        +:+ tUUID);
            _ ← quiet (validateCloneSnapshots vprops);
            current ← quiet (currentSnapshot vprops);
            let spec := set_Snapshot current spec in
            let spec :=
              set_DiskMoveType
                VirtualMachineRelocateDiskMoveOptionsCreateNewChildDiskBacking spec in
            value ← quiet (referenceValue current);
            _ ← Printf ("[DEBUG] ExpandVirtualMachineCloneSpec: Snapshot for clone: " +:+ value);
            mret spec
          else mret spec);
  l ← quiet (hardwareDevices vprops);
  relocators ← quiet (external (DiskCloneRelocateOperation d c l));
  let spec := set_Disk relocators spec in
  _ ← Printf "[DEBUG] ExpandVirtualMachineCloneSpec: Clone spec prep complete";
  mret spec.

End Disks.

End vmworkflow.

(** * Properties *)

(** ** Outcomes and machine integers *)

Lemma bind_Ok {E A B} (m : Result E A) (k : A → Result E B) b :
  m ≫= k = Ok b → ∃ a, m = Ok a ∧ k a = Ok b.
Proof. destruct m; simpl; intros; [eauto | done | done]. Qed.

Lemma wrap32_id z : in_int32 z → wrap32 z = z.
Proof.
  unfold in_int32, wrap32. intros Hz.
  rewrite Z.mod_small; lia.
Qed.

(** ** Package virtualdevice *)

Module virtualdevice_props.
Import virtualdevice.

(** *** assignEthernetCard *)

(** A device of [l] sits on unit [u] of the controller with key [ckey]. *)
Definition occupies (h : Heap) (ckey u : Z) (dev : BaseVirtualDevice) : bool :=
  match h !! ptr dev with
  | Some o =>
      (ControllerKey (base o) =? ckey) && bool_decide (UnitNumber (base o) = Some u)
  | None => false
  end.

Definition occupied (h : Heap) (l : VirtualDeviceList) (ckey u : Z) : bool :=
  existsb (occupies h ckey u) l.

(** What [assignEthernetCard] leaves in the struct of the device it attaches:
    controller key and unit number are set, a zero key becomes -1, every
    other field is as before. *)
Definition assigned (ckey u : Z) (o : VirtualEthernetCard) : VirtualEthernetCard :=
  {| base := {| Key := if Key (base o) =? 0 then -1 else Key (base o);
                  Backing := Backing (base o);
                  ControllerKey := ckey;
                  UnitNumber := Some u |};
     AddressType := AddressType o;
     MacAddress := MacAddress o;
     ResourceAllocation := ResourceAllocation o |}.

(** Every pointer of the list refers to an allocated struct. *)
Definition allocated (h : Heap) (l : VirtualDeviceList) : Prop :=
  Forall (λ d, is_Some (h !! ptr d)) l.

(** *** The two loops *)

Lemma load_Some (h : Heap) p o : h !! p = Some o → load h p = Ok o.
Proof. unfold load. by intros ->. Qed.

Lemma load_Ok (h : Heap) p o : load h p = Ok o → h !! p = Some o.
Proof. unfold load. destruct (h !! p); congruence. Qed.

Lemma GetVirtualDevice_Some (h : Heap) d o :
  h !! ptr d = Some o → GetVirtualDevice h d = Ok (base o).
Proof. intros H. unfold GetVirtualDevice. by rewrite (load_Some _ _ _ H). Qed.

Lemma GetVirtualDevice_Ok (h : Heap) d v :
  GetVirtualDevice h d = Ok v → ∃ o, h !! ptr d = Some o ∧ v = base o.
Proof.
  unfold GetVirtualDevice, load. destruct (h !! ptr d) as [o|]; simpl; [|done].
  intros [= <-]. eauto.
Qed.

Lemma wrap32_bus_end : wrap32 (pciDeviceOffset + 10) = 17.
Proof. reflexivity. Qed.

Lemma occupied_cons (h : Heap) dev l ckey u :
  occupied h (dev :: l) ckey u = occupies h ckey u dev || occupied h l ckey u.
Proof. reflexivity. Qed.

Lemma occupies_Some (h : Heap) ckey u dev o :
  h !! ptr dev = Some o →
  occupies h ckey u dev
  = (ControllerKey (base o) =? ckey) && bool_decide (UnitNumber (base o) = Some u).
Proof. unfold occupies. by intros ->. Qed.

Lemma markUnits_spec (h : Heap) ckey l :
  allocated h l →
  ∀ units : list bool, length units = 10%nat →
  ∃ units' : list bool,
    markUnits h ckey l units = Ok units' ∧ length units' = 10%nat ∧
    ∀ i : nat, (i < 10)%nat →
      units' !! i = Some true ↔
      units !! i = Some true ∨ occupied h l ckey (pciDeviceOffset + Z.of_nat i) = true.
Proof.
  induction 1 as [|dev l [o Ho] _ IH]; intros units Hlen.
  - exists units. simpl. split; [done|]. split; [done|]. intros i _.
    split; [by left | by intros [?|?]].
  - cbn [markUnits]. rewrite (GetVirtualDevice_Some _ _ _ Ho). cbn [mbind Result_bind].
    assert (Hskip : (∀ i : nat, (i < 10)%nat →
                      occupies h ckey (pciDeviceOffset + Z.of_nat i) dev = false) →
      ∃ units' : list bool,
        markUnits h ckey l units = Ok units' ∧ length units' = 10%nat ∧
        ∀ i : nat, (i < 10)%nat →
          units' !! i = Some true ↔
          units !! i = Some true
          ∨ occupied h (dev :: l) ckey (pciDeviceOffset + Z.of_nat i) = true).
    { intros Hno. destruct (IH units Hlen) as (units' & E & L & P).
      exists units'. split; [done|]. split; [done|]. intros i Hi.
      rewrite (P i Hi), occupied_cons, (Hno i Hi). done. }
    destruct (ControllerKey (base o) =? ckey) eqn:Eck; cbn [negb].
    2:{ apply Hskip. intros i _. rewrite (occupies_Some _ _ _ _ _ Ho), Eck. done. }
    destruct (UnitNumber (base o)) as [u|] eqn:Eu.
    2:{ apply Hskip. intros i _. rewrite (occupies_Some _ _ _ _ _ Ho), Eck, Eu.
        rewrite bool_decide_eq_false_2; done. }
    rewrite wrap32_bus_end. unfold pciDeviceOffset in *.
    destruct ((u <? 7) || (17 <=? u)) eqn:Erange.
    { (* the unit is outside the window: the device is skipped, and it
         occupies none of the ten units *)
      apply Hskip. intros i Hi. rewrite (occupies_Some _ _ _ _ _ Ho), Eck, Eu.
      rewrite bool_decide_eq_false_2; [done|].
      intros [= ->]. apply orb_true_iff in Erange. lia. }
    apply orb_false_iff in Erange as [E1 E2].
    apply Z.ltb_ge in E1. apply Z.leb_gt in E2.
    rewrite (wrap32_id (u - 7)) by (unfold in_int32; lia).
    unfold setUnit. rewrite Hlen.
    replace ((0 <=? u - 7) && (u - 7 <? Z.of_nat 10)) with true
      by (symmetry; apply andb_true_iff; split; [apply Z.leb_le | apply Z.ltb_lt]; lia).
    cbn [mbind Result_bind].
    destruct (IH (<[Z.to_nat (u - 7) := true]> units)) as (units' & E & L & P).
    { by rewrite length_insert. }
    exists units'. split; [done|]. split; [done|]. intros i Hi.
    rewrite (P i Hi), occupied_cons, (occupies_Some _ _ _ _ _ Ho), Eck, Eu.
    cbn [andb].
    destruct (decide (i = Z.to_nat (u - 7))) as [->|Hne].
    + rewrite list_lookup_insert_eq by lia.
      rewrite bool_decide_eq_true_2 by (f_equal; lia).
      cbn [orb]. split; [by right | by left].
    + rewrite list_lookup_insert_ne by done.
      rewrite bool_decide_eq_false_2 by (intros [= ->]; lia). done.
Qed.

Lemma pickUnit_spec (units : list bool) :
  ∀ unit newUnit, 0 ≤ unit → unit + Z.of_nat (length units) ≤ 2 ^ 30 →
  (Forall (λ b, b = true) units ∧ pickUnit units unit newUnit = newUnit)
  ∨ ∃ i : nat,
      units !! i = Some false ∧ (∀ j : nat, (j < i)%nat → units !! j = Some true) ∧
      pickUnit units unit newUnit = unit + Z.of_nat i + pciDeviceOffset.
Proof.
  induction units as [|used rest IH]; intros unit newUnit H0 Hmax.
  - left. by split.
  - cbn [pickUnit]. cbn [length] in Hmax. destruct used; cbn [negb].
    + destruct (IH (unit + 1) newUnit) as [[Hall E]|(i & Hi & Hlt & E)]; [lia|lia| |].
      * left. split; [by constructor|done].
      * right. exists (S i). split; [done|]. split.
        { intros [|j] Hj; [done|]. apply Hlt. lia. }
        rewrite E. lia.
    + right. exists 0%nat. split; [done|]. split; [lia|].
      unfold pciDeviceOffset.
      rewrite (wrap32_id unit) by (unfold in_int32; lia).
      rewrite wrap32_id by (unfold in_int32; lia). lia.
Qed.

(** *** The allocator as a whole *)

Lemma store_Some (h : Heap) p f o :
  h !! p = Some o → store h p f = Ok (<[p := f o]> h).
Proof. intros H. unfold store. by rewrite (load_Some _ _ _ H). Qed.

(** The three writes, collapsed into one update of the device's struct. *)
Lemma assign_writes (h : Heap) d ckey u o :
  h !! d = Some o →
  (h1 ← store h d (set_ControllerKey ckey);
   h2 ← store h1 d (set_UnitNumber (Some u));
   o' ← load h2 d;
   if Key (base o') =? 0 then store h2 d (set_Key (-1)) else Ok h2)
  = Ok (<[d := assigned ckey u o]> h).
Proof.
  intros Ho. rewrite (store_Some _ _ _ _ Ho). cbn [mbind Result_bind].
  rewrite (store_Some _ _ _ (set_ControllerKey ckey o)) by apply lookup_insert_eq.
  cbn [mbind Result_bind]. rewrite insert_insert_eq.
  rewrite (load_Some _ _ (set_UnitNumber (Some u) (set_ControllerKey ckey o)))
    by apply lookup_insert_eq.
  cbn [mbind Result_bind]. cbn [set_UnitNumber set_ControllerKey base Key].
  unfold assigned. destruct (Key (base o) =? 0) eqn:E.
  - erewrite store_Some by apply lookup_insert_eq. by rewrite insert_insert_eq.
  - done.
Qed.

(** Whatever [assignEthernetCard] returns is determined by the marked units. *)
Lemma assignEthernetCard_unfold (h : Heap) l device c ctl o units :
  h !! ptr c = Some ctl → h !! ptr device = Some o →
  markUnits h (Key (base ctl)) l (replicate 10 false) = Ok units →
  assignEthernetCard h l device c
  = if pickUnit units 0 (-1) <? 0 then Err NoMoreSlots
    else Ok (<[ptr device := assigned (Key (base ctl)) (pickUnit units 0 (-1)) o]> h).
Proof.
  intros Hc Hd Hm. unfold assignEthernetCard.
  rewrite (GetVirtualDevice_Some _ _ _ Hc). cbn [mbind Result_bind].
  rewrite Hm. cbn [mbind Result_bind].
  destruct (pickUnit units 0 (-1) <? 0); [done|].
  by apply assign_writes.
Qed.

(** A nil error means that the controller and the device were both
    dereferenced and the marking loop ran to its end. *)
Lemma assignEthernetCard_Ok_inv (h h' : Heap) l device c :
  assignEthernetCard h l device c = Ok h' →
  ∃ ctl o units,
    h !! ptr c = Some ctl ∧ h !! ptr device = Some o ∧
    markUnits h (Key (base ctl)) l (replicate 10 false) = Ok units ∧
    0 ≤ pickUnit units 0 (-1) ∧
    h' = <[ptr device := assigned (Key (base ctl)) (pickUnit units 0 (-1)) o]> h.
Proof.
  intros H. pose proof H as H0. unfold assignEthernetCard in H.
  apply bind_Ok in H as (v & Hv & H).
  apply GetVirtualDevice_Ok in Hv as (ctl & Hc & ->).
  apply bind_Ok in H as (units & Hm & H).
  destruct (pickUnit units 0 (-1) <? 0) eqn:Hp; [done|].
  rewrite (GetVirtualDevice_Some _ _ _ Hc) in H. cbn [mbind Result_bind] in H.
  apply bind_Ok in H as (h1 & Hs & _).
  unfold store in Hs. apply bind_Ok in Hs as (o & Ho%load_Ok & _).
  exists ctl, o, units. repeat split; try done.
  - by apply Z.ltb_ge.
  - rewrite (assignEthernetCard_unfold _ _ _ _ _ _ _ Hc Ho Hm), Hp in H0. congruence.
Qed.

(** C1. Slot allocation on the PCI bus.  For a device list [l] whose
    pointers are all allocated, a controller [c] and a device to attach:
    [assignEthernetCard] either succeeds or returns the "no more slots"
    error (CapacityExceeded), the latter exactly when each of the ten units
    7..16 is taken by a device of [l] with [c]'s controller key; on success
    the device's controller key is [c]'s key and its unit number is the lowest
    unit of 7..16 that no device of [l] on that controller occupies. *)
Theorem assignEthernetCard_lowest_free (h : Heap) l device c ctl o :
  allocated h l → h !! ptr c = Some ctl → h !! ptr device = Some o →
  let ckey := Key (base ctl) in
  let full := ∀ u, pciDeviceOffset ≤ u < pciDeviceOffset + 10 → occupied h l ckey u = true in
  (assignEthernetCard h l device c = Err NoMoreSlots ↔ full) ∧
  (full ∨
   ∃ h' o' u,
     assignEthernetCard h l device c = Ok h' ∧
     h' !! ptr device = Some o' ∧
     ControllerKey (base o') = ckey ∧ UnitNumber (base o') = Some u ∧
     pciDeviceOffset ≤ u < pciDeviceOffset + 10 ∧
     occupied h l ckey u = false ∧
     ∀ v, pciDeviceOffset ≤ v < u → occupied h l ckey v = true).
Proof.
  intros Hall Hc Hd ckey full.
  destruct (markUnits_spec h ckey l Hall (replicate 10 false))
    as (units & Hm & Hlen & Hmark); [by rewrite length_replicate|].
  rewrite (assignEthernetCard_unfold _ _ _ _ _ _ _ Hc Hd Hm). fold ckey.
  assert (Hinit : ∀ i : nat, replicate 10 false !! i ≠ Some true).
  { intros i Hi. apply lookup_replicate in Hi as [? _]. done. }
  assert (Hocc : ∀ i : nat, (i < 10)%nat →
            units !! i = Some true ↔ occupied h l ckey (pciDeviceOffset + Z.of_nat i) = true).
  { intros i Hi. rewrite (Hmark i Hi). specialize (Hinit i). tauto. }
  destruct (pickUnit_spec units 0 (-1)) as [[Htaken E]|(i & Hi & Hlt & E)];
    [lia | rewrite Hlen; lia | |].
  - (* every unit is marked *)
    assert (Hfull : full).
    { intros u Hu. unfold pciDeviceOffset in Hu.
      replace u with (pciDeviceOffset + Z.of_nat (Z.to_nat (u - 7)))
        by (unfold pciDeviceOffset; lia).
      apply Hocc; [lia|].
      destruct (lookup_lt_is_Some_2 units (Z.to_nat (u - 7))) as [b Hb]; [lia|].
      rewrite Hb. f_equal. eapply Forall_lookup_1 in Htaken; [|exact Hb]. done. }
    rewrite E. cbn. split; [tauto | by left].
  - (* unit [i] is the first that is free *)
    assert (Hi10 : (i < 10)%nat) by (rewrite <- Hlen; eapply lookup_lt_Some; exact Hi).
    assert (Hfree : occupied h l ckey (pciDeviceOffset + Z.of_nat i) = false).
    { apply not_true_is_false. intros Ht. apply (Hocc i Hi10) in Ht. congruence. }
    rewrite E. unfold pciDeviceOffset in *.
    replace (0 + Z.of_nat i + 7 <? 0) with false by (symmetry; apply Z.ltb_ge; lia).
    split.
    + split; [done|]. intros Hfull. rewrite Hfull in Hfree by lia. done.
    + right. eexists _, _, (7 + Z.of_nat i). split; [reflexivity|].
      rewrite lookup_insert_eq. split; [reflexivity|]. cbn.
      split; [done|]. split; [f_equal; lia|]. split; [lia|]. split; [done|].
      intros v Hv. replace v with (7 + Z.of_nat (Z.to_nat (v - 7))) by lia.
      apply Hocc; [lia|]. apply Hlt. lia.
Qed.

(** *** A small inventory to run the code on *)

Definition mkDevice (key ckey : Z) (unit : option Z) : VirtualEthernetCard :=
  {| base := {| Key := key; Backing := None; ControllerKey := ckey;
                  UnitNumber := unit |};
     AddressType := ""; MacAddress := ""; ResourceAllocation := None |}.

(** A PCI controller (key 100) at address 1, an e1000 card on its unit 7 at
    address 2, and a card not yet attached (zero key) at address 3. *)
Definition pci0 : BaseVirtualController :=
  {| dyntype := OtherDevice "*types.VirtualPCIController"; ptr := 1%nat |}.
Definition nic0 : BaseVirtualDevice := {| dyntype := VirtualE1000; ptr := 2%nat |}.
Definition nic1 : BaseVirtualDevice := {| dyntype := VirtualVmxnet3; ptr := 3%nat |}.

Definition heap0 : Heap :=
  <[1%nat := mkDevice 100 0 None]>
  (<[2%nat := mkDevice 4000 100 (Some 7)]>
  (<[3%nat := mkDevice 0 0 None]> ∅)).

Definition list0 : VirtualDeviceList := [pci0; nic0].

Lemma allocated_list0 : allocated heap0 list0.
Proof. repeat constructor; vm_compute; eauto. Qed.

(** C1 at this inventory: unit 7 is taken, so the card at address 3 is given
    unit 8. *)
Lemma assignEthernetCard_lowest_free_witness :
  allocated heap0 list0 ∧
  heap0 !! ptr pci0 = Some (mkDevice 100 0 None) ∧
  heap0 !! ptr nic1 = Some (mkDevice 0 0 None) ∧
  let full :=
    ∀ u, pciDeviceOffset ≤ u < pciDeviceOffset + 10 → occupied heap0 list0 100 u = true in
  (assignEthernetCard heap0 list0 nic1 pci0 = Err NoMoreSlots ↔ full) ∧
  (full ∨
   ∃ h' o' u,
     assignEthernetCard heap0 list0 nic1 pci0 = Ok h' ∧
     h' !! ptr nic1 = Some o' ∧
     ControllerKey (base o') = 100 ∧ UnitNumber (base o') = Some u ∧
     pciDeviceOffset ≤ u < pciDeviceOffset + 10 ∧
     occupied heap0 list0 100 u = false ∧
     ∀ v, pciDeviceOffset ≤ v < u → occupied heap0 list0 100 v = true).
Proof.
  split; [exact allocated_list0|]. split; [reflexivity|]. split; [reflexivity|].
  exact (assignEthernetCard_lowest_free heap0 list0 nic1 pci0
           (mkDevice 100 0 None) (mkDevice 0 0 None)
           allocated_list0 eq_refl eq_refl).
Defined.

Example assignEthernetCard_heap0 :
  assignEthernetCard heap0 list0 nic1 pci0
  = Ok (<[3%nat := mkDevice (-1) 100 (Some 8)]> heap0).
Proof. vm_compute. reflexivity. Qed.

(** With a card on each of the units 7..16 of the controller, the bus is
    full and the allocation fails. *)
Definition fullHeap : Heap :=
  <[1%nat := mkDevice 100 0 None]>
  (<[3%nat := mkDevice 0 0 None]>
  (list_to_map ((λ i : nat, ((10 + i)%nat, mkDevice (4000 + Z.of_nat i) 100
                                              (Some (7 + Z.of_nat i)))) <$> seq 0 10))).

Definition fullList : VirtualDeviceList :=
  pci0 :: ((λ i : nat, {| dyntype := VirtualE1000; ptr := (10 + i)%nat |}) <$> seq 0 10).

Example assignEthernetCard_full_bus :
  assignEthernetCard fullHeap fullList nic1 pci0 = Err NoMoreSlots.
Proof. vm_compute. reflexivity. Qed.

(** C5 as stated fails: the device at address 3 has key 0 before the
    allocation and key -1 after it. *)
Lemma assignEthernetCard_changes_zero_key :
  ∃ h' : Heap,
    assignEthernetCard heap0 list0 nic1 pci0 = Ok h' ∧
    (Key ∘ base) <$> heap0 !! ptr nic1 = Some 0 ∧
    (Key ∘ base) <$> h' !! ptr nic1 = Some (-1).
Proof.
  eexists. split; [apply assignEthernetCard_heap0|]. split; reflexivity.
Qed.

(** C5, amended. A successful allocation writes to the struct of the device
    being attached and to nothing else on the heap; in that struct it sets
    the controller key and the unit number, turns a zero key into -1 and
    leaves a non-zero key, the backing and the card fields as they were. *)
Theorem assignEthernetCard_frame (h h' : Heap) l device c :
  assignEthernetCard h l device c = Ok h' →
  (∀ p, p ≠ ptr device → h' !! p = h !! p) ∧
  ∃ o o',
    h !! ptr device = Some o ∧ h' !! ptr device = Some o' ∧
    Key (base o') = (if Key (base o) =? 0 then -1 else Key (base o)) ∧
    Backing (base o') = Backing (base o) ∧
    AddressType o' = AddressType o ∧
    MacAddress o' = MacAddress o ∧
    ResourceAllocation o' = ResourceAllocation o.
Proof.
  intros (ctl & o & units & _ & Ho & _ & _ & ->)%assignEthernetCard_Ok_inv.
  split.
  - intros p Hp. by rewrite lookup_insert_ne.
  - exists o, (assigned (Key (base ctl)) (pickUnit units 0 (-1)) o).
    rewrite lookup_insert_eq. by repeat split.
Qed.

Lemma assignEthernetCard_frame_witness :
  assignEthernetCard heap0 list0 nic1 pci0
  = Ok (<[3%nat := mkDevice (-1) 100 (Some 8)]> heap0) ∧
  (∀ p, p ≠ ptr nic1 →
     <[3%nat := mkDevice (-1) 100 (Some 8)]> heap0 !! p = heap0 !! p) ∧
  ∃ o o',
    heap0 !! ptr nic1 = Some o ∧
    <[3%nat := mkDevice (-1) 100 (Some 8)]> heap0 !! ptr nic1 = Some o' ∧
    Key (base o') = (if Key (base o) =? 0 then -1 else Key (base o)) ∧
    Backing (base o') = Backing (base o) ∧
    AddressType o' = AddressType o ∧
    MacAddress o' = MacAddress o ∧
    ResourceAllocation o' = ResourceAllocation o.
Proof.
  split; [apply assignEthernetCard_heap0|].
  exact (assignEthernetCard_frame heap0 _ list0 nic1 pci0 assignEthernetCard_heap0).
Defined.

(** ** The two conversions *)

(** C10. For a value of one of the six supported ethernet-card types,
    converting to a [BaseVirtualDevice] does not panic and converting back
    returns the same value; [baseVirtualDeviceToBaseVirtualEthernetCard]
    returns an error exactly on the values of any other type, and the error
    names that type. *)
Theorem ethernetCard_device_roundtrip (v : iface) :
  (supportedEthernetCard (dyntype v) = true →
     baseVirtualEthernetCardToBaseVirtualDevice v = Ok v ∧
     (baseVirtualEthernetCardToBaseVirtualDevice v
        ≫= baseVirtualDeviceToBaseVirtualEthernetCard) = Ok v) ∧
  (supportedEthernetCard (dyntype v) = false →
     baseVirtualDeviceToBaseVirtualEthernetCard v
     = Err (NotNetworkDevice (typeName (dyntype v)))) ∧
  is_Err (baseVirtualDeviceToBaseVirtualEthernetCard v)
  = negb (supportedEthernetCard (dyntype v)).
Proof.
  unfold baseVirtualEthernetCardToBaseVirtualDevice.
  unfold baseVirtualDeviceToBaseVirtualEthernetCard at 2 3.
  destruct v as [t p]. cbn [dyntype].
  destruct t; cbn; (split; [|split]); try done; intros _; split; reflexivity.
Qed.

(** ** Stand-ins for the collaborators, to run [Read] and [Update] *)

(** Modelled from the spec: [Subresource.FindVirtualDevice], whose source is
    not embedded here.  The spec has it locate the device record by the
    persisted key and fail with DeviceNotFound if the key is absent from the
    current list. *)
Fixpoint findByKey (h : Heap) (key : Z) (l : VirtualDeviceList) : R BaseVirtualDevice :=
  match l with
  | [] => Err (External "DeviceNotFound")
  | device :: rest =>
      d ← GetVirtualDevice h device;
      if Key d =? key then Ok device else findByKey h key rest
  end.

Definition FindVirtualDeviceByKey (r : Subresource) (h : Heap) (l : VirtualDeviceList)
    : R BaseVirtualDevice :=
  key ← asInt (Get r "key"); findByKey h key l.

(** govmomi's [CreateEthernetCard], [NewKey] and [ConfigSpec] as that library
    documents them, for the concrete runs below; the general theorems are
    proved for any implementation and do not depend on them. *)
Definition newEthernetCard (backing : option BaseVirtualDeviceBackingInfo)
    : VirtualEthernetCard :=
  {| base := {| Key := -1; Backing := backing; ControllerKey := 0; UnitNumber := None |};
     AddressType := ""; MacAddress := ""; ResourceAllocation := None |}.

Definition govmomiCreateEthernetCard (l : VirtualDeviceList) (name : string)
    (backing : option BaseVirtualDeviceBackingInfo) : R (DeviceType * VirtualEthernetCard) :=
  let name := if String.eqb name "" then "e1000" else name in
  if String.eqb name "e1000" then Ok (VirtualE1000, newEthernetCard backing)
  else if String.eqb name "e1000e" then Ok (VirtualE1000e, newEthernetCard backing)
  else if String.eqb name "vmxnet2" then Ok (VirtualVmxnet2, newEthernetCard backing)
  else if String.eqb name "vmxnet3" then Ok (VirtualVmxnet3, newEthernetCard backing)
  else if String.eqb name "pcnet32" then Ok (VirtualPCNet32, newEthernetCard backing)
  else if String.eqb name "sriov"
       then Ok (VirtualSriovEthernetCard, newEthernetCard backing)
  else Err (External ("unknown ethernet card type '" +:+ name +:+ "'")).

Definition govmomiNewKey (h : Heap) (l : VirtualDeviceList) : Z :=
  wrap32 (foldl (λ key device,
                   match h !! ptr device with
                   | Some o => if Key (base o) <? key then Key (base o) else key
                   | None => key
                   end) (-200) l - 1).

Definition govmomiConfigSpec (l : VirtualDeviceList)
    (op : VirtualDeviceConfigSpecOperation) : R (list VirtualDeviceConfigSpec) :=
  Ok ((λ device, {| Operation := op; FileOperation := ""; Device := device |}) <$> l).

(** *** Read *)

Lemma toEthernetCard_supported (v : iface) :
  supportedEthernetCard (dyntype v) = true →
  baseVirtualDeviceToBaseVirtualEthernetCard v = Ok v.
Proof.
  unfold baseVirtualDeviceToBaseVirtualEthernetCard. by destruct (dyntype v).
Qed.

Lemma toDevice_supported (v : iface) :
  supportedEthernetCard (dyntype v) = true →
  baseVirtualEthernetCardToBaseVirtualDevice v = Ok v.
Proof.
  unfold baseVirtualEthernetCardToBaseVirtualDevice. by destruct (dyntype v).
Qed.

Lemma Set'_lookup (k k' : string) v r :
  data_new (Set' k v r) !! k' = if decide (k = k') then Some v else data_new r !! k'.
Proof. unfold Set'. cbn [data_new]. apply lookup_insert. Qed.

Ltac lookup_attribute :=
  repeat (rewrite Set'_lookup; cbn [decide]);
  repeat match goal with
  | |- context [decide (?a = ?b)] =>
      let d := eval vm_compute in (bool_decide (a = b)) in
      lazymatch d with
      | true => rewrite (decide_True (P := a = b)) by reflexivity
      | false => rewrite (decide_False (P := a = b)) by discriminate
      end
  end.

Section ReadProps.

Variable FindVirtualDevice :
  Subresource → Heap → VirtualDeviceList → R BaseVirtualDevice.

(** Once the device is found and is a supported card, what [Read] returns is
    decided by the card's struct and its backing alone, and the attribute
    writes are those of the source, in its order. *)
Lemma Read_found (r : Subresource) (h : Heap) l vd :
  FindVirtualDevice r h l = Ok vd →
  supportedEthernetCard (dyntype vd) = true →
  (Read FindVirtualDevice r h l).2
  = (card ← load h (ptr vd);
     _ ← readNetworkID (client r) (Backing (base card));
     Ok tt).
Proof.
  intros Hfind Hsup. unfold Read.
  rewrite Hfind, (toEthernetCard_supported _ Hsup).
  destruct (load h (ptr vd)) as [card| |]; cbn; [|done|done].
  destruct (readNetworkID (client r) (Backing (base card))); done.
Qed.

(** C9. When the sub-resource's device is one of the six supported ethernet
    cards, [Read] records "vmxnet3" for a VirtualVmxnet3, "e1000" for a
    VirtualE1000 and "unknown" for the four others as adapter_type, whatever
    happens afterwards; and whether it then succeeds depends only on the
    card's struct and backing, not on the card's type. *)
Theorem Read_adapter_type (r : Subresource) (h : Heap) l vd :
  FindVirtualDevice r h l = Ok vd →
  supportedEthernetCard (dyntype vd) = true →
  let out := Read FindVirtualDevice r h l in
  data_new out.1 !! "adapter_type"
  = Some (VString match dyntype vd with
                  | VirtualVmxnet3 => "vmxnet3"
                  | VirtualE1000 => "e1000"
                  | _ => "unknown"
                  end) ∧
  out.2 = (card ← load h (ptr vd);
           _ ← readNetworkID (client r) (Backing (base card));
           Ok tt) ∧
  ∀ gotype, out.2 ≠ Err (NotNetworkDevice gotype).
Proof.
  intros Hfind Hsup out. split; [|split].
  - subst out. unfold Read.
    rewrite Hfind, (toEthernetCard_supported _ Hsup).
    assert (Hname : readAdapterType (dyntype vd)
                    = match dyntype vd with
                      | VirtualVmxnet3 => "vmxnet3"
                      | VirtualE1000 => "e1000"
                      | _ => "unknown"
                      end) by (by destruct (dyntype vd)).
    rewrite Hname.
    destruct (load h (ptr vd)) as [card| |]; cbn [fst];
      [|by lookup_attribute|by lookup_attribute].
    destruct (readNetworkID _ _) as [netID| |]; cbn [fst];
      [|by lookup_attribute|by lookup_attribute].
    destruct (ResourceAllocation card), (String.eqb _ _); by lookup_attribute.
  - by apply Read_found.
  - intros gotype. subst out. rewrite (Read_found _ _ _ _ Hfind Hsup).
    unfold load. destruct (h !! ptr vd) as [card|]; cbn; [|done].
    unfold readNetworkID.
    destruct (Backing (base card)) as [[[n|]|id|su pk|t]|]; cbn; try done.
    + by destruct (OpaqueNetworkFromNetworkID _ _).
    + by destruct (DVPortgroupFromKey _ _ _).
Qed.

(** C6. When the sub-resource's device is found and is a supported card,
    [Read] dispatches on the kind of the card's backing: for a standard
    network backing it stores the network reference's value as network_id,
    for an opaque (NSX) network backing and for a distributed virtual port
    backing it stores the value of the reference the look-up resolves to (a
    failed look-up is handed up), and for any other backing, a nil one
    included, it returns the "unknown network interface backing" error
    (UnsupportedBacking) naming the backing's type.  A standard network
    backing without a network reference has nothing to resolve and is an
    error of its own. *)
Theorem Read_backing_dispatch (r : Subresource) (h : Heap) l vd card :
  FindVirtualDevice r h l = Ok vd →
  supportedEthernetCard (dyntype vd) = true →
  h !! ptr vd = Some card →
  let out := Read FindVirtualDevice r h l in
  let stored (netID : string) :=
    out.2 = Ok tt ∧ data_new out.1 !! "network_id" = Some (VString netID) in
  let resolved (answer : Result string ManagedObjectReference) :=
    match answer with
    | Ok ref => stored (Value ref)
    | Err msg => out.2 = Err (External msg)
    | Panic msg => out.2 = Panic msg
    end in
  match Backing (base card) with
  | Some (VirtualEthernetCardNetworkBackingInfo (Some network)) =>
      stored (Value network)
  | Some (VirtualEthernetCardNetworkBackingInfo None) =>
      out.2 = Err NoNetworkInformation
  | Some (VirtualEthernetCardOpaqueNetworkBackingInfo id) =>
      resolved (OpaqueNetworkFromNetworkID (client r) id)
  | Some (VirtualEthernetCardDistributedVirtualPortBackingInfo switchUuid portgroupKey) =>
      resolved (DVPortgroupFromKey (client r) switchUuid portgroupKey)
  | Some (OtherBackingInfo gotype) => out.2 = Err (UnknownBacking gotype)
  | None => out.2 = Err (UnknownBacking "<nil>")
  end.
Proof.
  intros Hfind Hsup Hcard out stored resolved.
  assert (Hstored : ∀ netID,
            readNetworkID (client r) (Backing (base card)) = Ok netID → stored netID).
  { intros netID Hnet. subst stored out. cbv beta. unfold Read.
    rewrite Hfind, (toEthernetCard_supported _ Hsup), (load_Some _ _ _ Hcard).
    cbn [client Set']. rewrite Hnet. cbn [fst snd]. split; [done|].
    destruct (ResourceAllocation card), (String.eqb _ _); by lookup_attribute. }
  assert (Hout : out.2 = (_ ← readNetworkID (client r) (Backing (base card)); Ok tt)).
  { subst out. rewrite (Read_found _ _ _ _ Hfind Hsup), (load_Some _ _ _ Hcard). done. }
  destruct (Backing (base card)) as [[[n|]|id|su pk|t]|] eqn:Hb; cbn in Hout; try done.
  - by apply Hstored.
  - subst resolved. cbv beta.
    destruct (OpaqueNetworkFromNetworkID (client r) id) as [ref| |] eqn:Ho;
      cbn in Hout; try done.
    apply Hstored. cbn. by rewrite Ho.
  - subst resolved. cbv beta.
    destruct (DVPortgroupFromKey (client r) su pk) as [ref| |] eqn:Hd;
      cbn in Hout; try done.
    apply Hstored. cbn. by rewrite Hd.
Qed.

End ReadProps.

(** *** [Read] on a small inventory *)

Definition client0 : Client :=
  {| ApiType := "VirtualCenter";
     OpaqueNetworkFromNetworkID := λ id,
       if String.eqb id "nsx-web" then Ok {| Type_ := "OpaqueNetwork"; Value := "network-o51" |}
       else Err ("could not find opaque network with ID " +:+ id);
     DVPortgroupFromKey := λ switchUuid portgroupKey,
       if String.eqb portgroupKey "dvportgroup-20"
       then Ok {| Type_ := "DistributedVirtualPortgroup"; Value := "dvportgroup-20" |}
       else Err ("could not find portgroup " +:+ portgroupKey) |}.

Definition standardBacking : option BaseVirtualDeviceBackingInfo :=
  Some (VirtualEthernetCardNetworkBackingInfo
          (Some {| Type_ := "Network"; Value := "network-7" |})).

(** The inventory of [heap0] with the card at address 2 connected to the
    standard network "network-7". *)
Definition heap1 : Heap :=
  <[2%nat := set_Backing standardBacking (mkDevice 4000 100 (Some 7))]> heap0.

Definition attributes0 : gmap string AttrValue :=
  list_to_map [("key", VInt 4000); ("adapter_type", VString "e1000");
               ("network_id", VString "network-7")].

(** The sub-resource of the card with key 4000, nothing changed. *)
Definition nicResource0 : Subresource :=
  NewNetworkInterfaceSubresource client0 0 attributes0 attributes0.

Example find_nic0 : FindVirtualDeviceByKey nicResource0 heap1 list0 = Ok nic0.
Proof. vm_compute. reflexivity. Qed.

Lemma Read_adapter_type_witness :
  let out := Read FindVirtualDeviceByKey nicResource0 heap1 list0 in
  data_new out.1 !! "adapter_type" = Some (VString "e1000") ∧
  out.2 = (card ← load heap1 (ptr nic0);
           _ ← readNetworkID (client nicResource0) (Backing (base card));
           Ok tt) ∧
  ∀ gotype, out.2 ≠ Err (NotNetworkDevice gotype).
Proof.
  exact (Read_adapter_type FindVirtualDeviceByKey nicResource0 heap1 list0 nic0
           find_nic0 eq_refl).
Defined.

Lemma Read_backing_dispatch_witness :
  let out := Read FindVirtualDeviceByKey nicResource0 heap1 list0 in
  out.2 = Ok tt ∧ data_new out.1 !! "network_id" = Some (VString "network-7").
Proof.
  exact (Read_backing_dispatch FindVirtualDeviceByKey nicResource0 heap1 list0 nic0
           (set_Backing standardBacking (mkDevice 4000 100 (Some 7)))
           find_nic0 eq_refl eq_refl).
Defined.

(** The inventory of [heap0] with the card at address 2 on a standard
    network backing that carries no network reference. *)
Definition heap2 : Heap :=
  <[2%nat := set_Backing (Some (VirtualEthernetCardNetworkBackingInfo None))
               (mkDevice 4000 100 (Some 7))]> heap0.

(** The sub-resource of the card with key 4000, of which only the key is
    known. *)
Definition nicResource2 : Subresource :=
  NewNetworkInterfaceSubresource client0 0 {["key" := VInt 4000]} {["key" := VInt 4000]}.

(** The scenario that C6 leaves out, on the code: the device is in the list,
    its backing is of the standard network kind, and [Read] neither stores a
    network identifier nor returns the unknown-backing error. *)
Lemma Read_standard_backing_without_network :
  let out := Read FindVirtualDeviceByKey nicResource2 heap2 list0 in
  FindVirtualDeviceByKey nicResource2 heap2 list0 = Ok nic0 ∧
  (Backing ∘ base) <$> heap2 !! ptr nic0
  = Some (Some (VirtualEthernetCardNetworkBackingInfo None)) ∧
  out.2 = Err NoNetworkInformation ∧
  data_new out.1 !! "network_id" = None.
Proof. vm_compute. repeat split. Qed.

(** ** Update *)

(** *** Steps of a heap computation *)

Lemma bind_pure_Ok {A B} (a : A) (k : A → St B) (h : Heap) :
  (pure (Ok a) ≫= k) h = k a h.
Proof. reflexivity. Qed.

Lemma bind_mret {A B} (a : A) (k : A → St B) (h : Heap) :
  (mret a ≫= k) h = k a h.
Proof. reflexivity. Qed.

Lemma bind_reading_Ok {A B} (f : Heap → R A) (k : A → St B) (h : Heap) a :
  f h = Ok a → (reading f ≫= k) h = k a h.
Proof. intros H. unfold mbind, St_bind, reading. by rewrite H. Qed.

Lemma bind_loadSt {B} p (k : VirtualEthernetCard → St B) (h : Heap) o :
  h !! p = Some o → (loadSt p ≫= k) h = k o h.
Proof. intros H. apply bind_reading_Ok. by apply load_Some. Qed.

Lemma bind_storeSt {B} p f (k : unit → St B) (h : Heap) o :
  h !! p = Some o → (storeSt p f ≫= k) h = k tt (<[p := f o]> h).
Proof. intros H. unfold mbind, St_bind, storeSt. by rewrite (load_Some _ _ _ H). Qed.

Lemma storeSt_Some p f (h : Heap) o :
  h !! p = Some o → storeSt p f h = (<[p := f o]> h, Ok tt).
Proof. intros H. unfold storeSt. by rewrite (load_Some _ _ _ H). Qed.

Lemma bind_allocSt {B} o (k : loc → St B) (h : Heap) :
  (allocSt o ≫= k) h = k (fresh (dom h)) (<[fresh (dom h) := o]> h).
Proof. reflexivity. Qed.

Lemma fresh_not_allocated (h : Heap) : h !! fresh (dom h) = None.
Proof. apply not_elem_of_dom. apply is_fresh. Qed.

(** *** What the declared attributes are, when they have the schema's types *)

Record Declared := {
  use_static_mac : bool;
  mac_address : string;
  bandwidth_limit : Z;
  bandwidth_reservation : Z;
  bandwidth_share_count : Z;
  bandwidth_share_level : string;
}.

Definition declares (r : Subresource) (a : Declared) : Prop :=
  Get r "use_static_mac" = Some (VBool (use_static_mac a)) ∧
  Get r "mac_address" = Some (VString (mac_address a)) ∧
  Get r "bandwidth_limit" = Some (VInt (bandwidth_limit a)) ∧
  Get r "bandwidth_reservation" = Some (VInt (bandwidth_reservation a)) ∧
  Get r "bandwidth_share_count" = Some (VInt (bandwidth_share_count a)) ∧
  Get r "bandwidth_share_level" = Some (VString (bandwidth_share_level a)).

(** The card after the attribute writes of [Update]. *)
Definition withMacAddress (r : Subresource) (a : Declared)
    (o : VirtualEthernetCard) : VirtualEthernetCard :=
  if HasChange r "use_static_mac" then
    if use_static_mac a
    then set_MacAddress (mac_address a) (set_AddressType VirtualEthernetCardMacTypeManual o)
    else set_MacAddress ""
           (set_AddressType
              (if negb (String.eqb (ApiType (client r)) "VirtualCenter")
               then VirtualEthernetCardMacTypeGenerated
               else VirtualEthernetCardMacTypeAssigned) o)
  else o.

Definition withAttributes (r : Subresource) (a : Declared)
    (o : VirtualEthernetCard) : VirtualEthernetCard :=
  set_ResourceAllocation
    (Some {| Limit := Some (bandwidth_limit a);
             Reservation := Some (bandwidth_reservation a);
             Share := {| Shares := wrap32 (bandwidth_share_count a);
                         Level := bandwidth_share_level a |} |})
    (withMacAddress r a o).

Lemma withAttributes_base r a o : base (withAttributes r a o) = base o.
Proof.
  unfold withAttributes, withMacAddress.
  destruct (HasChange r "use_static_mac"), (use_static_mac a); reflexivity.
Qed.

Definition finalOperation (o : VirtualEthernetCard) : VirtualDeviceConfigSpecOperation :=
  if Key (base o) <? 0 then VirtualDeviceConfigSpecOperationAdd
  else VirtualDeviceConfigSpecOperationEdit.

Definition changeSpec (op : VirtualDeviceConfigSpecOperation) (device : BaseVirtualDevice)
    : VirtualDeviceConfigSpec :=
  {| Operation := op; FileOperation := ""; Device := device |}.

Section UpdateProps.

Variable FindVirtualDevice :
  Subresource → Heap → VirtualDeviceList → R BaseVirtualDevice.
Variable CreateEthernetCard :
  VirtualDeviceList → string → option BaseVirtualDeviceBackingInfo →
  R (DeviceType * VirtualEthernetCard).
Variable NewKey : Heap → VirtualDeviceList → Z.
Variable ConfigSpec :
  VirtualDeviceList → VirtualDeviceConfigSpecOperation → R (list VirtualDeviceConfigSpec).

(** What the proofs need of govmomi's [ConfigSpec]: for a list of one
    ethernet card it returns one change specification, carrying the card and
    the operation asked for. *)
Hypothesis ConfigSpec_single : ∀ device op,
  ConfigSpec [device] op = Ok [changeSpec op device].

Lemma applyChanges_spec (r : Subresource) a device spec (h : Heap) o :
  declares r a →
  supportedEthernetCard (dyntype device) = true →
  h !! ptr device = Some o →
  applyChanges ConfigSpec r device spec h
  = (<[ptr device := withAttributes r a o]> h,
     Ok (spec ++ [changeSpec (finalOperation o) device])%list).
Proof.
  intros (Hstatic & Hmac & Hlimit & Hres & Hcount & Hlevel) Hsup Ho.
  unfold applyChanges.
  assert (Hmacs :
    (if HasChange r "use_static_mac" then
       static ← pure (asBool (Get r "use_static_mac"));
       if static : bool then
         _ ← storeSt (ptr device) (set_AddressType VirtualEthernetCardMacTypeManual);
         mac ← pure (asString (Get r "mac_address"));
         storeSt (ptr device) (set_MacAddress mac)
       else
         _ ← (if negb (String.eqb (ApiType (client r)) "VirtualCenter")
              then storeSt (ptr device) (set_AddressType VirtualEthernetCardMacTypeGenerated)
              else storeSt (ptr device) (set_AddressType VirtualEthernetCardMacTypeAssigned));
         storeSt (ptr device) (set_MacAddress "")
     else mret tt) h
    = (<[ptr device := withMacAddress r a o]> h, Ok tt)).
  { unfold withMacAddress. destruct (HasChange r "use_static_mac").
    2:{ rewrite insert_id by done. reflexivity. }
    rewrite Hstatic. cbn [asBool]. rewrite bind_pure_Ok.
    destruct (use_static_mac a).
    - rewrite (bind_storeSt _ _ _ _ _ Ho), Hmac. cbn [asString].
      rewrite bind_pure_Ok.
      erewrite storeSt_Some by apply lookup_insert_eq.
      by rewrite insert_insert_eq.
    - destruct (negb _);
        rewrite (bind_storeSt _ _ _ _ _ Ho);
        (erewrite storeSt_Some by apply lookup_insert_eq);
        by rewrite insert_insert_eq. }
  unfold mbind at 1. unfold St_bind at 1. rewrite Hmacs.
  rewrite Hlimit, Hres, Hcount, Hlevel. cbn [asInt asString].
  rewrite !bind_pure_Ok.
  erewrite bind_storeSt by apply lookup_insert_eq.
  rewrite insert_insert_eq.
  erewrite bind_loadSt by apply lookup_insert_eq.
  rewrite (toDevice_supported _ Hsup), bind_pure_Ok.
  rewrite ConfigSpec_single, bind_pure_Ok.
  fold (withAttributes r a o). unfold finalOperation.
  rewrite withAttributes_base. reflexivity.
Qed.

(** The new card once controller key and unit number are copied over from
    the old one [o]: a unit number is copied only when the old card has one. *)
Definition copiedSlot (o created : VirtualEthernetCard) : VirtualEthernetCard :=
  let c := set_ControllerKey (ControllerKey (base o)) created in
  match UnitNumber (base o) with
  | Some un => set_UnitNumber (Some un) c
  | None => c
  end.

Lemma replaceDevice_spec (r : Subresource) l device spec (h : Heap) o name t created :
  supportedEthernetCard (dyntype device) = true →
  h !! ptr device = Some o →
  Get r "adapter_type" = Some (VString name) →
  CreateEthernetCard l name (Backing (base o)) = Ok (t, created) →
  supportedEthernetCard t = true →
  let p := fresh (dom h) in
  let key := NewKey (<[p := copiedSlot o created]> h) l in
  replaceDevice CreateEthernetCard NewKey ConfigSpec r l device spec h
  = (<[p := set_Key key (copiedSlot o created)]> h,
     Ok ({| dyntype := t; ptr := p |},
         (spec ++ [changeSpec VirtualDeviceConfigSpecOperationRemove device])%list)).
Proof.
  intros Hsup Ho Hname Hcreate Ht p key.
  assert (Hp : p ≠ ptr device).
  { intros E. pose proof (fresh_not_allocated h) as Hf. fold p in Hf. congruence. }
  unfold replaceDevice. rewrite Hname. cbn [asString]. rewrite bind_pure_Ok.
  rewrite (bind_loadSt _ _ _ _ Ho), Hcreate, bind_pure_Ok.
  rewrite bind_allocSt. fold p.
  replace (implementsBaseVirtualEthernetCard t) with true
    by (by destruct t).
  rewrite bind_pure_Ok.
  erewrite bind_loadSt by (rewrite lookup_insert_ne; [exact Ho|done]).
  erewrite bind_storeSt by apply lookup_insert_eq.
  rewrite insert_insert_eq.
  erewrite bind_loadSt by (rewrite lookup_insert_ne; [exact Ho|done]).
  assert (Hunit :
    match UnitNumber (base o) with
    | Some un => storeSt p (set_UnitNumber (Some un))
    | None => mret tt
    end (<[p := set_ControllerKey (ControllerKey (base o)) created]> h)
    = (<[p := copiedSlot o created]> h, Ok tt)).
  { unfold copiedSlot. destruct (UnitNumber (base o)); [|reflexivity].
    erewrite storeSt_Some by apply lookup_insert_eq. by rewrite insert_insert_eq. }
  unfold mbind at 1. unfold St_bind at 1. rewrite Hunit.
  erewrite bind_reading_Ok by reflexivity. fold key.
  erewrite bind_storeSt by apply lookup_insert_eq.
  rewrite insert_insert_eq.
  rewrite (toDevice_supported _ Hsup), bind_pure_Ok.
  rewrite ConfigSpec_single, bind_pure_Ok.
  rewrite (toEthernetCard_supported {| dyntype := t; ptr := p |} Ht), bind_pure_Ok.
  reflexivity.
Qed.

Lemma Update_find (r : Subresource) l (h : Heap) vd B
    (k : BaseVirtualEthernetCard → St B) :
  FindVirtualDevice r h l = Ok vd →
  supportedEthernetCard (dyntype vd) = true →
  (vd ← reading (λ h,
           match FindVirtualDevice r h l with
           | Err e => Err (CannotFindNetworkDevice e)
           | found => found
           end);
   device ← pure (baseVirtualDeviceToBaseVirtualEthernetCard vd);
   k device) h = k vd h.
Proof.
  intros Hfind Hsup.
  erewrite bind_reading_Ok by (by rewrite Hfind).
  by rewrite (toEthernetCard_supported _ Hsup), bind_pure_Ok.
Qed.

(** Without a change of device_type, [Update] edits the card where it is. *)
Lemma Update_in_place (r : Subresource) a l (h : Heap) vd o :
  FindVirtualDevice r h l = Ok vd →
  supportedEthernetCard (dyntype vd) = true →
  h !! ptr vd = Some o →
  declares r a →
  HasChange r "device_type" = false →
  Update FindVirtualDevice CreateEthernetCard NewKey ConfigSpec r l h
  = (<[ptr vd := withAttributes r a o]> h, Ok [changeSpec (finalOperation o) vd]).
Proof.
  intros Hfind Hsup Ho Hdecl Hchange. unfold Update.
  rewrite (Update_find _ _ _ _ _ _ Hfind Hsup), Hchange, bind_mret.
  by rewrite (applyChanges_spec _ _ _ _ _ _ Hdecl Hsup Ho).
Qed.

(** With a change of device_type, [Update] removes the card and adds the one
    it fabricated, which lives at a fresh address. *)
Lemma Update_replaced (r : Subresource) a l (h : Heap) vd o name t created :
  FindVirtualDevice r h l = Ok vd →
  supportedEthernetCard (dyntype vd) = true →
  h !! ptr vd = Some o →
  declares r a →
  HasChange r "device_type" = true →
  Get r "adapter_type" = Some (VString name) →
  CreateEthernetCard l name (Backing (base o)) = Ok (t, created) →
  supportedEthernetCard t = true →
  let p := fresh (dom h) in
  let replacement :=
    set_Key (NewKey (<[p := copiedSlot o created]> h) l) (copiedSlot o created) in
  Update FindVirtualDevice CreateEthernetCard NewKey ConfigSpec r l h
  = (<[p := withAttributes r a replacement]> h,
     Ok [changeSpec VirtualDeviceConfigSpecOperationRemove vd;
         changeSpec (finalOperation replacement) {| dyntype := t; ptr := p |}]).
Proof.
  intros Hfind Hsup Ho Hdecl Hchange Hname Hcreate Ht p replacement. unfold Update.
  rewrite (Update_find _ _ _ _ _ _ Hfind Hsup), Hchange.
  unfold mbind at 1. unfold St_bind at 1.
  rewrite (replaceDevice_spec _ _ _ _ _ _ _ _ _ Hsup Ho Hname Hcreate Ht).
  fold p. fold replacement.
  erewrite applyChanges_spec; [|exact Hdecl|exact Ht|apply lookup_insert_eq].
  by rewrite insert_insert_eq.
Qed.

(** C7. The operation of the final change specification follows the sign of
    the card's key at update time.  When the device is not replaced, the one
    specification [Update] emits is an "add" if the key of the found device
    is negative and an "edit" otherwise.  When it is replaced, the new card's
    key is the one [NewKey] hands out, so with a negative [NewKey] the final
    specification is an "add". *)
Theorem Update_operation (r : Subresource) a l (h : Heap) vd o :
  FindVirtualDevice r h l = Ok vd →
  supportedEthernetCard (dyntype vd) = true →
  h !! ptr vd = Some o →
  declares r a →
  let out := Update FindVirtualDevice CreateEthernetCard NewKey ConfigSpec r l h in
  (HasChange r "device_type" = false →
     (Key (base o) < 0 →
        out.2 = Ok [changeSpec VirtualDeviceConfigSpecOperationAdd vd]) ∧
     (0 ≤ Key (base o) →
        out.2 = Ok [changeSpec VirtualDeviceConfigSpecOperationEdit vd])) ∧
  (HasChange r "device_type" = true →
     ∀ name t created,
       Get r "adapter_type" = Some (VString name) →
       CreateEthernetCard l name (Backing (base o)) = Ok (t, created) →
       supportedEthernetCard t = true →
       (∀ h' l', NewKey h' l' < 0) →
       ∃ newDevice o',
         out.2 = Ok [changeSpec VirtualDeviceConfigSpecOperationRemove vd;
                     changeSpec VirtualDeviceConfigSpecOperationAdd newDevice] ∧
         out.1 !! ptr newDevice = Some o' ∧ Key (base o') < 0).
Proof.
  intros Hfind Hsup Ho Hdecl out. split.
  - intros Hchange. subst out.
    rewrite (Update_in_place _ _ _ _ _ _ Hfind Hsup Ho Hdecl Hchange).
    cbn [snd]. unfold finalOperation. split; intros Hkey.
    + by rewrite (proj2 (Z.ltb_lt _ _) Hkey).
    + by rewrite (proj2 (Z.ltb_ge _ _) Hkey).
  - intros Hchange name t created Hname Hcreate Ht Hneg. subst out.
    rewrite (Update_replaced _ _ _ _ _ _ _ _ _
               Hfind Hsup Ho Hdecl Hchange Hname Hcreate Ht).
    cbn [fst snd]. exists {| dyntype := t; ptr := fresh (dom h) |}. eexists.
    cbn [ptr]. rewrite lookup_insert_eq.
    split; [|split; [reflexivity|]].
    + unfold finalOperation. cbn [set_Key base Key].
      by rewrite (proj2 (Z.ltb_lt _ _) (Hneg _ _)).
    + rewrite withAttributes_base. cbn [set_Key base Key]. apply Hneg.
Qed.

(** The replacement branch of [Update], which no network interface
    sub-resource reaches (see [HasChange_device_type] below): were it entered,
    the old device would be removed and a card at a newly allocated address
    would sit where the old one sat, with the old card's controller key, and
    the old card's unit number when the old card has one; the old card's
    struct would be left as it was. *)
Lemma Update_replaced_keeps_slot (r : Subresource) a l (h : Heap) vd o name t created :
  FindVirtualDevice r h l = Ok vd →
  supportedEthernetCard (dyntype vd) = true →
  h !! ptr vd = Some o →
  declares r a →
  HasChange r "device_type" = true →
  Get r "adapter_type" = Some (VString name) →
  CreateEthernetCard l name (Backing (base o)) = Ok (t, created) →
  supportedEthernetCard t = true →
  let out := Update FindVirtualDevice CreateEthernetCard NewKey ConfigSpec r l h in
  ∃ op newDevice o',
    out.2 = Ok [changeSpec VirtualDeviceConfigSpecOperationRemove vd;
                changeSpec op newDevice] ∧
    h !! ptr newDevice = None ∧
    out.1 !! ptr newDevice = Some o' ∧
    out.1 !! ptr vd = Some o ∧
    ControllerKey (base o') = ControllerKey (base o) ∧
    (∀ un, UnitNumber (base o) = Some un → UnitNumber (base o') = Some un).
Proof.
  intros Hfind Hsup Ho Hdecl Hchange Hname Hcreate Ht out. subst out.
  rewrite (Update_replaced _ _ _ _ _ _ _ _ _
             Hfind Hsup Ho Hdecl Hchange Hname Hcreate Ht).
  cbn [fst snd]. eexists _, {| dyntype := t; ptr := fresh (dom h) |}, _.
  cbn [ptr]. rewrite lookup_insert_eq.
  split; [reflexivity|]. split; [apply fresh_not_allocated|].
  split; [reflexivity|]. split.
  - rewrite lookup_insert_ne; [done|].
    intros E. pose proof (fresh_not_allocated h) as Hf. congruence.
  - rewrite withAttributes_base. unfold copiedSlot.
    destruct (UnitNumber (base o)) as [un|]; cbn; split; done.
Qed.

End UpdateProps.

(** *** [Update] on a small inventory *)

Lemma govmomiConfigSpec_single device op :
  govmomiConfigSpec [device] op = Ok [changeSpec op device].
Proof. reflexivity. Qed.

Definition declared0 : Declared :=
  {| use_static_mac := false; mac_address := "";
     bandwidth_limit := -1; bandwidth_reservation := 0;
     bandwidth_share_count := 0; bandwidth_share_level := "normal" |}.

Lemma declares_nicResource0 : declares nicResource0 declared0.
Proof. repeat split. Qed.

(** C7 at the unchanged sub-resource of the card with key 4000: one "edit". *)
Lemma Update_operation_witness :
  (Update FindVirtualDeviceByKey govmomiCreateEthernetCard govmomiNewKey
     govmomiConfigSpec nicResource0 list0 heap1).2
  = Ok [changeSpec VirtualDeviceConfigSpecOperationEdit nic0].
Proof.
  exact (proj2
           (proj1
              (Update_operation FindVirtualDeviceByKey govmomiCreateEthernetCard
                 govmomiNewKey govmomiConfigSpec govmomiConfigSpec_single
                 nicResource0 declared0 list0 heap1 nic0
                 (set_Backing standardBacking (mkDevice 4000 100 (Some 7)))
                 find_nic0 eq_refl eq_refl declares_nicResource0)
              eq_refl)
           ltac:(cbn; lia)).
Defined.

(** A card that is still pending creation (key -201) is added, not edited. *)
Example Update_pending_card :
  let pending := set_Backing standardBacking (mkDevice (-201) 100 (Some 7)) in
  let r := NewNetworkInterfaceSubresource client0 0
             (<["key" := VInt (-201)]> attributes0) (<["key" := VInt (-201)]> attributes0) in
  (Update FindVirtualDeviceByKey govmomiCreateEthernetCard govmomiNewKey
     govmomiConfigSpec r list0 (<[2%nat := pending]> heap0)).2
  = Ok [changeSpec VirtualDeviceConfigSpecOperationAdd nic0].
Proof. vm_compute. reflexivity. Qed.

(** *** The attribute [Update] tests *)

Lemma device_type_not_in_schema : networkInterfaceSubresourceSchema !! "device_type" = None.
Proof. reflexivity. Qed.

(** The schema of a network interface has no attribute "device_type", so
    for a network interface sub-resource that name never has a change. *)
Lemma HasChange_device_type (c : Client) i old new :
  HasChange (NewNetworkInterfaceSubresource c i old new) "device_type" = false.
Proof.
  unfold HasChange, GetOld, Get, attribute. cbn [schema NewNetworkInterfaceSubresource].
  rewrite device_type_not_in_schema. reflexivity.
Qed.

(** Hence [Update] of a network interface never takes the replacement
    branch: whatever changed, adapter_type included, it emits a single change
    specification for the existing card. *)
Lemma Update_network_interface_in_place
    (Find : Subresource → Heap → VirtualDeviceList → R BaseVirtualDevice)
    Create NewKey (c : Client) i old new a l (h : Heap) vd o :
  let r := NewNetworkInterfaceSubresource c i old new in
  Find r h l = Ok vd →
  supportedEthernetCard (dyntype vd) = true →
  h !! ptr vd = Some o →
  declares r a →
  Update Find Create NewKey govmomiConfigSpec r l h
  = (<[ptr vd := withAttributes r a o]> h, Ok [changeSpec (finalOperation o) vd]).
Proof.
  intros r Hfind Hsup Ho Hdecl.
  apply Update_in_place;
    [apply govmomiConfigSpec_single | done | done | done | done
    | apply HasChange_device_type].
Qed.

(** The sub-resource of the card with key 4000 after the declared
    adapter_type went from "e1000" to "vmxnet3". *)
Definition nicResource1 : Subresource :=
  NewNetworkInterfaceSubresource client0 0
    attributes0 (<["adapter_type" := VString "vmxnet3"]> attributes0).

(** C2 at that sub-resource: the adapter type has changed, the card sits on
    unit 7 of controller 100, and [Update] emits one "edit" of the old card:
    no "remove", no "add", no new card. *)
Theorem Update_adapter_type_change_edits_in_place :
  HasChange nicResource1 "adapter_type" = true ∧
  FindVirtualDeviceByKey nicResource1 heap1 list0 = Ok nic0 ∧
  (ControllerKey ∘ base) <$> heap1 !! ptr nic0 = Some 100 ∧
  (UnitNumber ∘ base) <$> heap1 !! ptr nic0 = Some (Some 7) ∧
  (Update FindVirtualDeviceByKey govmomiCreateEthernetCard govmomiNewKey
     govmomiConfigSpec nicResource1 list0 heap1).2
  = Ok [changeSpec VirtualDeviceConfigSpecOperationEdit nic0].
Proof.
  split; [reflexivity|]. split; [vm_compute; reflexivity|].
  split; [reflexivity|]. split; [reflexivity|].
  unfold nicResource1.
  rewrite (Update_network_interface_in_place FindVirtualDeviceByKey
             govmomiCreateEthernetCard govmomiNewKey client0 0 attributes0
             (<["adapter_type" := VString "vmxnet3"]> attributes0) declared0
             list0 heap1 nic0 (set_Backing standardBacking (mkDevice 4000 100 (Some 7))));
    [reflexivity|vm_compute; reflexivity|reflexivity|reflexivity|repeat split].
Qed.

(** *** The replacement branch, on a sub-resource that can reach it *)

(** A sub-resource whose schema does declare device_type, next to the
    attributes of a network interface, and whose device_type and adapter_type
    went from "e1000" to "vmxnet3". *)
Definition replacingResource : Subresource :=
  {| schema :=
       <["device_type" :=
           {| Type' := TypeString; Optional := true; Required := false;
              Computed := false; Default := None |}]> networkInterfaceSubresourceSchema;
     client := client0;
     srtype := subresourceTypeNetworkInterface;
     index := 0;
     data_old := <["device_type" := VString "e1000"]> attributes0;
     data_new :=
       <["device_type" := VString "vmxnet3"]>
         (<["adapter_type" := VString "vmxnet3"]> attributes0) |}.

Example find_replacing : FindVirtualDeviceByKey replacingResource heap1 list0 = Ok nic0.
Proof. vm_compute. reflexivity. Qed.

Lemma Update_replaced_keeps_slot_witness :
  let out := Update FindVirtualDeviceByKey govmomiCreateEthernetCard govmomiNewKey
               govmomiConfigSpec replacingResource list0 heap1 in
  ∃ op newDevice o',
    out.2 = Ok [changeSpec VirtualDeviceConfigSpecOperationRemove nic0;
                changeSpec op newDevice] ∧
    heap1 !! ptr newDevice = None ∧
    out.1 !! ptr newDevice = Some o' ∧
    out.1 !! ptr nic0 = Some (set_Backing standardBacking (mkDevice 4000 100 (Some 7))) ∧
    ControllerKey (base o') = 100 ∧
    (∀ un, Some 7 = Some un → UnitNumber (base o') = Some un).
Proof.
  exact (Update_replaced_keeps_slot FindVirtualDeviceByKey govmomiCreateEthernetCard
           govmomiNewKey govmomiConfigSpec govmomiConfigSpec_single
           replacingResource declared0 list0 heap1 nic0
           (set_Backing standardBacking (mkDevice 4000 100 (Some 7)))
           "vmxnet3" VirtualVmxnet3 (newEthernetCard standardBacking)
           find_replacing eq_refl eq_refl
           ltac:(repeat split) eq_refl eq_refl eq_refl eq_refl).
Defined.

Example Update_replacing :
  (Update FindVirtualDeviceByKey govmomiCreateEthernetCard govmomiNewKey
     govmomiConfigSpec replacingResource list0 heap1).2
  = Ok [changeSpec VirtualDeviceConfigSpecOperationRemove nic0;
        changeSpec VirtualDeviceConfigSpecOperationAdd
          {| dyntype := VirtualVmxnet3; ptr := 4%nat |}].
Proof. vm_compute. reflexivity. Qed.


(** *** assignEthernetCard in closed form *)

(** The first of the [n] units from [u] on that no device of [l] occupies on
    the controller [ckey]. *)
Fixpoint firstFree (h : Heap) (l : VirtualDeviceList) (ckey u : Z) (n : nat) : option Z :=
  match n with
  | O => None
  | S n' => if occupied h l ckey u then firstFree h l ckey (u + 1) n' else Some u
  end.

Definition lowestFree (h : Heap) (l : VirtualDeviceList) (ckey : Z) : option Z :=
  firstFree h l ckey pciDeviceOffset 10.

Lemma firstFree_Some (h : Heap) l ckey n : ∀ u v,
  firstFree h l ckey u n = Some v →
  u ≤ v < u + Z.of_nat n ∧ occupied h l ckey v = false ∧
  ∀ w, u ≤ w < v → occupied h l ckey w = true.
Proof.
  induction n as [|n IH]; intros u v; cbn [firstFree]; [done|].
  destruct (occupied h l ckey u) eqn:Hocc.
  - intros (Hrange & Hfree & Hlow)%IH. split; [lia|]. split; [done|].
    intros w Hw. destruct (decide (w = u)) as [->|]; [done|]. apply Hlow. lia.
  - intros [= <-]. split; [lia|]. split; [done|]. lia.
Qed.

Lemma firstFree_None (h : Heap) l ckey n : ∀ u,
  firstFree h l ckey u n = None →
  ∀ w, u ≤ w < u + Z.of_nat n → occupied h l ckey w = true.
Proof.
  induction n as [|n IH]; intros u; cbn [firstFree]; [lia|].
  destruct (occupied h l ckey u) eqn:Hocc; [|done].
  intros Hnone w Hw. destruct (decide (w = u)) as [->|]; [done|].
  apply (IH _ Hnone). lia.
Qed.

Lemma pickUnit_firstFree (h : Heap) l ckey (units : list bool) : ∀ k : Z,
  0 ≤ k → k + Z.of_nat (length units) ≤ 2 ^ 30 →
  (∀ i : nat, (i < length units)%nat →
     units !! i = Some (occupied h l ckey (pciDeviceOffset + k + Z.of_nat i))) →
  pickUnit units k (-1)
  = default (-1) (firstFree h l ckey (pciDeviceOffset + k) (length units)).
Proof.
  induction units as [|used rest IH]; intros k Hk Hmax Hunits; [done|].
  cbn [pickUnit length firstFree]. cbn [length] in Hmax.
  pose proof (Hunits 0%nat ltac:(cbn; lia)) as H0. cbn in H0.
  injection H0 as ->. rewrite Z.add_0_r.
  destruct (occupied h l ckey (pciDeviceOffset + k)); cbn [negb].
  - rewrite (IH (k + 1)); [|lia|lia|].
    + by rewrite Z.add_assoc.
    + intros i Hi. pose proof (Hunits (S i) ltac:(cbn; lia)) as Hi'.
      change (rest !! i
              = Some (occupied h l ckey (pciDeviceOffset + k + Z.of_nat (S i)))) in Hi'.
      rewrite Hi'. do 2 f_equal. lia.
  - cbn. unfold pciDeviceOffset.
    rewrite (wrap32_id k) by (unfold in_int32; lia).
    rewrite wrap32_id by (unfold in_int32; lia). lia.
Qed.

(** For an inventory whose pointers are all allocated, [assignEthernetCard]
    is the search for the lowest free unit followed by one write. *)
Lemma assignEthernetCard_closed (h : Heap) l device c ctl o :
  allocated h l → h !! ptr c = Some ctl → h !! ptr device = Some o →
  assignEthernetCard h l device c
  = match lowestFree h l (Key (base ctl)) with
    | Some u => Ok (<[ptr device := assigned (Key (base ctl)) u o]> h)
    | None => Err NoMoreSlots
    end.
Proof.
  intros Hall Hc Hd. set (ckey := Key (base ctl)).
  destruct (markUnits_spec h ckey l Hall (replicate 10 false))
    as (units & Hm & Hlen & Hmark); [by rewrite length_replicate|].
  rewrite (assignEthernetCard_unfold _ _ _ _ _ _ _ Hc Hd Hm). fold ckey.
  assert (Hunits : ∀ i : nat, (i < length units)%nat →
            units !! i = Some (occupied h l ckey (pciDeviceOffset + 0 + Z.of_nat i))).
  { intros i Hi. rewrite Hlen in Hi. rewrite Z.add_0_r.
    destruct (lookup_lt_is_Some_2 units i) as [b Hb]; [lia|].
    pose proof (Hmark i Hi) as Hiff. rewrite Hb in Hiff. rewrite Hb. f_equal.
    destruct b, (occupied h l ckey (pciDeviceOffset + Z.of_nat i)) eqn:Hocc; try done.
    - destruct Hiff as [Hiff _]. destruct (Hiff eq_refl) as [Hinit|]; [|done].
      apply lookup_replicate in Hinit as [? _]. done.
    - destruct Hiff as [_ Hiff]. by specialize (Hiff (or_intror eq_refl)). }
  rewrite (pickUnit_firstFree h l ckey units 0
             ltac:(lia) ltac:(rewrite Hlen; by vm_compute) Hunits).
  rewrite Hlen, Z.add_0_r. unfold lowestFree.
  destruct (firstFree h l ckey pciDeviceOffset 10) as [u|] eqn:Hfree;
    cbn [default id]; [|done].
  apply firstFree_Some in Hfree as [Hrange _]. unfold pciDeviceOffset in Hrange.
  by rewrite (proj2 (Z.ltb_ge u 0)) by lia.
Qed.

(** *** Allocation after allocation *)

Lemma occupied_app (h : Heap) l1 l2 ckey u :
  occupied h (l1 ++ l2)%list ckey u = occupied h l1 ckey u || occupied h l2 ckey u.
Proof. unfold occupied. apply existsb_app. Qed.

(** Occupancy only looks at the structs of the listed devices. *)
Lemma occupied_frame (h h' : Heap) l ckey u :
  (∀ d, d ∈ l → h' !! ptr d = h !! ptr d) →
  occupied h' l ckey u = occupied h l ckey u.
Proof.
  induction l as [|d l IH]; intros Hsame; [done|].
  rewrite !occupied_cons. unfold occupies.
  rewrite (Hsame d) by apply list_elem_of_here.
  rewrite IH; [done|]. intros d' Hd'. apply Hsame. by apply list_elem_of_further.
Qed.

Lemma occupied_intro (h : Heap) l ckey u d o :
  d ∈ l → h !! ptr d = Some o →
  ControllerKey (base o) = ckey → UnitNumber (base o) = Some u →
  occupied h l ckey u = true.
Proof.
  intros Hin Ho Hckey Hunit. induction Hin as [d l|d d' l Hin IH].
  - rewrite occupied_cons, (occupies_Some _ _ _ _ _ Ho), Hckey, Hunit, Z.eqb_refl.
    by rewrite bool_decide_eq_true_2.
  - rewrite occupied_cons, IH by done. apply orb_true_r.
Qed.

Lemma occupies_assigned (h : Heap) ckey u v d o :
  occupies (<[ptr d := assigned ckey v o]> h) ckey u d = bool_decide (v = u).
Proof.
  erewrite occupies_Some by apply lookup_insert_eq.
  cbn [assigned base ControllerKey UnitNumber]. rewrite Z.eqb_refl. cbn [andb].
  apply bool_decide_ext. split; [by intros [= ->]|by intros ->].
Qed.

(** Unit numbers on the controller [ckey] are unique within [l]: two
    positions of the list whose devices sit on the same unit of that
    controller are the same position. *)
Definition unitsUnique (h : Heap) (l : VirtualDeviceList) (ckey : Z) : Prop :=
  ∀ (i j : nat) di dj oi oj u,
    l !! i = Some di → l !! j = Some dj →
    h !! ptr di = Some oi → h !! ptr dj = Some oj →
    ControllerKey (base oi) = ckey → ControllerKey (base oj) = ckey →
    UnitNumber (base oi) = Some u → UnitNumber (base oj) = Some u →
    i = j.

(** X2. Allocation keeps unit numbers unique.  If no two devices of [l]
    share a unit on [c]'s controller key and the device to attach is not yet
    in [l], then after a successful [assignEthernetCard] no two devices of
    [l] with the new device appended share one either. *)
Theorem assignEthernetCard_keeps_units_unique (h h' : Heap) l device c ctl :
  allocated h l →
  h !! ptr c = Some ctl →
  (∀ d, d ∈ l → ptr d ≠ ptr device) →
  unitsUnique h l (Key (base ctl)) →
  assignEthernetCard h l device c = Ok h' →
  unitsUnique h' (l ++ [device])%list (Key (base ctl)).
Proof.
  intros Hall Hc Hnew Huniq Hassign. set (ckey := Key (base ctl)) in *.
  destruct (assignEthernetCard_Ok_inv _ _ _ _ _ Hassign)
    as (ctl' & o & _ & Hc' & Ho & _ & _ & _).
  rewrite (assignEthernetCard_closed _ _ _ _ _ _ Hall Hc Ho) in Hassign. fold ckey in Hassign.
  destruct (lowestFree h l ckey) as [v|] eqn:Hfree; [|done].
  injection Hassign as <-.
  apply firstFree_Some in Hfree as (_ & Hfree & _).
  assert (Hold : ∀ (i : nat) d o', l !! i = Some d →
            <[ptr device := assigned ckey v o]> h !! ptr d = Some o' → h !! ptr d = Some o').
  { intros i d o' Hi. rewrite lookup_insert_ne; [done|].
    intros E. eapply Hnew; [|by symmetry]. by eapply list_elem_of_lookup_2. }
  assert (Hclash : ∀ (j : nat) dj oj u,
            l !! j = Some dj → h !! ptr dj = Some oj →
            ControllerKey (base oj) = ckey → UnitNumber (base oj) = Some u → u ≠ v).
  { intros j dj oj u Hj Hoj Hck Hu ->.
    rewrite (occupied_intro h l ckey v dj oj) in Hfree; try done.
    by eapply list_elem_of_lookup_2. }
  intros i j di dj oi oj u Hi Hj Hoi Hoj Hcki Hckj Hui Huj.
  apply lookup_app_Some in Hi as [Hi|[Hilen Hi]];
    apply lookup_app_Some in Hj as [Hj|[Hjlen Hj]].
  - eapply (Huniq i j); eauto.
  - apply list_lookup_singleton_Some in Hj as [_ <-].
    rewrite lookup_insert_eq in Hoj. injection Hoj as <-.
    cbn [assigned base UnitNumber] in Huj. injection Huj as <-.
    exfalso. eapply (Hclash i); eauto.
  - apply list_lookup_singleton_Some in Hi as [_ <-].
    rewrite lookup_insert_eq in Hoi. injection Hoi as <-.
    cbn [assigned base UnitNumber] in Hui. injection Hui as <-.
    exfalso. eapply (Hclash j); eauto.
  - apply list_lookup_singleton_Some in Hi as [Hi _].
    apply list_lookup_singleton_Some in Hj as [Hj _]. lia.
Qed.

(** One allocation per device of [devices], each device joining the list
    once it has its unit: what a pass that creates several network
    interfaces on the controller [c] does to the unit numbers. *)
Fixpoint assignEach (h : Heap) (l devices : VirtualDeviceList) (c : BaseVirtualController)
    : R (Heap * VirtualDeviceList) :=
  match devices with
  | [] => Ok (h, l)
  | device :: rest =>
      h' ← assignEthernetCard h l device c;
      assignEach h' (l ++ [device])%list rest c
  end.

(** The first [k] units of the window are taken, the others are free. *)
Definition consumed (k : nat) (h : Heap) (l : VirtualDeviceList) (ckey : Z) : Prop :=
  ∀ i : nat, (i < 10)%nat →
    occupied h l ckey (pciDeviceOffset + Z.of_nat i) = bool_decide (i < k)%nat.

Lemma lowestFree_consumed (k : nat) (h : Heap) l ckey :
  consumed k h l ckey →
  lowestFree h l ckey
  = if decide (k < 10)%nat then Some (pciDeviceOffset + Z.of_nat k) else None.
Proof.
  intros Hk. unfold lowestFree, consumed in *.
  destruct (firstFree h l ckey pciDeviceOffset 10) as [v|] eqn:Hfree.
  - apply firstFree_Some in Hfree as (Hrange & Hfree & Hlow).
    unfold pciDeviceOffset in *.
    pose proof (Hk (Z.to_nat (v - 7)) ltac:(lia)) as Hv.
    replace (7 + Z.of_nat (Z.to_nat (v - 7))) with v in Hv by lia.
    rewrite Hfree in Hv. symmetry in Hv. apply bool_decide_eq_false in Hv.
    destruct (decide (Z.of_nat k < v - 7)) as [Hlt|Hge].
    + pose proof (Hk k ltac:(lia)) as Hkk.
      rewrite (Hlow (7 + Z.of_nat k)) in Hkk by lia.
      symmetry in Hkk. apply bool_decide_eq_true in Hkk. lia.
    + rewrite decide_True by lia. f_equal. lia.
  - pose proof (firstFree_None _ _ _ _ _ Hfree) as Hfull.
    destruct (decide (k < 10)%nat) as [Hlt|]; [|done].
    pose proof (Hk k Hlt) as Hkk. unfold pciDeviceOffset in *.
    rewrite Hfull in Hkk by lia.
    symmetry in Hkk. apply bool_decide_eq_true in Hkk. lia.
Qed.

(** The devices still to attach: allocated, none of them the controller,
    none of them in the list yet. *)
Definition attachable (h : Heap) (l : VirtualDeviceList) (c : BaseVirtualController)
    (devices : VirtualDeviceList) : Prop :=
  Forall (λ d, is_Some (h !! ptr d) ∧ ptr d ≠ ptr c ∧ ∀ d', d' ∈ l → ptr d' ≠ ptr d)
         devices.

Lemma assignEach_consumed (c : BaseVirtualController) ctl devices :
  ∀ (h : Heap) l (k : nat),
    allocated h l → h !! ptr c = Some ctl →
    (k ≤ 10)%nat → consumed k h l (Key (base ctl)) →
    attachable h l c devices → NoDup (ptr <$> devices) →
    if decide (k + length devices ≤ 10)%nat then
      ∃ h' : Heap,
        assignEach h l devices c = Ok (h', (l ++ devices)%list) ∧
        (∀ p, p ∉ ptr <$> devices → h' !! p = h !! p) ∧
        ∀ (i : nat) d, devices !! i = Some d →
          ∃ o, h' !! ptr d = Some o ∧
               ControllerKey (base o) = Key (base ctl) ∧
               UnitNumber (base o) = Some (pciDeviceOffset + Z.of_nat (k + i))
    else assignEach h l devices c = Err NoMoreSlots.
Proof.
  set (ckey := Key (base ctl)).
  induction devices as [|d rest IH]; intros h l k Hall Hc Hk10 Hk Hnew Hdup.
  - cbn [length assignEach]. rewrite decide_True by lia.
    exists h. rewrite app_nil_r. repeat split; done.
  - apply Forall_cons in Hnew as [([o Ho] & Hdc & Hdl) Hrest].
    rewrite fmap_cons in Hdup. apply NoDup_cons in Hdup as [Hd Hdup].
    cbn [length assignEach].
    rewrite (assignEthernetCard_closed _ _ _ _ _ _ Hall Hc Ho). fold ckey.
    rewrite (lowestFree_consumed k) by done.
    destruct (decide (k < 10)%nat) as [Hlt|Hfull]; cbn [mbind Result_bind].
    2:{ rewrite decide_False by lia. done. }
    set (u := pciDeviceOffset + Z.of_nat k).
    set (h1 := <[ptr d := assigned ckey u o]> h).
    assert (Hframe : ∀ d', d' ∈ l → h1 !! ptr d' = h !! ptr d').
    { intros d' Hd'. unfold h1. rewrite lookup_insert_ne; [done|].
      intros E. by apply (Hdl d'). }
    assert (P1 : allocated h1 (l ++ [d])%list).
    { apply Forall_app. split.
      - eapply Forall_impl; [exact Hall|]. intros d' Hd'. cbv beta in *.
        unfold h1. apply lookup_insert_is_Some'. by right.
      - apply Forall_singleton. unfold h1. rewrite lookup_insert_eq. by eexists. }
    assert (P2 : h1 !! ptr c = Some ctl).
    { unfold h1. by rewrite lookup_insert_ne. }
    assert (P4 : consumed (S k) h1 (l ++ [d])%list ckey).
    { intros i Hi. rewrite occupied_app, (occupied_frame _ _ _ _ _ Hframe), (Hk i Hi).
      unfold occupied. cbn [existsb]. unfold h1. rewrite occupies_assigned, orb_false_r.
      unfold u, pciDeviceOffset.
      repeat case_bool_decide; cbn; (done || lia). }
    assert (P5 : attachable h1 (l ++ [d])%list c rest).
    { apply Forall_forall. intros r Hr.
      pose proof (proj1 (Forall_forall _ _) Hrest r Hr) as (Hsome & Hrc & Hrl).
      split; [unfold h1; apply lookup_insert_is_Some'; by right|].
      split; [done|].
      intros d' [Hd'| ->%list_elem_of_singleton]%elem_of_app; [by apply Hrl|].
      intros E. apply Hd. rewrite E. by apply list_elem_of_fmap_2. }
    pose proof (IH h1 (l ++ [d])%list (S k) P1 P2 ltac:(lia) P4 P5 Hdup) as IH'.
    destruct (decide (k + S (length rest) ≤ 10)%nat) as [Hfit|Hover].
    2:{ by rewrite decide_False in IH' by lia. }
    rewrite decide_True in IH' by lia.
    destruct IH' as (h' & E & Hfr & Hunits).
    exists h'. split; [by rewrite E, <- app_assoc|]. split.
    + intros p Hp. rewrite fmap_cons in Hp. apply not_elem_of_cons in Hp as [Hpd Hp].
      rewrite (Hfr p Hp). unfold h1. by rewrite lookup_insert_ne.
    + intros [|i] d' Hi.
      * injection Hi as <-. rewrite (Hfr (ptr d) Hd). unfold h1.
        rewrite lookup_insert_eq. eexists. split; [done|]. split; [done|].
        cbn. unfold u. do 2 f_equal. lia.
      * destruct (Hunits i d' Hi) as (o' & Ho' & Hck & Hun).
        exists o'. split; [done|]. split; [done|]. rewrite Hun. do 3 f_equal. lia.
Qed.

(** X3. Ten network interfaces and no more.  On a controller none of whose
    units 7..16 is taken, attaching the devices of [devices] one after the
    other gives the i-th of them (from 0) unit 7 + i and the controller's key,
    as long as there are at most ten; with more than ten the pass stops with
    the "no more slots" error. *)
Theorem assignEach_fills_bus (h : Heap) l devices c ctl :
  allocated h l → h !! ptr c = Some ctl →
  (∀ u, pciDeviceOffset ≤ u < pciDeviceOffset + 10 →
     occupied h l (Key (base ctl)) u = false) →
  attachable h l c devices → NoDup (ptr <$> devices) →
  ((length devices ≤ 10)%nat →
     ∃ h' : Heap,
       assignEach h l devices c = Ok (h', (l ++ devices)%list) ∧
       ∀ (i : nat) d, devices !! i = Some d →
         ∃ o, h' !! ptr d = Some o ∧
              ControllerKey (base o) = Key (base ctl) ∧
              UnitNumber (base o) = Some (pciDeviceOffset + Z.of_nat i)) ∧
  ((10 < length devices)%nat → assignEach h l devices c = Err NoMoreSlots).
Proof.
  intros Hall Hc Hempty Hnew Hdup.
  assert (H0 : consumed 0 h l (Key (base ctl))).
  { intros i Hi. rewrite Hempty by (unfold pciDeviceOffset; lia).
    by rewrite bool_decide_eq_false_2 by lia. }
  pose proof (assignEach_consumed c ctl devices h l 0%nat
                Hall Hc ltac:(lia) H0 Hnew Hdup) as Hrun.
  split; intros Hlen.
  - rewrite decide_True in Hrun by lia.
    destruct Hrun as (h' & E & _ & Hunits). exists h'. split; [done|].
    intros i d Hi. destruct (Hunits i d Hi) as (o & Ho & Hck & Hun). eauto.
  - by rewrite decide_False in Hrun by lia.
Qed.

(** *** The two properties on the small inventory *)

Lemma list0_not_nic1 : ∀ d, d ∈ list0 → ptr d ≠ ptr nic1.
Proof.
  intros d Hd. unfold list0 in Hd.
  apply elem_of_cons in Hd as [->|Hd]; [done|].
  apply elem_of_cons in Hd as [->|Hd]; [done|].
  by apply elem_of_nil in Hd.
Qed.

Lemma unitsUnique_list0 : unitsUnique heap0 list0 100.
Proof.
  intros i j di dj oi oj u Hi Hj Hoi Hoj Hcki Hckj _ _.
  destruct i as [|[|i]], j as [|[|j]]; try done;
    repeat match goal with
           | H : list0 !! _ = Some _ |- _ => injection H as <-
           end;
    vm_compute in Hoi, Hoj;
    repeat match goal with
           | H : Some _ = Some _ |- _ => injection H as <-
           end;
    done.
Qed.

Lemma assignEthernetCard_keeps_units_unique_witness :
  unitsUnique (<[3%nat := mkDevice (-1) 100 (Some 8)]> heap0) (list0 ++ [nic1])%list 100.
Proof.
  exact (assignEthernetCard_keeps_units_unique heap0 _ list0 nic1 pci0
           (mkDevice 100 0 None) allocated_list0 eq_refl list0_not_nic1
           unitsUnique_list0 assignEthernetCard_heap0).
Defined.

Lemma attachable_heap0 : attachable heap0 [pci0] pci0 [nic0; nic1].
Proof.
  repeat constructor; try (vm_compute; eauto; done); try done;
    intros d' ->%list_elem_of_singleton; done.
Qed.

Lemma assignEach_fills_bus_witness :
  ∃ h' : Heap,
    assignEach heap0 [pci0] [nic0; nic1] pci0 = Ok (h', [pci0; nic0; nic1]) ∧
    ∀ (i : nat) d, [nic0; nic1] !! i = Some d →
      ∃ o, h' !! ptr d = Some o ∧
           ControllerKey (base o) = 100 ∧
           UnitNumber (base o) = Some (pciDeviceOffset + Z.of_nat i).
Proof.
  refine (proj1 (assignEach_fills_bus heap0 [pci0] [nic0; nic1] pci0
                   (mkDevice 100 0 None) _ eq_refl _ attachable_heap0 _) _).
  - repeat constructor. vm_compute. eauto.
  - intros u Hu. unfold occupied, pci0. cbn [existsb]. unfold occupies. cbn. done.
  - cbn. apply NoDup_cons. split; [by intros [=]%list_elem_of_singleton|].
    apply NoDup_singleton.
  - cbn. lia.
Defined.

(** *** Create and Delete *)

Lemma firstFree_ext (h h' : Heap) l ckey n : ∀ u,
  (∀ v, occupied h' l ckey v = occupied h l ckey v) →
  firstFree h' l ckey u n = firstFree h l ckey u n.
Proof.
  induction n as [|n IH]; intros u Hsame; [done|].
  cbn [firstFree]. by rewrite Hsame, IH.
Qed.

Lemma bind_assoc_St {A B C} (m : St A) (f : A → St B) (g : B → St C) (h : Heap) :
  ((m ≫= f) ≫= g) h = (m ≫= λ x, f x ≫= g) h.
Proof.
  unfold mbind, St_bind. destruct (m h) as [h' [a| |]]; reflexivity.
Qed.

(** The list [Create] works on: the given one, with the controller that
    [ControllerForCreateUpdate] had to create appended. *)
Definition withNewController (l : VirtualDeviceList) (cspec : list VirtualDeviceConfigSpec)
    : VirtualDeviceList :=
  match cspec with
  | first :: _ => (l ++ [Device first])%list
  | [] => l
  end.

(** The card [Create] ends up with, from the one [CreateEthernetCard]
    returned. *)
Definition createdCard (a : Declared) (ckey u key : Z) (created : VirtualEthernetCard)
    : VirtualEthernetCard :=
  let o := set_Key key (assigned ckey u created) in
  set_ResourceAllocation
    (Some {| Limit := Some (bandwidth_limit a);
             Reservation := Some (bandwidth_reservation a);
             Share := {| Shares := wrap32 (bandwidth_share_count a);
                         Level := bandwidth_share_level a |} |})
    (if use_static_mac a
     then set_MacAddress (mac_address a) (set_AddressType VirtualEthernetCardMacTypeManual o)
     else o).

Section CreateDeleteProps.

Variable FindVirtualDevice :
  Subresource → Heap → VirtualDeviceList → R BaseVirtualDevice.
Variable CreateEthernetCard :
  VirtualDeviceList → string → option BaseVirtualDeviceBackingInfo →
  R (DeviceType * VirtualEthernetCard).
Variable NewKey : Heap → VirtualDeviceList → Z.
Variable ConfigSpec :
  VirtualDeviceList → VirtualDeviceConfigSpecOperation → R (list VirtualDeviceConfigSpec).
Variable SubresourceControllerTypePCI : string.
Variable ControllerForCreateUpdate :
  Subresource → VirtualDeviceList → string →
  St (BaseVirtualController * list VirtualDeviceConfigSpec).
Variable EthernetCardBackingInfo :
  Client → string → Result string BaseVirtualDeviceBackingInfo.
Variable Connect : VirtualDeviceList → BaseVirtualDevice → Heap → Heap.
Variable SaveID :
  Subresource → Heap → BaseVirtualDevice → BaseVirtualController → Subresource.

Hypothesis ConfigSpec_single : ∀ device op,
  ConfigSpec [device] op = Ok [changeSpec op device].

(** [Connect] writes nothing that the structs of the model carry. *)
Hypothesis Connect_cells : ∀ l device (h : Heap), Connect l device h = h.

Lemma createDevice_spec (r : Subresource) a l (h h0 : Heap) ctlr cspec ctl
    netID backing name t created :
  ControllerForCreateUpdate r l SubresourceControllerTypePCI h = (h0, Ok (ctlr, cspec)) →
  allocated h0 (withNewController l cspec) →
  h0 !! ptr ctlr = Some ctl →
  Get r "network_id" = Some (VString netID) →
  EthernetCardBackingInfo (client r) netID = Ok backing →
  Get r "adapter_type" = Some (VString name) →
  CreateEthernetCard (withNewController l cspec) name (Some backing) = Ok (t, created) →
  supportedEthernetCard t = true →
  declares r a →
  let l' := withNewController l cspec in
  let ckey := Key (base ctl) in
  let p := fresh (dom h0) in
  createDevice CreateEthernetCard NewKey SubresourceControllerTypePCI
    ControllerForCreateUpdate EthernetCardBackingInfo Connect r l h
  = match lowestFree h0 l' ckey with
    | Some u =>
        let key := NewKey (<[p := assigned ckey u created]> h0) l' in
        (<[p := createdCard a ckey u key created]> h0,
         Ok ({| dyntype := t; ptr := p |}, ctlr, cspec))
    | None => (<[p := created]> h0, Err NoMoreSlots)
    end.
Proof.
  intros Hctl Hall Hc Hnet Hbacking Hname Hcreate Ht
         (Hstatic & Hmac & Hlimit & Hres & Hcount & Hlevel) l' ckey p.
  fold l' in Hall, Hcreate.
  assert (Hp : h0 !! p = None) by apply fresh_not_allocated.
  assert (Hpc : p ≠ ptr ctlr) by (intros E; congruence).
  set (h1 := <[p := created]> h0).
  assert (Hall1 : allocated h1 l').
  { eapply Forall_impl; [exact Hall|]. intros d Hd. cbv beta in *.
    unfold h1. apply lookup_insert_is_Some'. by right. }
  assert (Hfree : lowestFree h1 l' ckey = lowestFree h0 l' ckey).
  { apply firstFree_ext. intros v. apply occupied_frame. intros d Hd.
    unfold h1. rewrite lookup_insert_ne; [done|]. intros E.
    pose proof (proj1 (Forall_forall _ _) Hall d Hd) as [? Hsome]. congruence. }
  assert (Hassign :
    assignSt l' {| dyntype := t; ptr := p |} ctlr h1
    = match lowestFree h0 l' ckey with
      | Some u => (<[p := assigned ckey u created]> h0, Ok tt)
      | None => (h1, Err NoMoreSlots)
      end).
  { unfold assignSt.
    rewrite (assignEthernetCard_closed h1 l' _ ctlr ctl created Hall1);
      [|by unfold h1; rewrite lookup_insert_ne|by unfold h1; cbn; rewrite lookup_insert_eq].
    fold ckey. rewrite Hfree. cbn [ptr].
    destruct (lowestFree h0 l' ckey); [|done].
    unfold h1. by rewrite insert_insert_eq. }
  unfold createDevice. unfold mbind at 1. unfold St_bind at 1. rewrite Hctl.
  assert (Hcase : (cspec = [] ∧ l = l')
                  ∨ ∃ first rest, cspec = first :: rest ∧ (l ++ [Device first])%list = l').
  { subst l'. destruct cspec as [|first rest]; [by left|right; by eexists _, _]. }
  clearbody l'.
  destruct Hcase as [[-> ->]|(first & rest & -> & El)]; cbn [app]; [|rewrite El].
  all: rewrite Hnet; cbn [asString]; rewrite bind_pure_Ok.
  all: rewrite Hbacking; cbn [external]; rewrite bind_pure_Ok.
  all: rewrite Hname; cbn [asString]; rewrite bind_pure_Ok.
  all: rewrite Hcreate, bind_pure_Ok, bind_allocSt; fold p; fold h1.
  all: unfold mbind at 1; unfold St_bind at 1; rewrite Hassign.
  all: destruct (lowestFree h0 l' ckey) as [u|]; [|reflexivity].
  all: unfold mbind at 1; unfold St_bind at 1; rewrite Connect_cells.
  all: replace (implementsBaseVirtualEthernetCard t) with true by (by destruct t).
  all: rewrite bind_pure_Ok.
  all: erewrite bind_reading_Ok by reflexivity.
  all: erewrite bind_storeSt by apply lookup_insert_eq.
  all: rewrite insert_insert_eq.
  all: rewrite Hstatic; cbn [asBool]; rewrite bind_pure_Ok.
  all: rewrite Hmac, Hlimit, Hres, Hcount, Hlevel; cbn [asInt asString].
  all: unfold createdCard.
  all: destruct (use_static_mac a).
  all: repeat first
         [ rewrite bind_assoc_St
         | rewrite bind_pure_Ok
         | rewrite bind_mret
         | erewrite bind_storeSt by apply lookup_insert_eq; rewrite insert_insert_eq ].
  all: reflexivity.
Qed.

(** X4. What [Create] builds.  Once the controller is there, the network
    resolves to a backing and [CreateEthernetCard] returns a supported card:
    if a unit of 7..16 is free on the controller, [Create] returns the change
    specifications of the controller followed by one "add" of a new device,
    which sits at a fresh address on the lowest free unit of the controller,
    carries the key [NewKey] handed out and the declared resource allocation,
    and no other struct on the heap is written; if none is free it returns
    the "no more slots" error, no change specification, and the sub-resource
    as it was. *)
Theorem Create_new_device (r : Subresource) a l (h h0 : Heap) ctlr cspec ctl
    netID backing name t created :
  ControllerForCreateUpdate r l SubresourceControllerTypePCI h = (h0, Ok (ctlr, cspec)) →
  allocated h0 (withNewController l cspec) →
  h0 !! ptr ctlr = Some ctl →
  Get r "network_id" = Some (VString netID) →
  EthernetCardBackingInfo (client r) netID = Ok backing →
  Get r "adapter_type" = Some (VString name) →
  CreateEthernetCard (withNewController l cspec) name (Some backing) = Ok (t, created) →
  supportedEthernetCard t = true →
  declares r a →
  let l' := withNewController l cspec in
  let ckey := Key (base ctl) in
  let device := {| dyntype := t; ptr := fresh (dom h0) |} in
  let out := Create CreateEthernetCard NewKey ConfigSpec SubresourceControllerTypePCI
               ControllerForCreateUpdate EthernetCardBackingInfo Connect SaveID r l h in
  (∀ u, lowestFree h0 l' ckey = Some u →
     ∃ o',
       out.2 = Ok (cspec ++ [changeSpec VirtualDeviceConfigSpecOperationAdd device])%list ∧
       out.1.2 = SaveID r out.1.1 device ctlr ∧
       out.1.1 !! ptr device = Some o' ∧
       (∀ q, q ≠ ptr device → out.1.1 !! q = h0 !! q) ∧
       ControllerKey (base o') = ckey ∧
       UnitNumber (base o') = Some u ∧
       pciDeviceOffset ≤ u < pciDeviceOffset + 10 ∧
       occupied h0 l' ckey u = false ∧
       (∀ v, pciDeviceOffset ≤ v < u → occupied h0 l' ckey v = true) ∧
       Key (base o') = NewKey (<[ptr device := assigned ckey u created]> h0) l' ∧
       Backing (base o') = Backing (base created) ∧
       ResourceAllocation o'
       = Some {| Limit := Some (bandwidth_limit a);
                 Reservation := Some (bandwidth_reservation a);
                 Share := {| Shares := wrap32 (bandwidth_share_count a);
                             Level := bandwidth_share_level a |} |}) ∧
  (lowestFree h0 l' ckey = None →
     (∀ u, pciDeviceOffset ≤ u < pciDeviceOffset + 10 → occupied h0 l' ckey u = true) ∧
     out.2 = Err NoMoreSlots ∧ out.1.2 = r ∧
     ∀ q, q ≠ ptr device → out.1.1 !! q = h0 !! q).
Proof.
  intros Hctl Hall Hc Hnet Hbacking Hname Hcreate Ht Hdecl l' ckey device out.
  subst out. unfold Create.
  rewrite (createDevice_spec r a l h h0 ctlr cspec ctl netID backing name t created
             Hctl Hall Hc Hnet Hbacking Hname Hcreate Ht Hdecl).
  fold l' ckey. split.
  - intros u Hu. rewrite Hu. cbv beta iota zeta. rewrite ConfigSpec_single.
    cbv beta iota. cbn [fst snd].
    pose proof (firstFree_Some _ _ _ _ _ _ Hu) as (Hrange & Hfree & Hlow).
    eexists. split; [reflexivity|]. split; [reflexivity|].
    cbn [ptr device]. rewrite lookup_insert_eq. split; [reflexivity|].
    split; [by intros q Hq; rewrite lookup_insert_ne|].
    unfold createdCard. by destruct (use_static_mac a).
  - intros Hnone. rewrite Hnone. cbv beta iota. cbn [fst snd]. split.
    + intros u Hu. by apply (firstFree_None _ _ _ _ _ Hnone).
    + split; [done|]. split; [done|]. intros q Hq. by rewrite lookup_insert_ne.
Qed.

Lemma Delete_outcome (r : Subresource) l (h : Heap) :
  Delete FindVirtualDevice ConfigSpec r l h
  = (h, match FindVirtualDevice r h l with
        | Ok vd =>
            if supportedEthernetCard (dyntype vd)
            then Ok [changeSpec VirtualDeviceConfigSpecOperationRemove vd]
            else Err (NotNetworkDevice (typeName (dyntype vd)))
        | Err e => Err (CannotFindNetworkDevice e)
        | Panic msg => Panic msg
        end).
Proof.
  unfold Delete. unfold mbind at 1. unfold St_bind at 1. unfold reading.
  destruct (FindVirtualDevice r h l) as [vd|e|msg]; [|done|done].
  destruct (supportedEthernetCard (dyntype vd)) eqn:Hsup.
  - rewrite (toEthernetCard_supported _ Hsup), bind_pure_Ok.
    rewrite (toDevice_supported _ Hsup), bind_pure_Ok.
    by rewrite ConfigSpec_single.
  - unfold baseVirtualDeviceToBaseVirtualEthernetCard.
    by destruct (dyntype vd).
Qed.

(** X5. [Delete] never writes to the heap.  For a device that is found and
    is a supported card it returns one "remove" change specification for that
    device; when the device is not found it returns the "cannot find network
    device" error around the cause, and for a device that is not a supported
    ethernet card the "not a network device" error naming its type. *)
Theorem Delete_emits_remove (r : Subresource) l (h : Heap) :
  let out := Delete FindVirtualDevice ConfigSpec r l h in
  out.1 = h ∧
  match FindVirtualDevice r h l with
  | Ok vd =>
      if supportedEthernetCard (dyntype vd)
      then out.2 = Ok [changeSpec VirtualDeviceConfigSpecOperationRemove vd]
      else out.2 = Err (NotNetworkDevice (typeName (dyntype vd)))
  | Err e => out.2 = Err (CannotFindNetworkDevice e)
  | Panic msg => out.2 = Panic msg
  end.
Proof.
  intros out. subst out. rewrite Delete_outcome. split; [done|]. cbn [snd].
  destruct (FindVirtualDevice r h l) as [vd|e|msg]; [|done|done].
  by destruct (supportedEthernetCard (dyntype vd)).
Qed.

End CreateDeleteProps.

(** X6. A device that cannot be looked up stops [Read] and [Update] before
    they write anything: when the device is not found both return the "cannot
    find network device" error around the cause, and when it is found but is
    not one of the six supported ethernet cards both return the "not a network
    device" error naming its type; the sub-resource, respectively the heap,
    is left as it was. *)
Theorem Read_Update_lookup_failure
    (Find : Subresource → Heap → VirtualDeviceList → R BaseVirtualDevice)
    CreateEthernetCard NewKey ConfigSpec (r : Subresource) l (h : Heap) :
  (∀ e, Find r h l = Err e →
     Read Find r h l = (r, Err (CannotFindNetworkDevice e)) ∧
     Update Find CreateEthernetCard NewKey ConfigSpec r l h
     = (h, Err (CannotFindNetworkDevice e))) ∧
  (∀ vd, Find r h l = Ok vd → supportedEthernetCard (dyntype vd) = false →
     Read Find r h l = (r, Err (NotNetworkDevice (typeName (dyntype vd)))) ∧
     Update Find CreateEthernetCard NewKey ConfigSpec r l h
     = (h, Err (NotNetworkDevice (typeName (dyntype vd))))).
Proof.
  split.
  - intros e Hfind. unfold Read, Update. rewrite Hfind. split; [done|].
    unfold mbind at 1. unfold St_bind at 1. unfold reading. by rewrite Hfind.
  - intros vd Hfind Hsup.
    assert (Hconv : baseVirtualDeviceToBaseVirtualEthernetCard vd
                    = Err (NotNetworkDevice (typeName (dyntype vd)))).
    { unfold baseVirtualDeviceToBaseVirtualEthernetCard. by destruct (dyntype vd). }
    unfold Read, Update. rewrite Hfind, Hconv. split; [done|].
    unfold mbind at 1. unfold St_bind at 1. unfold reading. rewrite Hfind.
    unfold mbind at 1. unfold St_bind at 1. unfold pure. by rewrite Hconv.
Qed.

(** *** What Read writes *)

(** The attributes [Read] sets. *)
Definition readAttributes : list string :=
  ["adapter_type"; "network_id"; "use_static_mac"; "mac_address";
   "bandwidth_limit"; "bandwidth_reservation"; "bandwidth_share_count";
   "bandwidth_share_level"; "key"].

(** X7. What a successful [Read] records.  When the device is found, is a
    supported card and its backing resolves to [netID], [Read] succeeds and
    the sub-resource holds the card's key, its MAC address, whether its
    address type is "manual", and [netID]; the four bandwidth attributes are
    those of the card's resource allocation when it has one and are left
    alone when it has none; no other attribute, and nothing of the persisted
    snapshot, the schema or the client, is touched. *)
Theorem Read_stores_card
    (Find : Subresource → Heap → VirtualDeviceList → R BaseVirtualDevice)
    (r : Subresource) (h : Heap) l vd card netID :
  Find r h l = Ok vd →
  supportedEthernetCard (dyntype vd) = true →
  h !! ptr vd = Some card →
  readNetworkID (client r) (Backing (base card)) = Ok netID →
  let out := Read Find r h l in
  let stored (key : string) := data_new out.1 !! key in
  out.2 = Ok tt ∧
  stored "key" = Some (VInt (Key (base card))) ∧
  stored "mac_address" = Some (VString (MacAddress card)) ∧
  stored "use_static_mac"
  = Some (VBool (String.eqb (AddressType card) VirtualEthernetCardMacTypeManual)) ∧
  stored "network_id" = Some (VString netID) ∧
  match ResourceAllocation card with
  | Some alloc =>
      stored "bandwidth_limit" = Some (VInt64Ptr (Limit alloc)) ∧
      stored "bandwidth_reservation" = Some (VInt64Ptr (Reservation alloc)) ∧
      stored "bandwidth_share_count" = Some (VInt (Shares (Share alloc))) ∧
      stored "bandwidth_share_level" = Some (VString (Level (Share alloc)))
  | None =>
      stored "bandwidth_limit" = data_new r !! "bandwidth_limit" ∧
      stored "bandwidth_reservation" = data_new r !! "bandwidth_reservation" ∧
      stored "bandwidth_share_count" = data_new r !! "bandwidth_share_count" ∧
      stored "bandwidth_share_level" = data_new r !! "bandwidth_share_level"
  end ∧
  (∀ key, key ∉ readAttributes → stored key = data_new r !! key) ∧
  data_old out.1 = data_old r ∧ schema out.1 = schema r ∧ client out.1 = client r.
Proof.
  intros Hfind Hsup Hcard Hnet out stored. subst stored out. cbv beta.
  unfold Read.
  rewrite Hfind, (toEthernetCard_supported _ Hsup), (load_Some _ _ _ Hcard).
  cbn [client Set']. rewrite Hnet. cbn [fst snd].
  split; [done|].
  destruct (ResourceAllocation card) as [alloc|],
           (String.eqb (AddressType card) VirtualEthernetCardMacTypeManual);
    (repeat split; try by lookup_attribute);
    intros key Hkey; unfold readAttributes in Hkey;
    repeat (rewrite Set'_lookup;
            rewrite decide_False by (intros <-; apply Hkey; repeat constructor));
    done.
Qed.

(** *** What Update writes *)

Section UpdateEffect.

Variable FindVirtualDevice :
  Subresource → Heap → VirtualDeviceList → R BaseVirtualDevice.
Variable CreateEthernetCard :
  VirtualDeviceList → string → option BaseVirtualDeviceBackingInfo →
  R (DeviceType * VirtualEthernetCard).
Variable NewKey : Heap → VirtualDeviceList → Z.
Variable ConfigSpec :
  VirtualDeviceList → VirtualDeviceConfigSpecOperation → R (list VirtualDeviceConfigSpec).

Hypothesis ConfigSpec_single : ∀ device op,
  ConfigSpec [device] op = Ok [changeSpec op device].

(** X1. [Update] of a network interface leaves the device where and what
    it is.  Whatever the declared attributes are, it emits exactly one change
    specification, for the existing device, and the device's key, backing,
    controller key and unit number are as before (so a changed network_id or
    adapter_type does not reach the device); no other struct on the heap is
    written. *)
Theorem Update_network_interface_keeps_device (c : Client) i old new a l (h : Heap) vd o :
  let r := NewNetworkInterfaceSubresource c i old new in
  FindVirtualDevice r h l = Ok vd →
  supportedEthernetCard (dyntype vd) = true →
  h !! ptr vd = Some o →
  declares r a →
  let out := Update FindVirtualDevice CreateEthernetCard NewKey ConfigSpec r l h in
  ∃ op o',
    out.2 = Ok [changeSpec op vd] ∧
    out.1 !! ptr vd = Some o' ∧
    base o' = base o ∧
    ∀ p, p ≠ ptr vd → out.1 !! p = h !! p.
Proof.
  intros r Hfind Hsup Ho Hdecl out. subst out.
  rewrite (Update_in_place FindVirtualDevice CreateEthernetCard NewKey ConfigSpec
             ConfigSpec_single r a l h vd o Hfind Hsup Ho Hdecl
             (HasChange_device_type c i old new)).
  cbn [fst snd]. eexists _, _. split; [reflexivity|].
  rewrite lookup_insert_eq. split; [reflexivity|].
  split; [apply withAttributes_base|].
  intros p Hp. by rewrite lookup_insert_ne.
Qed.

(** X8. The attributes [Update] writes to the device it edits.  The
    resource allocation is always replaced by the declared one (the share
    count wrapped to 32 bits).  The MAC address settings are written only
    when use_static_mac itself has a change: turned on, the address type
    becomes "manual" and the address the declared one; turned off, the
    address is cleared and the type becomes "assigned" against vCenter and
    "generated" otherwise.  Without such a change address and type stay as
    they are, a changed mac_address included. *)
Theorem Update_written_attributes (r : Subresource) a l (h : Heap) vd o :
  FindVirtualDevice r h l = Ok vd →
  supportedEthernetCard (dyntype vd) = true →
  h !! ptr vd = Some o →
  declares r a →
  HasChange r "device_type" = false →
  let out := Update FindVirtualDevice CreateEthernetCard NewKey ConfigSpec r l h in
  ∃ o',
    out.1 !! ptr vd = Some o' ∧
    ResourceAllocation o'
    = Some {| Limit := Some (bandwidth_limit a);
              Reservation := Some (bandwidth_reservation a);
              Share := {| Shares := wrap32 (bandwidth_share_count a);
                          Level := bandwidth_share_level a |} |} ∧
    if HasChange r "use_static_mac" then
      if use_static_mac a then
        AddressType o' = "manual" ∧ MacAddress o' = mac_address a
      else
        AddressType o'
        = (if String.eqb (ApiType (client r)) "VirtualCenter"
           then "assigned" else "generated") ∧
        MacAddress o' = ""
    else AddressType o' = AddressType o ∧ MacAddress o' = MacAddress o.
Proof.
  intros Hfind Hsup Ho Hdecl Hchange out. subst out.
  rewrite (Update_in_place FindVirtualDevice CreateEthernetCard NewKey ConfigSpec
             ConfigSpec_single r a l h vd o Hfind Hsup Ho Hdecl Hchange).
  cbn [fst]. eexists. rewrite lookup_insert_eq. split; [reflexivity|].
  split; [reflexivity|].
  unfold withAttributes, withMacAddress.
  destruct (HasChange r "use_static_mac"); [|done].
  destruct (use_static_mac a); [done|].
  by destruct (String.eqb (ApiType (client r)) "VirtualCenter").
Qed.

End UpdateEffect.

(** *** [Create], [Delete], [Read] and [Update] on the small inventory *)

(** Stand-ins for the collaborators of [Create], for the concrete run below;
    the general theorems do not depend on them.  The controller is the PCI
    controller of the inventory, which needs no creation; every network ID
    resolves to the standard network of that name; [SaveID] records the key
    of the device. *)
Definition pciController (r : Subresource) (l : VirtualDeviceList) (ctype : string)
    : St (BaseVirtualController * list VirtualDeviceConfigSpec) :=
  λ h, (h, Ok (pci0, [])).

Definition standardNetwork (c : Client) (netID : string)
    : Result string BaseVirtualDeviceBackingInfo :=
  Ok (VirtualEthernetCardNetworkBackingInfo
        (Some {| Type_ := "Network"; Value := netID |})).

Definition connected (l : VirtualDeviceList) (device : BaseVirtualDevice) (h : Heap)
    : Heap := h.

Definition savedKey (r : Subresource) (h : Heap) (device : BaseVirtualDevice)
    (ctlr : BaseVirtualController) : Subresource :=
  match h !! ptr device with
  | Some o => Set' "key" (VInt (Key (base o))) r
  | None => r
  end.

(** A network interface that is declared but not yet created: a vmxnet3
    card on "network-7". *)
Definition createResource : Subresource :=
  NewNetworkInterfaceSubresource client0 1 ∅
    (list_to_map [("adapter_type", VString "vmxnet3");
                  ("network_id", VString "network-7")]).

Lemma allocated_heap1 : allocated heap1 list0.
Proof. repeat constructor; vm_compute; eauto. Qed.

Lemma declares_createResource : declares createResource declared0.
Proof. repeat split. Qed.

(** X4 at the inventory whose unit 7 is taken: the new card goes to unit 8
    of controller 100. *)
Lemma Create_new_device_witness :
  let out := Create govmomiCreateEthernetCard govmomiNewKey govmomiConfigSpec "pci"
               pciController standardNetwork connected savedKey
               createResource list0 heap1 in
  let device := {| dyntype := VirtualVmxnet3; ptr := fresh (dom heap1) |} in
  ∃ o',
    out.2 = Ok [changeSpec VirtualDeviceConfigSpecOperationAdd device] ∧
    out.1.1 !! ptr device = Some o' ∧
    ControllerKey (base o') = 100 ∧
    UnitNumber (base o') = Some 8.
Proof.
  destruct (proj1 (Create_new_device govmomiCreateEthernetCard govmomiNewKey
                     govmomiConfigSpec "pci" pciController standardNetwork connected
                     savedKey govmomiConfigSpec_single (λ _ _ _, eq_refl)
                     createResource declared0 list0 heap1 heap1 pci0 []
                     (mkDevice 100 0 None) "network-7"
                     (VirtualEthernetCardNetworkBackingInfo
                        (Some {| Type_ := "Network"; Value := "network-7" |}))
                     "vmxnet3" VirtualVmxnet3 (newEthernetCard standardBacking)
                     eq_refl allocated_heap1 eq_refl eq_refl eq_refl eq_refl eq_refl
                     eq_refl declares_createResource)
              8 eq_refl)
    as (o' & Hout & _ & Ho' & _ & Hckey & Hunit & _).
  exists o'. exact (conj Hout (conj Ho' (conj Hckey Hunit))).
Defined.

(** X5 at the card with key 4000. *)
Lemma Delete_emits_remove_witness :
  let out := Delete FindVirtualDeviceByKey govmomiConfigSpec nicResource0 list0 heap1 in
  out.1 = heap1 ∧ out.2 = Ok [changeSpec VirtualDeviceConfigSpecOperationRemove nic0].
Proof.
  exact (Delete_emits_remove FindVirtualDeviceByKey govmomiConfigSpec
           govmomiConfigSpec_single nicResource0 list0 heap1).
Defined.

(** X7 at the card with key 4000, which has no resource allocation. *)
Lemma Read_stores_card_witness :
  let out := Read FindVirtualDeviceByKey nicResource0 heap1 list0 in
  out.2 = Ok tt ∧
  data_new out.1 !! "key" = Some (VInt 4000) ∧
  data_new out.1 !! "mac_address" = Some (VString "") ∧
  data_new out.1 !! "use_static_mac" = Some (VBool false) ∧
  data_new out.1 !! "network_id" = Some (VString "network-7").
Proof.
  destruct (Read_stores_card FindVirtualDeviceByKey nicResource0 heap1 list0 nic0
              (set_Backing standardBacking (mkDevice 4000 100 (Some 7))) "network-7"
              find_nic0 eq_refl eq_refl eq_refl)
    as (Hout & Hkey & Hmac & Hstatic & Hnet & _).
  exact (conj Hout (conj Hkey (conj Hmac (conj Hstatic Hnet)))).
Defined.

Example find_nic1 : FindVirtualDeviceByKey nicResource1 heap1 list0 = Ok nic0.
Proof. vm_compute. reflexivity. Qed.

Lemma declares_nicResource1 : declares nicResource1 declared0.
Proof. repeat split. Qed.

(** X1 at the sub-resource whose adapter_type went from "e1000" to
    "vmxnet3". *)
Lemma Update_network_interface_keeps_device_witness :
  let out := Update FindVirtualDeviceByKey govmomiCreateEthernetCard govmomiNewKey
               govmomiConfigSpec nicResource1 list0 heap1 in
  ∃ op o',
    out.2 = Ok [changeSpec op nic0] ∧
    out.1 !! ptr nic0 = Some o' ∧
    base o' = base (set_Backing standardBacking (mkDevice 4000 100 (Some 7))) ∧
    ∀ p, p ≠ ptr nic0 → out.1 !! p = heap1 !! p.
Proof.
  exact (Update_network_interface_keeps_device FindVirtualDeviceByKey
           govmomiCreateEthernetCard govmomiNewKey govmomiConfigSpec
           govmomiConfigSpec_single client0 0 attributes0
           (<["adapter_type" := VString "vmxnet3"]> attributes0) declared0
           list0 heap1 nic0 (set_Backing standardBacking (mkDevice 4000 100 (Some 7)))
           find_nic1 eq_refl eq_refl declares_nicResource1).
Defined.

(** The sub-resource of the card with key 4000 after a static MAC address
    was declared. *)
Definition staticMacResource : Subresource :=
  NewNetworkInterfaceSubresource client0 0 attributes0
    (<["use_static_mac" := VBool true]>
       (<["mac_address" := VString "00:50:56:aa:bb:cc"]> attributes0)).

Definition declaredStaticMac : Declared :=
  {| use_static_mac := true; mac_address := "00:50:56:aa:bb:cc";
     bandwidth_limit := -1; bandwidth_reservation := 0;
     bandwidth_share_count := 0; bandwidth_share_level := "normal" |}.

Example find_staticMac : FindVirtualDeviceByKey staticMacResource heap1 list0 = Ok nic0.
Proof. vm_compute. reflexivity. Qed.

Lemma declares_staticMacResource : declares staticMacResource declaredStaticMac.
Proof. repeat split. Qed.

(** X8 at that sub-resource: the card gets the declared address. *)
Lemma Update_written_attributes_witness :
  let out := Update FindVirtualDeviceByKey govmomiCreateEthernetCard govmomiNewKey
               govmomiConfigSpec staticMacResource list0 heap1 in
  ∃ o',
    out.1 !! ptr nic0 = Some o' ∧
    AddressType o' = "manual" ∧ MacAddress o' = "00:50:56:aa:bb:cc".
Proof.
  destruct (Update_written_attributes FindVirtualDeviceByKey govmomiCreateEthernetCard
              govmomiNewKey govmomiConfigSpec govmomiConfigSpec_single
              staticMacResource declaredStaticMac list0 heap1 nic0
              (set_Backing standardBacking (mkDevice 4000 100 (Some 7)))
              find_staticMac eq_refl eq_refl declares_staticMacResource
              (HasChange_device_type _ _ _ _))
    as (o' & Ho' & _ & Hmac).
  exists o'. exact (conj Ho' Hmac).
Defined.

End virtualdevice_props.

(** ** Package vmworkflow *)

Module vmworkflow_props.
Import vmworkflow.

(** ** validateCloneSnapshots *)

Lemma configUuid_Some props config :
  vm_Config props = Some config → configUuid props = Ok (Uuid config).
Proof. unfold configUuid. by intros ->. Qed.

(** The property sets [validateCloneSnapshots] accepts: one root snapshot,
    without children, whose reference has the value of the current one. *)
Definition singleSnapshot (props : VirtualMachine) : Prop :=
  ∃ snapshot root current,
    vm_Snapshot props = Some snapshot ∧
    RootSnapshotList snapshot = [root] ∧
    ChildSnapshotList root = [] ∧
    CurrentSnapshot snapshot = Some current ∧
    Value current = Value (Snapshot root).

Lemma validateCloneSnapshots_Ok props :
  validateCloneSnapshots props = Ok tt ↔ singleSnapshot props.
Proof.
  unfold validateCloneSnapshots, singleSnapshot, configUuid. split.
  - destruct (vm_Snapshot props) as [snapshot|];
      [|by destruct (vm_Config props)].
    destruct (RootSnapshotList snapshot) as [|root [|root' roots]] eqn:Hroots;
      cbn; try by destruct (vm_Config props).
    destruct (ChildSnapshotList root) as [|child children] eqn:Hchildren;
      cbn; [|by destruct (vm_Config props)].
    destruct (CurrentSnapshot snapshot) as [current|] eqn:Hcurrent; [|done].
    destruct (String.eqb (Value current) (Value (Snapshot root))) eqn:Heq;
      cbn; [|by destruct (vm_Config props)].
    intros _. exists snapshot, root, current.
    repeat split; try done. by apply String.eqb_eq.
  - intros (snapshot & root & current & -> & -> & -> & -> & Heq). cbn.
    by rewrite (proj2 (String.eqb_eq _ _) Heq).
Qed.

(** C3. Snapshot validation for a linked clone, on a property set that
    carries its [Config] (whose UUID every message formats).  It fails with
    the "must have a snapshot" error (NoSnapshot) when no snapshot is
    present; with the "exactly one root snapshot" error when the number of
    root snapshots is not 1, and with the "must not have children" error when
    the single root snapshot has children (both AmbiguousSnapshot); with the
    "current snapshot must match root snapshot" error (SnapshotMismatch) when
    the single root is childless and the current snapshot's value differs
    from the root's; and it succeeds exactly when there is one childless root
    snapshot whose value is that of the current snapshot. *)
Theorem validateCloneSnapshots_spec props config :
  vm_Config props = Some config →
  let uuid := Uuid config in
  (vm_Snapshot props = None →
     validateCloneSnapshots props = Err (MustHaveSnapshot uuid)) ∧
  (∀ snapshot,
     vm_Snapshot props = Some snapshot →
     length (RootSnapshotList snapshot) ≠ 1%nat →
     validateCloneSnapshots props
     = Err (MustHaveOneRootSnapshot uuid (length (RootSnapshotList snapshot)))) ∧
  (∀ snapshot root,
     vm_Snapshot props = Some snapshot →
     RootSnapshotList snapshot = [root] →
     ChildSnapshotList root ≠ [] →
     validateCloneSnapshots props = Err (RootSnapshotHasChildren uuid)) ∧
  (∀ snapshot root current,
     vm_Snapshot props = Some snapshot →
     RootSnapshotList snapshot = [root] →
     ChildSnapshotList root = [] →
     CurrentSnapshot snapshot = Some current →
     Value current ≠ Value (Snapshot root) →
     validateCloneSnapshots props = Err (CurrentSnapshotMismatch uuid)) ∧
  (validateCloneSnapshots props = Ok tt ↔ singleSnapshot props).
Proof.
  intros Hconfig uuid.
  pose proof (configUuid_Some _ _ Hconfig) as Huuid. fold uuid in Huuid.
  repeat split.
  - intros Hnone. unfold validateCloneSnapshots. by rewrite Hnone, Huuid.
  - intros snapshot Hsnap Hlen. unfold validateCloneSnapshots. rewrite Hsnap.
    rewrite (proj2 (Nat.eqb_neq _ _) Hlen). cbn [negb]. by rewrite Huuid.
  - intros snapshot root Hsnap Hroots Hchildren.
    unfold validateCloneSnapshots. rewrite Hsnap, Hroots. cbn.
    destruct (ChildSnapshotList root); [done|]. cbn. by rewrite Huuid.
  - intros snapshot root current Hsnap Hroots Hchildren Hcurrent Hne.
    unfold validateCloneSnapshots. rewrite Hsnap, Hroots, Hchildren, Hcurrent. cbn.
    rewrite (proj2 (String.eqb_neq _ _) Hne). cbn. by rewrite Huuid.
  - apply validateCloneSnapshots_Ok.
  - apply validateCloneSnapshots_Ok.
Qed.

(** One childless root snapshot but no current snapshot: the comparison
    dereferences the nil [CurrentSnapshot]. *)
Lemma validateCloneSnapshots_without_current props snapshot root :
  vm_Snapshot props = Some snapshot →
  RootSnapshotList snapshot = [root] →
  ChildSnapshotList root = [] →
  CurrentSnapshot snapshot = None →
  validateCloneSnapshots props
  = Panic "invalid memory address or nil pointer dereference".
Proof.
  intros Hsnap Hroots Hchildren Hcurrent. unfold validateCloneSnapshots.
  by rewrite Hsnap, Hroots, Hchildren, Hcurrent.
Qed.

(** ** A template to run the code on *)

Definition snapshot12 : ManagedObjectReference :=
  {| Type_ := "VirtualMachineSnapshot"; Value := "snapshot-12" |}.

Definition templateUuid : string := "4207b5e2-9d4a-4f6b-8a6e-0c1d2e3f4a5b".

(** A source with one childless root snapshot, which is the current one,
    in the given power state. *)
Definition template (powerState : string) : VirtualMachine :=
  {| vm_Config := Some {| Uuid := templateUuid; Hardware_Device := [] |};
     vm_PowerState := powerState;
     vm_Snapshot := Some {| CurrentSnapshot := Some snapshot12;
                            RootSnapshotList := [SnapshotTree snapshot12 []] |} |}.

Definition datastore1 : ManagedObjectReference :=
  {| Type_ := "Datastore"; Value := "datastore-1" |}.

Definition vm42 : ManagedObjectReference :=
  {| Type_ := "VirtualMachine"; Value := "vm-42" |}.

Definition clientOf (props : VirtualMachine) : Client :=
  {| FromUUID := λ _, Ok vm42;
     Properties := λ _, Ok props;
     DatastoreFromID := λ _, Ok datastore1 |}.

Definition linkedRequest : ResourceData :=
  {| datastore_id := "datastore-1"; template_uuid := templateUuid; linked_clone := true |}.

Definition noDisks (d : ResourceData) (c : Client) (l : list virtualdevice.BaseVirtualDevice)
    : Result string (list VirtualMachineRelocateSpecDiskLocator) := Ok [].

Definition disksFit (d : ResourceData) (c : Client) (l : list virtualdevice.BaseVirtualDevice)
    : Result string unit := Ok tt.

Lemma validateCloneSnapshots_spec_witness :
  vm_Config (template "poweredOff")
  = Some {| Uuid := templateUuid; Hardware_Device := [] |} ∧
  validateCloneSnapshots (template "poweredOff") = Ok tt.
Proof.
  split; [reflexivity|].
  apply (validateCloneSnapshots_spec (template "poweredOff")
           {| Uuid := templateUuid; Hardware_Device := [] |} eq_refl).
  exists {| CurrentSnapshot := Some snapshot12;
            RootSnapshotList := [SnapshotTree snapshot12 []] |},
         (SnapshotTree snapshot12 []), snapshot12.
  repeat split.
Defined.

(** The scenarios that C3 leaves out, on the code.  A property set without
    [Config] and without snapshots is not answered with the "must have a
    snapshot" error, and one whose single childless root snapshot comes
    without a current snapshot is not answered with the mismatch error: in
    both the code dereferences a nil pointer. *)
Lemma validateCloneSnapshots_nil_dereference :
  validateCloneSnapshots
    {| vm_Config := None; vm_PowerState := "poweredOff"; vm_Snapshot := None |}
  = Panic "invalid memory address or nil pointer dereference" ∧
  validateCloneSnapshots
    {| vm_Config := Some {| Uuid := templateUuid; Hardware_Device := [] |};
       vm_PowerState := "poweredOff";
       vm_Snapshot := Some {| CurrentSnapshot := None;
                              RootSnapshotList := [SnapshotTree snapshot12 []] |} |}
  = Panic "invalid memory address or nil pointer dereference".
Proof. split; reflexivity. Qed.

(** ** Steps of a logged computation *)

Lemma Logged_bind_snd {A B} (m : Logged A) (k : A → Logged B) :
  (m ≫= k).2 = match m.2 with
               | Ok a => (k a).2
               | Err e => Err e
               | Panic msg => Panic msg
               end.
Proof.
  destruct m as [lines [a|e|msg]]; cbn; [|done|done]. by destruct (k a).
Qed.

Lemma Logged_bind_fst_Err {A B} (m : Logged A) (k : A → Logged B) e :
  m.2 = Err e → m ≫= k = (m.1, Err e).
Proof. destruct m as [lines [a|e'|msg]]; cbn; [done| |done]. by intros [= ->]. Qed.

Lemma Logged_bind_Printf {B} line (k : unit → Logged B) :
  Printf line ≫= k = (line :: (k tt).1, (k tt).2).
Proof. cbn. by destruct (k tt). Qed.

Lemma Logged_bind_quiet_Ok {A B} (a : A) (k : A → Logged B) :
  quiet (Ok a) ≫= k = k a.
Proof. cbn. by destruct (k a). Qed.

(** ** ValidateVirtualMachineClone and the power state *)

(** The scenario of C4 on the code: the source is powered on, a linked clone
    is requested, and [ExpandVirtualMachineCloneSpec] returns a clone spec. *)
Lemma ExpandVirtualMachineCloneSpec_powered_on :
  vm_PowerState (template "poweredOn") = "poweredOn" ∧
  linked_clone linkedRequest = true ∧
  (ExpandVirtualMachineCloneSpec noDisks linkedRequest (clientOf (template "poweredOn"))).2
  = Ok {| Location := {| Datastore := Some datastore1;
                         DiskMoveType := "createNewChildDiskBacking";
                         Disk := [] |};
          spec_Snapshot := Some snapshot12 |}.
Proof. repeat split. Qed.

Section CloneProps.

Variable DiskCloneValidateOperation :
  ResourceData → Client → list virtualdevice.BaseVirtualDevice → Result string unit.
Variable DiskCloneRelocateOperation :
  ResourceData → Client → list virtualdevice.BaseVirtualDevice →
  Result string (list VirtualMachineRelocateSpecDiskLocator).

Lemma validateCloneSnapshots_not_power (props : VirtualMachine) uuid :
  validateCloneSnapshots props ≠ Err (MustBePoweredOff uuid).
Proof.
  unfold validateCloneSnapshots, configUuid.
  destruct (vm_Snapshot props) as [snapshot|]; [|by destruct (vm_Config props)].
  destruct (negb _); [by destruct (vm_Config props)|].
  destruct (RootSnapshotList snapshot) as [|root roots]; [done|].
  destruct (0 <? _)%nat; [by destruct (vm_Config props)|].
  destruct (CurrentSnapshot snapshot) as [current|]; [|done].
  destruct (negb _); [by destruct (vm_Config props)|done].
Qed.

(** The outcome of [ExpandVirtualMachineCloneSpec], without the log. *)
Lemma ExpandVirtualMachineCloneSpec_outcome (d : ResourceData) (c : Client) :
  (ExpandVirtualMachineCloneSpec DiskCloneRelocateOperation d c).2
  = (dsRef ← match DatastoreFromID c (datastore_id d) with
             | Ok ds => Ok ds
             | Err cause => Err (ErrorLocatingDatastore cause)
             | Panic msg => Panic msg
             end;
     vm ← match FromUUID c (template_uuid d) with
          | Ok vm => Ok vm
          | Err cause => Err (CannotLocateVirtualMachine (template_uuid d) cause)
          | Panic msg => Panic msg
          end;
     vprops ← match Properties c vm with
              | Ok vprops => Ok vprops
              | Err cause => Err (ErrorFetchingProperties cause)
              | Panic msg => Panic msg
              end;
     spec ← (if linked_clone d then
               _ ← validateCloneSnapshots vprops;
               current ← currentSnapshot vprops;
               _ ← referenceValue current;
               Ok (set_DiskMoveType
                     VirtualMachineRelocateDiskMoveOptionsCreateNewChildDiskBacking
                     (set_Snapshot current (set_Datastore (Some dsRef) emptyCloneSpec)))
             else Ok (set_Datastore (Some dsRef) emptyCloneSpec));
     l ← hardwareDevices vprops;
     relocators ← external (DiskCloneRelocateOperation d c l);
     Ok (set_Disk relocators spec)).
Proof.
  unfold ExpandVirtualMachineCloneSpec.
  rewrite Logged_bind_snd. cbn [Printf snd].
  rewrite Logged_bind_snd. cbn [quiet snd].
  destruct (DatastoreFromID c (datastore_id d)) as [dsRef| |];
    cbn [mbind Result_bind]; [|reflexivity|reflexivity].
  rewrite Logged_bind_snd. cbn [Printf snd].
  rewrite Logged_bind_snd. cbn [quiet snd].
  destruct (FromUUID c (template_uuid d)) as [vm| |];
    cbn [mbind Result_bind]; [|reflexivity|reflexivity].
  rewrite Logged_bind_snd. cbn [quiet snd].
  destruct (Properties c vm) as [vprops| |];
    cbn [mbind Result_bind]; [|reflexivity|reflexivity].
  rewrite Logged_bind_snd.
  assert (Hrest : ∀ spec,
    (l ← quiet (hardwareDevices vprops);
     relocators ← quiet (external (DiskCloneRelocateOperation d c l));
     let spec := set_Disk relocators spec in
     _ ← Printf "[DEBUG] ExpandVirtualMachineCloneSpec: Clone spec prep complete";
     mret spec).2
    = (l ← hardwareDevices vprops;
       relocators ← external (DiskCloneRelocateOperation d c l);
       Ok (set_Disk relocators spec))).
  { intros spec. rewrite Logged_bind_snd. cbn [quiet snd].
    destruct (hardwareDevices vprops) as [l| |];
      cbn [mbind Result_bind]; [|reflexivity|reflexivity].
    rewrite Logged_bind_snd. cbn [quiet snd].
    destruct (external (DiskCloneRelocateOperation d c l));
      cbn [mbind Result_bind]; reflexivity. }
  destruct (linked_clone d).
  - rewrite Logged_bind_snd. cbn [Printf snd].
    rewrite Logged_bind_snd. cbn [Printf snd].
    rewrite Logged_bind_snd. cbn [quiet snd].
    destruct (validateCloneSnapshots vprops) as [[]| |];
      cbn [mbind Result_bind]; [|reflexivity|reflexivity].
    rewrite Logged_bind_snd. cbn [quiet snd].
    destruct (currentSnapshot vprops) as [current| |];
      cbn [mbind Result_bind]; [|reflexivity|reflexivity].
    rewrite Logged_bind_snd. cbn [quiet snd].
    destruct (referenceValue current) as [value| |];
      cbn [mbind Result_bind]; [|reflexivity|reflexivity].
    rewrite Logged_bind_snd. cbn [Printf snd mret Logged_ret].
    apply Hrest.
  - cbn [mret Logged_ret snd]. apply Hrest.
Qed.

(** C4, amended. The power state is checked by [ValidateVirtualMachineClone]:
    for a source that is not powered off it fails with the "must be powered
    off" error (SourceNotPoweredOff), linked clone or not, having written
    only its first log line, so before the snapshot check and its log line.
    [ExpandVirtualMachineCloneSpec] makes no such check: it never returns
    that error. *)
Theorem ValidateVirtualMachineClone_power_state (d : ResourceData) (c : Client) vm vprops :
  FromUUID c (template_uuid d) = Ok vm →
  Properties c vm = Ok vprops →
  vm_PowerState vprops ≠ VirtualMachinePowerStatePoweredOff →
  ValidateVirtualMachineClone DiskCloneValidateOperation d c
  = (["[DEBUG] ValidateVirtualMachineClone: Validating fitness of source VM/template "
      +:+ template_uuid d],
     Err (MustBePoweredOff (template_uuid d))) ∧
  ∀ d' c' uuid,
    (ExpandVirtualMachineCloneSpec DiskCloneRelocateOperation d' c').2
    ≠ Err (MustBePoweredOff uuid).
Proof.
  intros Hvm Hprops Hpower. split.
  - unfold ValidateVirtualMachineClone.
    rewrite Logged_bind_Printf, Hvm, Logged_bind_quiet_Ok, Hprops, Logged_bind_quiet_Ok.
    by rewrite (proj2 (String.eqb_neq _ _) Hpower).
  - clear. intros d c uuid. rewrite ExpandVirtualMachineCloneSpec_outcome.
    destruct (DatastoreFromID c (datastore_id d)) as [dsRef| |];
      cbn [mbind Result_bind]; [|done|done].
    destruct (FromUUID c (template_uuid d)) as [vm| |];
      cbn [mbind Result_bind]; [|done|done].
    destruct (Properties c vm) as [vprops| |];
      cbn [mbind Result_bind]; [|done|done].
    assert (Hrest : ∀ spec,
      (l ← hardwareDevices vprops;
       relocators ← external (DiskCloneRelocateOperation d c l);
       Ok (set_Disk relocators spec)) ≠ Err (MustBePoweredOff uuid)).
    { intros spec. unfold hardwareDevices.
      destruct (vm_Config vprops) as [config|]; cbn [mbind Result_bind]; [|done].
      destruct (DiskCloneRelocateOperation d c _); cbn; done. }
    destruct (linked_clone d); [|apply Hrest].
    pose proof (validateCloneSnapshots_not_power vprops uuid) as Hv.
    destruct (validateCloneSnapshots vprops) as [[]|e|];
      cbn [mbind Result_bind]; [|congruence|done].
    unfold currentSnapshot.
    destruct (vm_Snapshot vprops) as [snapshot|]; cbn [mbind Result_bind]; [|done].
    destruct (CurrentSnapshot snapshot) as [current|];
      cbn [mbind Result_bind referenceValue]; [|done].
    apply Hrest.
Qed.

(** ** ExpandVirtualMachineCloneSpec *)

(** C8. Whenever [ExpandVirtualMachineCloneSpec] returns a clone spec, the
    spec's target datastore is the reference the datastore look-up resolved;
    for a linked clone its snapshot reference is the source's current
    snapshot and its disk move type is "createNewChildDiskBacking"; otherwise
    the snapshot reference is nil and the disk move type is empty.  And it
    does return a spec when the look-ups succeed, the source carries its
    [Config], the disks relocate, and, for a linked clone, the source has the
    single snapshot the validation asks for. *)
Theorem ExpandVirtualMachineCloneSpec_spec (d : ResourceData) (c : Client) :
  let out := (ExpandVirtualMachineCloneSpec DiskCloneRelocateOperation d c).2 in
  (∀ spec, out = Ok spec →
     ∃ dsRef vm vprops,
       DatastoreFromID c (datastore_id d) = Ok dsRef ∧
       FromUUID c (template_uuid d) = Ok vm ∧
       Properties c vm = Ok vprops ∧
       Datastore (Location spec) = Some dsRef ∧
       if linked_clone d then
         ∃ snapshot current,
           vm_Snapshot vprops = Some snapshot ∧
           CurrentSnapshot snapshot = Some current ∧
           spec_Snapshot spec = Some current ∧
           DiskMoveType (Location spec)
           = VirtualMachineRelocateDiskMoveOptionsCreateNewChildDiskBacking
       else spec_Snapshot spec = None ∧ DiskMoveType (Location spec) = "") ∧
  (∀ dsRef vm vprops config relocators,
     DatastoreFromID c (datastore_id d) = Ok dsRef →
     FromUUID c (template_uuid d) = Ok vm →
     Properties c vm = Ok vprops →
     vm_Config vprops = Some config →
     DiskCloneRelocateOperation d c (Hardware_Device config) = Ok relocators →
     (linked_clone d = true → singleSnapshot vprops) →
     ∃ spec, out = Ok spec ∧ Disk (Location spec) = relocators).
Proof.
  intros out. subst out. rewrite ExpandVirtualMachineCloneSpec_outcome. split.
  - intros spec.
    destruct (DatastoreFromID c (datastore_id d)) as [dsRef| |] eqn:Hds;
      cbn [mbind Result_bind]; [|done|done].
    destruct (FromUUID c (template_uuid d)) as [vm| |] eqn:Hvm;
      cbn [mbind Result_bind]; [|done|done].
    destruct (Properties c vm) as [vprops| |] eqn:Hprops;
      cbn [mbind Result_bind]; [|done|done].
    intros Hspec.
    exists dsRef, vm, vprops. do 3 (split; [done|]).
    destruct (linked_clone d).
    + destruct (validateCloneSnapshots vprops) as [[]| |];
        cbn [mbind Result_bind] in Hspec; [|done|done].
      unfold currentSnapshot in Hspec.
      destruct (vm_Snapshot vprops) as [snapshot|];
        cbn [mbind Result_bind] in Hspec; [|done].
      destruct (CurrentSnapshot snapshot) as [current|] eqn:Hcurrent;
        cbn [mbind Result_bind referenceValue] in Hspec; [|done].
      destruct (hardwareDevices vprops) as [l| |];
        cbn [mbind Result_bind] in Hspec; [|done|done].
      destruct (external (DiskCloneRelocateOperation d c l)) as [relocators| |];
        cbn [mbind Result_bind] in Hspec; [|done|done].
      injection Hspec as <-. split; [done|]. by exists snapshot, current.
    + cbn [mbind Result_bind] in Hspec.
      destruct (hardwareDevices vprops) as [l| |];
        cbn [mbind Result_bind] in Hspec; [|done|done].
      destruct (external (DiskCloneRelocateOperation d c l)) as [relocators| |];
        cbn [mbind Result_bind] in Hspec; [|done|done].
      by injection Hspec as <-.
  - intros dsRef vm vprops config relocators Hds Hvm Hprops Hconfig Hdisks Hlinked.
    rewrite Hds. cbn [mbind Result_bind].
    rewrite Hvm. cbn [mbind Result_bind].
    rewrite Hprops. cbn [mbind Result_bind].
    unfold hardwareDevices. rewrite Hconfig.
    destruct (linked_clone d).
    + destruct (Hlinked eq_refl)
        as (snapshot & root & current & Hsnap & Hroots & Hchildren & Hcurrent & Heq).
      rewrite (proj2 (validateCloneSnapshots_Ok vprops)) by (by apply Hlinked).
      unfold currentSnapshot. rewrite Hsnap, Hcurrent.
      cbn [mbind Result_bind referenceValue]. rewrite Hdisks. cbn.
      eexists. split; reflexivity.
    + cbn [mbind Result_bind]. rewrite Hdisks. cbn. eexists. split; reflexivity.
Qed.

End CloneProps.

Lemma ValidateVirtualMachineClone_power_state_witness :
  ValidateVirtualMachineClone disksFit linkedRequest (clientOf (template "poweredOn"))
  = (["[DEBUG] ValidateVirtualMachineClone: Validating fitness of source VM/template "
      +:+ templateUuid],
     Err (MustBePoweredOff templateUuid)).
Proof.
  exact (proj1 (ValidateVirtualMachineClone_power_state disksFit noDisks
                  linkedRequest (clientOf (template "poweredOn")) vm42
                  (template "poweredOn") eq_refl eq_refl ltac:(discriminate))).
Defined.

(** C8 at the powered-off template, linked clone requested. *)
Lemma ExpandVirtualMachineCloneSpec_spec_witness :
  ∃ spec,
    (ExpandVirtualMachineCloneSpec noDisks linkedRequest (clientOf (template "poweredOff"))).2
    = Ok spec ∧ Disk (Location spec) = [].
Proof.
  refine (proj2 (ExpandVirtualMachineCloneSpec_spec noDisks linkedRequest
                   (clientOf (template "poweredOff")))
            datastore1 vm42 (template "poweredOff")
            {| Uuid := templateUuid; Hardware_Device := [] |} []
            eq_refl eq_refl eq_refl eq_refl eq_refl _).
  intros _.
  exists {| CurrentSnapshot := Some snapshot12;
            RootSnapshotList := [SnapshotTree snapshot12 []] |},
         (SnapshotTree snapshot12 []), snapshot12.
  repeat split.
Defined.

Example ExpandVirtualMachineCloneSpec_full_clone :
  (ExpandVirtualMachineCloneSpec noDisks
     {| datastore_id := "datastore-1"; template_uuid := templateUuid; linked_clone := false |}
     (clientOf (template "poweredOff"))).2
  = Ok {| Location := {| Datastore := Some datastore1; DiskMoveType := ""; Disk := [] |};
          spec_Snapshot := None |}.
Proof. reflexivity. Qed.

(** ** Validation and build together *)

(** The errors of [validateCloneSnapshots]. *)
Definition snapshotError (e : error) : bool :=
  match e with
  | MustHaveSnapshot _ | MustHaveOneRootSnapshot _ _
  | RootSnapshotHasChildren _ | CurrentSnapshotMismatch _ => true
  | _ => false
  end.

(** The UUID an error of [validateCloneSnapshots] names. *)
Definition namedUuid (e : error) : option string :=
  match e with
  | MustHaveSnapshot uuid | MustHaveOneRootSnapshot uuid _
  | RootSnapshotHasChildren uuid | CurrentSnapshotMismatch uuid => Some uuid
  | _ => None
  end.

(** X12. On a property set that carries its [Config] and, whenever it has
    snapshot information, a current snapshot, [validateCloneSnapshots] does
    not panic: it succeeds or returns one of its four errors, and the error
    names the UUID of the source. *)
Theorem validateCloneSnapshots_no_panic props config :
  vm_Config props = Some config →
  (∀ snapshot, vm_Snapshot props = Some snapshot → is_Some (CurrentSnapshot snapshot)) →
  validateCloneSnapshots props = Ok tt
  ∨ ∃ e, validateCloneSnapshots props = Err e ∧
         snapshotError e = true ∧ namedUuid e = Some (Uuid config).
Proof.
  intros Hconfig Hcurrent. unfold validateCloneSnapshots.
  rewrite (configUuid_Some _ _ Hconfig).
  destruct (vm_Snapshot props) as [snapshot|]; cbn [mbind Result_bind];
    [|right; by eexists].
  destruct (Hcurrent snapshot eq_refl) as [current ->].
  destruct (RootSnapshotList snapshot) as [|root [|root' roots]]; cbn;
    [right; by eexists| |right; by eexists].
  destruct (ChildSnapshotList root); cbn; [|right; by eexists].
  destruct (String.eqb _ _); cbn; [by left|right; by eexists].
Qed.

Section ValidateThenExpand.

Variable DiskCloneValidateOperation :
  ResourceData → Client → list virtualdevice.BaseVirtualDevice → Result string unit.
Variable DiskCloneRelocateOperation :
  ResourceData → Client → list virtualdevice.BaseVirtualDevice →
  Result string (list VirtualMachineRelocateSpecDiskLocator).

(** The outcome of [ValidateVirtualMachineClone], without the log. *)
Lemma ValidateVirtualMachineClone_outcome (d : ResourceData) (c : Client) :
  (ValidateVirtualMachineClone DiskCloneValidateOperation d c).2
  = (vm ← match FromUUID c (template_uuid d) with
          | Ok vm => Ok vm
          | Err cause => Err (CannotLocateVirtualMachine (template_uuid d) cause)
          | Panic msg => Panic msg
          end;
     vprops ← match Properties c vm with
              | Ok vprops => Ok vprops
              | Err cause => Err (ErrorFetchingProperties cause)
              | Panic msg => Panic msg
              end;
     if negb (String.eqb (vm_PowerState vprops) VirtualMachinePowerStatePoweredOff)
     then Err (MustBePoweredOff (template_uuid d)) else
     _ ← (if linked_clone d then validateCloneSnapshots vprops else Ok tt);
     l ← hardwareDevices vprops;
     external (DiskCloneValidateOperation d c l)).
Proof.
  unfold ValidateVirtualMachineClone.
  rewrite Logged_bind_snd. cbn [Printf snd].
  rewrite Logged_bind_snd. cbn [quiet snd].
  destruct (FromUUID c (template_uuid d)) as [vm| |];
    cbn [mbind Result_bind]; [|reflexivity|reflexivity].
  rewrite Logged_bind_snd. cbn [quiet snd].
  destruct (Properties c vm) as [vprops| |];
    cbn [mbind Result_bind]; [|reflexivity|reflexivity].
  destruct (negb _); [reflexivity|].
  rewrite Logged_bind_snd.
  assert (Hrest :
    (l ← quiet (hardwareDevices vprops);
     _ ← quiet (external (DiskCloneValidateOperation d c l));
     Printf ("[DEBUG] ValidateVirtualMachineClone: Source VM/template "
             +:+ template_uuid d +:+ " is a suitable source for cloning")).2
    = (l ← hardwareDevices vprops; external (DiskCloneValidateOperation d c l))).
  { rewrite Logged_bind_snd. cbn [quiet snd].
    destruct (hardwareDevices vprops) as [l| |];
      cbn [mbind Result_bind]; [|reflexivity|reflexivity].
    rewrite Logged_bind_snd. cbn [quiet snd].
    by destruct (external (DiskCloneValidateOperation d c l)) as [[]| |]. }
  destruct (linked_clone d).
  - rewrite Logged_bind_snd. cbn [Printf quiet snd].
    destruct (validateCloneSnapshots vprops) as [[]| |];
      cbn [mbind Result_bind]; [|reflexivity|reflexivity].
    apply Hrest.
  - cbn [mret Logged_ret snd mbind Result_bind]. apply Hrest.
Qed.

(** X9. When validation passes.  [ValidateVirtualMachineClone] succeeds
    exactly when the source is found, its properties are fetched, it is
    powered off, it has the single snapshot a linked clone needs (if a linked
    clone is requested), it carries its [Config], and the disk validation
    succeeds. *)
Theorem ValidateVirtualMachineClone_Ok (d : ResourceData) (c : Client) :
  (ValidateVirtualMachineClone DiskCloneValidateOperation d c).2 = Ok tt ↔
  ∃ vm vprops config,
    FromUUID c (template_uuid d) = Ok vm ∧
    Properties c vm = Ok vprops ∧
    vm_PowerState vprops = VirtualMachinePowerStatePoweredOff ∧
    (linked_clone d = true → singleSnapshot vprops) ∧
    vm_Config vprops = Some config ∧
    DiskCloneValidateOperation d c (Hardware_Device config) = Ok tt.
Proof.
  rewrite ValidateVirtualMachineClone_outcome. split.
  - destruct (FromUUID c (template_uuid d)) as [vm| |] eqn:Hvm;
      cbn [mbind Result_bind]; [|done|done].
    destruct (Properties c vm) as [vprops| |] eqn:Hprops;
      cbn [mbind Result_bind]; [|done|done].
    destruct (String.eqb _ _) eqn:Hpower; cbn [negb]; [|done].
    apply String.eqb_eq in Hpower.
    intros Hrun. exists vm, vprops.
    assert (Hsnap : linked_clone d = true → singleSnapshot vprops).
    { intros Hlinked. rewrite Hlinked in Hrun. apply validateCloneSnapshots_Ok.
      by destruct (validateCloneSnapshots vprops) as [[]| |]. }
    assert (Hrest : (l ← hardwareDevices vprops;
                     external (DiskCloneValidateOperation d c l)) = Ok tt).
    { destruct (linked_clone d); [|exact Hrun].
      by destruct (validateCloneSnapshots vprops) as [[]| |]. }
    unfold hardwareDevices in Hrest.
    destruct (vm_Config vprops) as [config|]; [|done].
    cbn [mbind Result_bind] in Hrest.
    exists config. repeat split; try done.
    by destruct (DiskCloneValidateOperation d c (Hardware_Device config)) as [[]| |].
  - intros (vm & vprops & config & Hvm & Hprops & Hpower & Hsnap & Hconfig & Hdisks).
    rewrite Hvm. cbn [mbind Result_bind]. rewrite Hprops. cbn [mbind Result_bind].
    rewrite Hpower. rewrite String.eqb_refl. cbn [negb].
    unfold hardwareDevices. rewrite Hconfig.
    destruct (linked_clone d).
    + rewrite (proj2 (validateCloneSnapshots_Ok vprops) (Hsnap eq_refl)).
      cbn [mbind Result_bind]. by rewrite Hdisks.
    + cbn [mbind Result_bind]. by rewrite Hdisks.
Qed.

(** X10. After a successful validation the build re-validates in vain: if
    [ValidateVirtualMachineClone] succeeds and the target datastore resolves,
    then [ExpandVirtualMachineCloneSpec] on the same answers fails only if
    the disk relocation fails, and otherwise returns the spec with the
    resolved datastore, the relocated disks and, for a linked clone, the
    current snapshot and "createNewChildDiskBacking". *)
Theorem ExpandVirtualMachineCloneSpec_after_validation (d : ResourceData) (c : Client) dsRef :
  (ValidateVirtualMachineClone DiskCloneValidateOperation d c).2 = Ok tt →
  DatastoreFromID c (datastore_id d) = Ok dsRef →
  ∃ vm vprops config,
    FromUUID c (template_uuid d) = Ok vm ∧
    Properties c vm = Ok vprops ∧
    vm_Config vprops = Some config ∧
    (ExpandVirtualMachineCloneSpec DiskCloneRelocateOperation d c).2
    = match DiskCloneRelocateOperation d c (Hardware_Device config) with
      | Ok relocators =>
          Ok {| Location :=
                  {| Datastore := Some dsRef;
                     DiskMoveType :=
                       if linked_clone d
                       then VirtualMachineRelocateDiskMoveOptionsCreateNewChildDiskBacking
                       else "";
                     Disk := relocators |};
                spec_Snapshot :=
                  if linked_clone d then vm_Snapshot vprops ≫= CurrentSnapshot
                  else None |}
      | Err msg => Err (External msg)
      | Panic msg => Panic msg
      end.
Proof.
  intros (vm & vprops & config & Hvm & Hprops & _ & Hsnap & Hconfig & _)
         %ValidateVirtualMachineClone_Ok Hds.
  exists vm, vprops, config. do 3 (split; [done|]).
  rewrite ExpandVirtualMachineCloneSpec_outcome.
  rewrite Hds. cbn [mbind Result_bind]. rewrite Hvm. cbn [mbind Result_bind].
  rewrite Hprops. cbn [mbind Result_bind].
  unfold hardwareDevices. rewrite Hconfig.
  destruct (linked_clone d).
  - destruct (Hsnap eq_refl)
      as (snapshot & root & current & Hs & Hroots & Hchildren & Hcurrent & Heq).
    rewrite (proj2 (validateCloneSnapshots_Ok vprops) (Hsnap eq_refl)).
    unfold currentSnapshot. rewrite Hs, Hcurrent.
    cbn [mbind Result_bind referenceValue option_bind]. rewrite Hcurrent.
    by destruct (DiskCloneRelocateOperation d c (Hardware_Device config)).
  - cbn [mbind Result_bind].
    by destruct (DiskCloneRelocateOperation d c (Hardware_Device config)).
Qed.

(** X11. A full clone never fails over snapshots: when linked_clone is not
    requested, no error that [ValidateVirtualMachineClone] or
    [ExpandVirtualMachineCloneSpec] returns is one of the snapshot errors,
    whatever the snapshot tree of the source looks like. *)
Theorem full_clone_ignores_snapshots (d : ResourceData) (c : Client) e :
  linked_clone d = false →
  (ValidateVirtualMachineClone DiskCloneValidateOperation d c).2 = Err e
  ∨ (ExpandVirtualMachineCloneSpec DiskCloneRelocateOperation d c).2 = Err e →
  snapshotError e = false.
Proof.
  intros Hfull.
  rewrite ValidateVirtualMachineClone_outcome, ExpandVirtualMachineCloneSpec_outcome.
  rewrite Hfull. cbn [mbind Result_bind].
  destruct (DatastoreFromID c (datastore_id d)) as [dsRef| |];
    destruct (FromUUID c (template_uuid d)) as [vm| |];
    cbn [mbind Result_bind]; try (intros [[= <-]|[= <-]]; done);
    try (intros [|]; try done; by intros [= <-]).
  all: destruct (Properties c vm) as [vprops| |];
    cbn [mbind Result_bind]; try (intros [[= <-]|[= <-]]; done);
    try (intros [|]; try done; by intros [= <-]).
  all: unfold hardwareDevices, external;
    destruct (negb _); destruct (vm_Config vprops) as [config|];
    cbn [mbind Result_bind];
    try destruct (DiskCloneValidateOperation d c _) as [[]| |];
    try destruct (DiskCloneRelocateOperation d c _);
    cbn [mbind Result_bind];
    try (intros [[= <-]|[= <-]]; done);
    try (intros [|]; try done; by intros [= <-]).
Qed.

End ValidateThenExpand.

(** *** On the template *)

(** A source without snapshot information, in the given power state. *)
Definition bareTemplate (powerState : string) : VirtualMachine :=
  {| vm_Config := Some {| Uuid := templateUuid; Hardware_Device := [] |};
     vm_PowerState := powerState;
     vm_Snapshot := None |}.

Definition fullRequest : ResourceData :=
  {| datastore_id := "datastore-1"; template_uuid := templateUuid; linked_clone := false |}.

(** X12 at the source without snapshots. *)
Lemma validateCloneSnapshots_no_panic_witness :
  validateCloneSnapshots (bareTemplate "poweredOff") = Ok tt
  ∨ ∃ e, validateCloneSnapshots (bareTemplate "poweredOff") = Err e ∧
         snapshotError e = true ∧ namedUuid e = Some templateUuid.
Proof.
  exact (validateCloneSnapshots_no_panic (bareTemplate "poweredOff")
           {| Uuid := templateUuid; Hardware_Device := [] |} eq_refl
           ltac:(discriminate)).
Defined.

(** X10 at the powered-off template, linked clone requested. *)
Lemma ExpandVirtualMachineCloneSpec_after_validation_witness :
  ∃ vm vprops config,
    FromUUID (clientOf (template "poweredOff")) templateUuid = Ok vm ∧
    Properties (clientOf (template "poweredOff")) vm = Ok vprops ∧
    vm_Config vprops = Some config ∧
    (ExpandVirtualMachineCloneSpec noDisks linkedRequest
       (clientOf (template "poweredOff"))).2
    = Ok {| Location :=
              {| Datastore := Some datastore1;
                 DiskMoveType :=
                   VirtualMachineRelocateDiskMoveOptionsCreateNewChildDiskBacking;
                 Disk := [] |};
            spec_Snapshot := vm_Snapshot vprops ≫= CurrentSnapshot |}.
Proof.
  exact (ExpandVirtualMachineCloneSpec_after_validation disksFit noDisks linkedRequest
           (clientOf (template "poweredOff")) datastore1 eq_refl eq_refl).
Defined.

(** X11 at a powered-on source without snapshots. *)
Lemma full_clone_ignores_snapshots_witness :
  (ValidateVirtualMachineClone disksFit fullRequest
     (clientOf (bareTemplate "poweredOn"))).2
  = Err (MustBePoweredOff templateUuid) ∧
  snapshotError (MustBePoweredOff templateUuid) = false.
Proof.
  split; [reflexivity|].
  exact (full_clone_ignores_snapshots disksFit noDisks fullRequest
           (clientOf (bareTemplate "poweredOn")) (MustBePoweredOff templateUuid)
           eq_refl (or_introl eq_refl)).
Defined.

(** ** What the two functions log *)

(** Two strings that differ at one of their first [n] characters. *)
Fixpoint differAt (n : nat) (a b : string) : bool :=
  match n, a, b with
  | S n, String x a, String y b =>
      if Ascii.eqb x y then differAt n a b else true
  | _, _, _ => false
  end.

Lemma differAt_ne (n : nat) : ∀ a b, differAt n a b = true → a = b → False.
Proof.
  induction n as [|n IH]; intros [|x a] [|y b]; cbn; try done.
  destruct (Ascii.eqb x y) eqn:Hxy; [|intros _ [= -> _]; by rewrite Ascii.eqb_refl in Hxy].
  intros Hd [= _ ->]. by eapply IH.
Qed.

(** Whether a line is among the lines of a log that has been computed. *)
Ltac absent H :=
  repeat match type of H with
         | _ ∨ _ => destruct H as [H|H]
         | False => destruct H
         | ?a = ?b => exact (False_rect _ (differAt_ne 64 a b eq_refl H))
         | ?a = ?b => exact (False_rect _ (differAt_ne 64 b a eq_refl (eq_sym H)))
         end.

Ltac present :=
  lazymatch goal with
  | |- ?b = ?a ∨ _ => first [constr_eq a b; left; reflexivity | right; present]
  end.

Ltac logged :=
  cbn -[String.append]; rewrite !list_elem_of_In; cbn [In];
  solve
    [split;
     [split;
      [first [ intros _; solve [reflexivity | eexists; reflexivity]
             | let H := fresh in intros H; solve [absent H] ]
      |first [ intros _; present
             | let H := fresh in intros H; discriminate H
             | let H := fresh in intros [? H]; discriminate H ]]
     |first [ intros _; reflexivity
            | let H := fresh in intros H; solve [absent H] ]]].

Section LogProps.

Variable DiskCloneValidateOperation :
  ResourceData → Client → list virtualdevice.BaseVirtualDevice → Result string unit.
Variable DiskCloneRelocateOperation :
  ResourceData → Client → list virtualdevice.BaseVirtualDevice →
  Result string (list VirtualMachineRelocateSpecDiskLocator).

(** X13. [ValidateVirtualMachineClone] reports a suitable source in the log
    exactly when it succeeds: its first log line always announces the
    validation of the source, the closing "is a suitable source for cloning"
    line is in the log if and only if the function returns no error, and the
    "Checking snapshots" line is written only for a linked clone. *)
Theorem ValidateVirtualMachineClone_log (d : ResourceData) (c : Client) :
  let out := ValidateVirtualMachineClone DiskCloneValidateOperation d c in
  let tUUID := template_uuid d in
  head out.1
  = Some ("[DEBUG] ValidateVirtualMachineClone: Validating fitness of source VM/template "
          +:+ tUUID) ∧
  (("[DEBUG] ValidateVirtualMachineClone: Source VM/template " +:+ tUUID
    +:+ " is a suitable source for cloning") ∈ out.1 ↔ out.2 = Ok tt) ∧
  (("[DEBUG] ValidateVirtualMachineClone: Checking snapshots on " +:+ tUUID
    +:+ " for linked clone eligibility") ∈ out.1 → linked_clone d = true).
Proof.
  intros out tUUID. subst out tUUID. unfold ValidateVirtualMachineClone.
  rewrite Logged_bind_Printf. cbn [fst snd head].
  split; [reflexivity|].
  destruct (FromUUID c (template_uuid d)) as [vm| |]; [|logged..].
  rewrite Logged_bind_quiet_Ok.
  destruct (Properties c vm) as [vprops| |]; [|logged..].
  rewrite Logged_bind_quiet_Ok.
  destruct (negb _); [logged|].
  unfold hardwareDevices, external.
  destruct (linked_clone d);
    [destruct (validateCloneSnapshots vprops) as [[]| |]|];
    destruct (vm_Config vprops) as [config|];
    try (logged; fail);
    cbn -[String.append];
    destruct (DiskCloneValidateOperation d c (Hardware_Device config)) as [[]| |];
    logged.
Qed.

(** X14. [ExpandVirtualMachineCloneSpec] logs the completion of the clone
    spec exactly when it returns one: its first log line always announces
    the preparation, the closing "Clone spec prep complete" line is in the
    log if and only if a spec is returned, and the "Clone type is a linked
    clone" line is written only for a linked clone. *)
Theorem ExpandVirtualMachineCloneSpec_log (d : ResourceData) (c : Client) :
  let out := ExpandVirtualMachineCloneSpec DiskCloneRelocateOperation d c in
  head out.1 = Some "[DEBUG] ExpandVirtualMachineCloneSpec: Preparing clone spec for VM" ∧
  ("[DEBUG] ExpandVirtualMachineCloneSpec: Clone spec prep complete" ∈ out.1
   ↔ ∃ spec, out.2 = Ok spec) ∧
  ("[DEBUG] ExpandVirtualMachineCloneSpec: Clone type is a linked clone" ∈ out.1
   → linked_clone d = true).
Proof.
  intros out. subst out. unfold ExpandVirtualMachineCloneSpec.
  rewrite Logged_bind_Printf. cbn [fst snd head].
  split; [reflexivity|].
  destruct (DatastoreFromID c (datastore_id d)) as [dsRef| |]; [|logged..].
  rewrite Logged_bind_quiet_Ok. cbv zeta. rewrite Logged_bind_Printf.
  destruct (FromUUID c (template_uuid d)) as [vm| |]; [|logged..].
  rewrite Logged_bind_quiet_Ok.
  destruct (Properties c vm) as [vprops| |]; [|logged..].
  rewrite Logged_bind_quiet_Ok.
  unfold hardwareDevices, external, currentSnapshot, referenceValue.
  destruct (linked_clone d);
    [destruct (validateCloneSnapshots vprops) as [[]| |];
     [destruct (vm_Snapshot vprops) as [snapshot|];
      [destruct (CurrentSnapshot snapshot) as [current|]|]|..]|];
    destruct (vm_Config vprops) as [config|];
    try (logged; fail);
    cbn -[String.append];
    destruct (DiskCloneRelocateOperation d c (Hardware_Device config)) as [relocators| |];
    logged.
Qed.

End LogProps.

End vmworkflow_props.
